(** * Decision logic of the trading strategies: a shallow embedding

    The strategy classes of the repository (EnhancedRiskManagedStrategy,
    DCAStrategy, PortfolioRebalancingStrategy, AggressiveSophisticated1m,
    HighFrequencyScalp1m) are translated method by method.

    Conventions of the embedding:
    - Python floats are exact rationals ([Q]); results are compared with
      [<=], [<] and [==].  Inputs are finite numbers and a zero is [0.0];
      rounding is not modelled.  Two exceptions: a division that numpy
      performs without raising yields an [npfloat], which has [inf],
      [-inf] and [nan]; and the two decisions that rounding can settle
      are translated over IEEE binary64 (part "Python floats as IEEE
      binary64").
    - Python's [max]/[min] are [Qmax]/[Qmin] (both return their first
      argument unless the second is strictly better, as Python does).
    - A [datetime] is a number of seconds; [total_seconds() / 3600] is the
      difference divided by 3600.
    - A call that may raise is a computation in the [result] monad; a
      [try: ... except Exception: return d] block is [try_except body d].
    - A pandas row is a finite map from column names to numbers, a
      dataframe is the list of its rows, oldest first.
    - The collaborators of a strategy (wallet, trade table, data provider,
      environment variables, files) are fields of an explicit [Env]. *)

From Stdlib Require Import PrimFloat.
From Stdlib Require Import QArith Qminmax Qabs Lqa Lia ZArith List String.
From stdpp Require Import base option gmap strings list pretty.

Local Open Scope Q_scope.
#[local] Set Warnings "-inexact-float".

(** ** Python runtime *)

Module Py.

Inductive exn : Set :=
| ZeroDivisionError
| ValueError
| TypeError
| KeyError
| OSError
| RuntimeError.

Inductive result (A : Type) : Type :=
| Ok (a : A)
| Raise (e : exn).
Arguments Ok {A} a.
Arguments Raise {A} e.

#[global] Instance result_ret : MRet result := fun _ a => Ok a.
#[global] Instance result_bind : MBind result := fun _ _ f m =>
  match m with
  | Ok a => f a
  | Raise e => Raise e
  end.

(** [try: body  except Exception: return d] *)
Definition try_except {A} (body : result A) (d : A) : A :=
  match body with
  | Ok a => a
  | Raise _ => d
  end.

Definition Qleb (a b : Q) : bool := Qle_bool a b.
Definition Qltb (a b : Q) : bool := negb (Qle_bool b a).
Definition Qeqb (a b : Q) : bool := Qeq_bool a b.

(** [x or d] on an optional float: [None] and [0.0] are falsy. *)
Definition float_or (x : option Q) (d : Q) : Q :=
  match x with
  | Some v => if Qeqb v 0 then d else v
  | None => d
  end.

(** [a / b] on Python floats. *)
Definition div (a b : Q) : result Q :=
  if Qeqb b 0 then Raise ZeroDivisionError else Ok (a / b).

(** [sum(xs)]: starts from 0 and adds from the left. *)
Definition sum (xs : list Q) : Q := fold_left Qplus xs 0.

(** [needle in hay] on strings. *)
Fixpoint str_in (needle hay : string) : bool :=
  if String.prefix needle hay then true
  else match hay with
       | EmptyString => false
       | String _ rest => str_in needle rest
       end.

(** [x in xs] for a list of string literals. *)
Definition str_elem (x : string) (xs : list string) : bool :=
  existsb (String.eqb x) xs.

(** [max(xs)] of a generator: raises [ValueError] when it is empty. *)
Definition max_of (xs : list Q) : result Q :=
  match xs with
  | [] => Raise ValueError
  | x :: rest => Ok (fold_left Qmax rest x)
  end.

(** A parsed JSON document, as [json.load] returns it. *)
#[local] Unset Elimination Schemes.
Inductive Json : Type :=
| JNull
| JBool (b : bool)
| JNum (q : Q)
| JStr (s : string)
| JArr (items : list Json)
| JObj (fields : list (string * Json)).
#[local] Set Elimination Schemes.

(** Truth value of a JSON value in an [if]. *)
Definition truthy (j : Json) : bool :=
  match j with
  | JNull => false
  | JBool b => b
  | JNum q => negb (Qeqb q 0)
  | JStr s => negb (String.eqb s EmptyString)
  | JArr items => match items with [] => false | _ => true end
  | JObj fields => match fields with [] => false | _ => true end
  end.

(** The dict built from the fields of a JSON object: a later duplicate
    key replaces an earlier one. *)
Definition dict_of (fields : list (string * Json)) : gmap string Json :=
  foldl (fun d kv => <[kv.1 := kv.2]> d) ∅ fields.

(** [j.get(key, d)]; only a dict has [get]. *)
Definition json_get (j : Json) (key : string) (d : Json) : result Json :=
  match j with
  | JObj fields => Ok (default d (dict_of fields !! key))
  | _ => Raise TypeError
  end.

(** A JSON value used as an operand of float arithmetic. *)
Definition as_number (j : Json) : result Q :=
  match j with
  | JNum q => Ok q
  | JBool b => Ok (if b then 1 else 0)
  | _ => Raise TypeError
  end.

(** The process environment and the files a strategy may read:
    [environ] is [os.environ]; [files] maps the path of every existing
    file to what [json.load] makes of it. *)
Record OS : Type := {
  environ : gmap string string;
  files : gmap string (result Json)
}.

Definition environ_get (os : OS) (key d : string) : string :=
  default d (environ os !! key).

Definition path_exists (os : OS) (path : string) : bool :=
  bool_decide (is_Some (files os !! path)).

(** [with open(path) as f: json.load(f)] *)
Definition json_load (os : OS) (path : string) : result Json :=
  match files os !! path with
  | Some r => r
  | None => Raise OSError
  end.

(** [base / name] on [pathlib.Path]. *)
Definition path_join (base name : string) : string :=
  (base ++ "/" ++ name)%string.

(** [x or d] for an optional float on the left. *)
Definition opt_truthy (x : option Q) : bool :=
  match x with
  | Some v => negb (Qeqb v 0)
  | None => false
  end.

(** [c.lower()] on an ASCII character. *)
Definition lower_ascii (c : Ascii.ascii) : Ascii.ascii :=
  let n := Ascii.nat_of_ascii c in
  if ((65 <=? n) && (n <=? 90))%nat then Ascii.ascii_of_nat (n + 32) else c.

(** [s.lower()] on a string of ASCII characters. *)
Fixpoint lower (s : string) : string :=
  match s with
  | EmptyString => EmptyString
  | String c rest => String (lower_ascii c) (lower rest)
  end.

(** [tag and 'word' in tag.lower()] for an optional tag. *)
Definition tag_has (word : string) (tag : option string) : bool :=
  match tag with
  | Some t => negb (String.eqb t EmptyString) && str_in word (lower t)
  | None => false
  end.

(** A numpy.float64 computed from finite numbers.  numpy's division does
    not raise on a zero divisor: it answers [inf], [-inf] or [nan], and
    these values then flow through Python's [min], [max], [-] and [*]. *)
Inductive npfloat : Set :=
| Finite (q : Q)
| PosInf
| NegInf
| NaN.

(** [a / b] where [a] is a numpy.float64 and the divisor, when zero, is
    [0.0]. *)
Definition np_div (a b : Q) : npfloat :=
  if Qeqb b 0 then
    if Qltb 0 a then PosInf else if Qltb a 0 then NegInf else NaN
  else Finite (a / b).

(** [a < b]; every comparison with [nan] is false. *)
Definition np_ltb (a b : npfloat) : bool :=
  match a, b with
  | Finite x, Finite y => Qltb x y
  | Finite _, PosInf => true
  | NegInf, Finite _ => true
  | NegInf, PosInf => true
  | _, _ => false
  end.

(** [min(a, b)] and [max(a, b)]: the first argument unless the second is
    strictly smaller, respectively larger. *)
Definition np_min (a b : npfloat) : npfloat := if np_ltb b a then b else a.
Definition np_max (a b : npfloat) : npfloat := if np_ltb a b then b else a.

(** [-a] *)
Definition np_neg (a : npfloat) : npfloat :=
  match a with
  | Finite q => Finite (- q)
  | PosInf => NegInf
  | NegInf => PosInf
  | NaN => NaN
  end.

(** [a * k] for a finite [k]. *)
Definition np_scale (a : npfloat) (k : Q) : npfloat :=
  match a with
  | Finite q => Finite (q * k)
  | PosInf => if Qltb 0 k then PosInf else if Qltb k 0 then NegInf else NaN
  | NegInf => if Qltb 0 k then NegInf else if Qltb k 0 then PosInf else NaN
  | NaN => NaN
  end.

End Py.
Import Py.

(** ** The freqtrade objects the strategies read *)

Module Freqtrade.

(** A row of an analysed dataframe; [row.get(col, d)] is
    [default d (row !! col)]. *)
Abbreviation Candle := (gmap string Q).
Abbreviation DataFrame := (list Candle).

Definition candle_get (c : Candle) (col : string) (d : Q) : Q :=
  default d (c !! col).

Record Order : Type := {
  ft_order_tag : option string;
  order_date : option Q;
  status : string;
  safe_remaining : Q;
  safe_price : Q
}.

Record Trade : Type := {
  pair : string;
  stake_amount : Q;
  stop_loss_pct : option Q;
  open_date_utc : Q;
  open_rate : Q;
  is_short : bool;
  orders : list Order;
  calc_profit_ratio : Q -> Q
}.

(** [order.ft_order_tag or ''] *)
Definition tag_or_empty (o : Order) : string :=
  match ft_order_tag o with
  | Some s => s
  | None => EmptyString
  end.

(** What a strategy can ask of its surroundings during one callback. *)
Record Env : Type := {
  wallets_get_total_stake_amount : result Q;
  get_trades_proxy_open : result (list Trade);
  dp_get_analyzed_dataframe : string -> result DataFrame;
  dp_get_balance_base : result (option Q)
}.

(** [dataframe.iloc[-1]] on a dataframe that is not empty. *)
Definition iloc_last (df : DataFrame) : result Candle :=
  match List.last (map Some df) None with
  | Some c => Ok c
  | None => Raise KeyError
  end.

Definition df_empty (df : DataFrame) : bool :=
  match df with [] => true | _ => false end.

(** [dataframe.loc[mask, col] = v] on one column: the rows selected by
    the mask get [v], the others keep what they had. *)
Definition loc_set {A : Type} (mask : list bool) (v : A) (col : list A)
    : list A :=
  zip_with (fun (m : bool) x => if m then v else x) mask col.

(** The top of an order book: each side lists (price, size) levels, best
    first. *)
Record OrderBook : Type := {
  asks : list (Q * Q);
  bids : list (Q * Q)
}.

(** [ob[side][0][0]]; an empty side raises. *)
Definition best_price (side : list (Q * Q)) : result Q :=
  match side with
  | (price, _) :: _ => Ok price
  | [] => Raise KeyError
  end.

(** The further things that some callbacks ask of their surroundings:
    the clock ([datetime.utcnow()]), the order book of a pair (an empty
    answer is [None]), whether a wallet object is attached and the open
    trades it lists, and the [max_open_trades] entry of the
    configuration. *)
Record Surroundings : Type := {
  base_env : Env;
  utcnow : Q;
  dp_orderbook : string -> result (option OrderBook);
  wallets_attached : bool;
  wallets_get_open_trades : result (option (list Trade));
  config_max_open_trades : option Q
}.

(** [Trade.get_trades_proxy(is_open=True, pair=pair)]: the open trades of
    one pair. *)
Definition get_trades_proxy_pair (env : Env) (p : string)
    : result (list Trade) :=
  trades ← get_trades_proxy_open env;
  mret (List.filter (fun t => String.eqb (pair t) p) trades).

End Freqtrade.
Import Freqtrade.

(** ** EnhancedRiskManagedStrategy *)

Module EnhancedRiskManaged.

(** Class attributes and the [.value] of the hyperopt parameters that the
    embedded methods read. *)
Record Strategy : Type := {
  timeframe : string;
  stoploss : Q;
  base_stake_percent : Q;
  max_stake_percent : Q;
  volatility_factor : Q;
  max_total_risk : Q;
  risk_per_trade : Q;
  enable_dca : bool
}.

(** The values written in the class body. *)
Definition defaults : Strategy := {|
  timeframe := "15m";
  stoploss := -0.08;
  base_stake_percent := 0.10;
  max_stake_percent := 0.25;
  volatility_factor := 1.0;
  max_total_risk := 0.25;
  risk_per_trade := 0.02;
  enable_dca := true
|}.

(** [abs(trade.stake_amount * (trade.stop_loss_pct or 0.08))] *)
Definition reserved_risk (t : Trade) : Q :=
  Qabs (stake_amount t * float_or (stop_loss_pct t) 0.08).

(** [sum(abs(...) for trade in open_trades)] *)
Definition total_risk (open_trades : list Trade) : Q :=
  Py.sum (map reserved_risk open_trades).

(** [custom_stoploss], the statements under [try].  [current_rate] is a
    Python float, as annotated; the ATR read from the candle is a
    numpy.float64, so that [(atr * atr_multiplier) / current_rate] follows
    numpy's division, while with the default [current_rate * 0.02] (a
    Python float) the same division raises on a zero rate. *)
Definition custom_stoploss_body (self : Strategy) (env : Env) (pair : string)
    (trade : Trade) (current_time current_rate current_profit : Q)
    : result npfloat :=
  dataframe ← dp_get_analyzed_dataframe env pair;
  if df_empty dataframe then mret (Finite (stoploss self)) else
  current_candle ← iloc_last dataframe;
  let trade_duration := (current_time - open_date_utc trade) / 3600 in
  let time_factor := Qmax 0.5 (1 - trade_duration / 48) in
  let atr_multiplier := 2.5 in
  atr_stop_distance ←
    match current_candle !! "atr"%string with
    | Some atr => mret (np_div (atr * atr_multiplier) current_rate)
    | None =>
      d ← Py.div (current_rate * 0.02 * atr_multiplier) current_rate;
      mret (Finite d)
    end;
  let volatility_stop := np_neg (np_min atr_stop_distance (Finite 0.15)) in
  let dynamic_stop :=
    if Qltb 0.05 current_profit then
      let trailing_factor := Qmax 0.5 (1 - current_profit * 2) in
      np_max (np_scale volatility_stop trailing_factor) (Finite (-0.03))
    else
      np_scale volatility_stop time_factor in
  let final_stop := np_max dynamic_stop (Finite (stoploss self)) in
  mret final_stop.

Definition custom_stoploss (self : Strategy) (env : Env) (pair : string)
    (trade : Trade) (current_time current_rate current_profit : Q)
    : npfloat :=
  try_except
    (custom_stoploss_body self env pair trade current_time current_rate
       current_profit)
    (Finite (stoploss self)).

(** [confirm_trade_entry], the statements under [try]. *)
Definition confirm_trade_entry_body (self : Strategy) (env : Env)
    (pair : string) (amount rate : Q) : result bool :=
  total_stake ← wallets_get_total_stake_amount env;
  if Qleb total_stake 0 then mret false else
  open_trades ← get_trades_proxy_open env;
  if (10 <=? length open_trades)%nat then mret false else
  let total_risk := total_risk open_trades in
  let trade_risk := amount * rate * 0.08 in
  if Qltb (total_stake * max_total_risk self) (total_risk + trade_risk)
  then mret false else
  dataframe ← dp_get_analyzed_dataframe env pair;
  if df_empty dataframe then mret false else
  current_candle ← iloc_last dataframe;
  if Qltb 0.25 (candle_get current_candle "bb_width" 0) then mret false else
  if Qltb (candle_get current_candle "volume_ratio" 0) 0.5 then mret false else
  mret true.

Definition confirm_trade_entry (self : Strategy) (env : Env)
    (pair : string) (amount rate : Q) : bool :=
  try_except (confirm_trade_entry_body self env pair amount rate) false.

(** [confirm_trade_exit], the statements under [try]. *)
Definition confirm_trade_exit_body (self : Strategy) (env : Env)
    (pair : string) (trade : Trade) (rate : Q) (exit_reason : string)
    : result bool :=
  if str_elem exit_reason ["stop_loss"; "stoploss_on_exchange"; "emergency_exit"]
  then mret true else
  if str_elem exit_reason ["roi"; "exit_signal"]
     && Qltb (calc_profit_ratio trade rate) 0.02
  then
    dataframe ← dp_get_analyzed_dataframe env pair;
    if negb (df_empty dataframe) then
      current_candle ← iloc_last dataframe;
      if Qltb 80 (candle_get current_candle "rsi" 50)
         || Qltb 0.20 (candle_get current_candle "bb_width" 0)
      then mret true
      else mret false
    else mret true
  else mret true.

Definition confirm_trade_exit (self : Strategy) (env : Env)
    (pair : string) (trade : Trade) (rate : Q) (exit_reason : string) : bool :=
  try_except (confirm_trade_exit_body self env pair trade rate exit_reason) true.

(** The first [def custom_stake_amount] of the class body (volatility
    scaled, risk budgeted), the statements under [try]. *)
Definition custom_stake_amount_body_1 (self : Strategy) (env : Env)
    (pair : string) (current_rate proposed_stake : Q) (min_stake : option Q)
    (max_stake : Q) (entry_tag : option string) : result Q :=
  dataframe ← dp_get_analyzed_dataframe env pair;
  if df_empty dataframe then mret proposed_stake else
  current_candle ← iloc_last dataframe;
  let volatility := candle_get current_candle "price_volatility" 0.02 in
  let atr := candle_get current_candle "atr" (current_rate * 0.02) in
  inv ← Py.div 1 (1 + volatility * 10);
  let volatility_multiplier := Qmax 0.5 (Qmin 2.0 inv) in
  total_stake ← wallets_get_total_stake_amount env;
  if Qleb total_stake 0 then mret (float_or min_stake proposed_stake) else
  open_trades ← get_trades_proxy_open env;
  let open_trades_risk :=
    Py.sum (map reserved_risk
              (List.filter (fun t => negb (String.eqb (Freqtrade.pair t) pair))
                 open_trades)) in
  let max_trade_risk := total_stake * risk_per_trade self in
  let remaining_risk_budget :=
    total_stake * max_total_risk self - open_trades_risk in
  let max_trade_risk := Qmin max_trade_risk remaining_risk_budget in
  if Qleb max_trade_risk 0
  then mret (float_or min_stake (proposed_stake * 0.1)) else
  let base_stake := total_stake * base_stake_percent self in
  let adjusted_stake :=
    base_stake * volatility_multiplier * volatility_factor self in
  let stop_distance := atr * 2 in
  rel ← Py.div stop_distance current_rate;
  risk_based_stake ← Py.div max_trade_risk rel;
  let optimal_stake := Qmin adjusted_stake risk_based_stake in
  let max_allowed_stake := total_stake * max_stake_percent self in
  let optimal_stake :=
    Qmax (float_or min_stake 0)
         (Qmin (Qmin optimal_stake max_allowed_stake) max_stake) in
  let optimal_stake :=
    if enable_dca self
       && negb (bool_decide (entry_tag = Some "dca"%string))
    then optimal_stake * 0.7 else optimal_stake in
  mret optimal_stake.

(** The f-string that names the directory of the universal risk
    management files of a bot instance. *)
Definition universal_base_path (user_id bot_instance_id : string) : string :=
  ("/home/ubuntu/Workspace/crypto-trading-platform/data/freqtrade-instances/"
     ++ user_id ++ "/" ++ bot_instance_id)%string.

(** The second [def custom_stake_amount] of the class body (universal
    risk management files), the statements under [try]. *)
Definition custom_stake_amount_body_2 (self : Strategy) (env : Env) (os : OS)
    (pair : string) (proposed_stake : Q) (min_stake : option Q)
    (max_stake : Q) : result Q :=
  let bot_instance_id := environ_get os "BOT_INSTANCE_ID" "unknown" in
  let user_id := environ_get os "USER_ID" "unknown" in
  let fallback : result Q := mret proposed_stake in
  if negb (String.eqb bot_instance_id "unknown")
     && negb (String.eqb user_id "unknown")
  then
    let base_path := universal_base_path user_id bot_instance_id in
    let settings_path := path_join base_path "universal-settings.json" in
    let risk_config_path := path_join base_path "risk-config.json" in
    if path_exists os settings_path && path_exists os risk_config_path
    then
      settings ← json_load os settings_path;
      enabled ← json_get settings "enabled" (JBool false);
      if truthy enabled then
        risk_config ← json_load os risk_config_path;
        account_balance ← dp_get_balance_base env;
        if opt_truthy account_balance
           && Qltb 0 (default 0 account_balance)
        then
          rpt ← json_get risk_config "riskPerTrade" (JNum 0.01);
          risk_per_trade ← as_number rpt;
          let position_size := default 0 account_balance * risk_per_trade in
          pair_multipliers ← json_get risk_config "pairMultipliers" (JObj []);
          mult ← json_get pair_multipliers pair (JNum 1.0);
          multiplier ← as_number mult;
          let position_size := position_size * multiplier in
          let position_size :=
            if opt_truthy min_stake
            then Qmax position_size (default 0 min_stake)
            else position_size in
          let position_size := Qmin position_size max_stake in
          mret position_size
        else fallback
      else fallback
    else fallback
  else fallback.

(** The signature the two definitions share (arguments that neither
    reads are left out). *)
Definition stake_method : Type :=
  Strategy -> Env -> OS -> string -> Q -> Q -> option Q -> Q ->
  option string -> Q.

Definition custom_stake_amount_1 : stake_method :=
  fun self env os pair current_rate proposed_stake min_stake max_stake
      entry_tag =>
  try_except
    (custom_stake_amount_body_1 self env pair current_rate proposed_stake
       min_stake max_stake entry_tag)
    (float_or min_stake (proposed_stake * 0.5)).

Definition custom_stake_amount_2 : stake_method :=
  fun self env os pair current_rate proposed_stake min_stake max_stake
      entry_tag =>
  try_except
    (custom_stake_amount_body_2 self env os pair proposed_stake min_stake
       max_stake)
    proposed_stake.

(** A function object bound in the class namespace. *)
Inductive Member : Type :=
| StakeAmount (f : stake_method)
| Stoploss (f : Strategy -> Env -> string -> Trade -> Q -> Q -> Q -> npfloat)
| EntryConfirm (f : Strategy -> Env -> string -> Q -> Q -> bool)
| ExitConfirm (f : Strategy -> Env -> string -> Trade -> Q -> string -> bool).

(** The [def] statements of the class body that are embedded here, in
    the order in which the class body executes them. *)
Definition class_body : list (string * Member) :=
  [ ("custom_stake_amount", StakeAmount custom_stake_amount_1);
    ("custom_stoploss", Stoploss custom_stoploss);
    ("confirm_trade_entry", EntryConfirm confirm_trade_entry);
    ("confirm_trade_exit", ExitConfirm confirm_trade_exit);
    ("custom_stake_amount", StakeAmount custom_stake_amount_2) ]%string.

(** Executing a class body binds each name in turn in the class
    namespace; binding a name again replaces the earlier binding. *)
Definition exec_class_body (body : list (string * Member))
    : gmap string Member :=
  foldl (fun ns d => <[d.1 := d.2]> ns) ∅ body.

Definition class_namespace : gmap string Member := exec_class_body class_body.

(** [self.custom_stake_amount(...)]: attribute lookup, then the call. *)
Definition call_custom_stake_amount (self : Strategy) (env : Env) (os : OS)
    (pair : string) (current_rate proposed_stake : Q) (min_stake : option Q)
    (max_stake : Q) (entry_tag : option string) : result Q :=
  match class_namespace !! "custom_stake_amount"%string with
  | Some (StakeAmount f) =>
      Ok (f self env os pair current_rate proposed_stake min_stake max_stake
            entry_tag)
  | _ => Raise TypeError
  end.

(** The hyperopt parameters read by the position adjustment and by the
    signal columns. *)
Record Hyperopt : Type := {
  dca_trigger_percent : Q;
  dca_max_orders : Z;
  dca_multiplier : Q;
  rsi_buy : Z;
  rsi_sell : Z
}.

Definition hyperopt_defaults : Hyperopt := {|
  dca_trigger_percent := -0.08;
  dca_max_orders := 3;
  dca_multiplier := 1.5;
  rsi_buy := 30;
  rsi_sell := 70
|}.

(** [len([order for order in trade.orders
          if 'dca' in (order.ft_order_tag or '')])] *)
Definition count_dca_orders (trade : Trade) : nat :=
  length (List.filter (fun o => str_in "dca" (tag_or_empty o)) (orders trade)).

(** [max(order.order_date for order in trade.orders)] followed by the
    subtraction from a datetime: an order without a date makes either the
    comparison or the subtraction raise [TypeError]. *)
Definition last_order_time (os : list Order) : result Q :=
  match mapM order_date os with
  | Some dates => max_of dates
  | None => Raise TypeError
  end.

(** [check_dca_conditions]; it is not under a [try]. *)
Definition check_dca_conditions (self : Strategy) (hp : Hyperopt)
    (sur : Surroundings) (trade : Trade) (current_rate : Q) : result bool :=
  if negb (enable_dca self) then mret false else
  let dca_orders := count_dca_orders trade in
  if (dca_max_orders hp <=? Z.of_nat dca_orders)%Z then mret false else
  let current_profit := calc_profit_ratio trade current_rate in
  if Qltb (dca_trigger_percent hp) current_profit then mret false else
  match orders trade with
  | [] => mret true
  | _ =>
    last ← last_order_time (orders trade);
    let time_since_last := (utcnow sur - last) / 3600 in
    if Qltb time_since_last 2 then mret false else mret true
  end.

(** [adjust_trade_position], the statements under [try]. *)
Definition adjust_trade_position_body (self : Strategy) (hp : Hyperopt)
    (sur : Surroundings) (trade : Trade) (min_stake : option Q)
    (max_stake : Q) : result (option Q) :=
  let dca_orders_count := count_dca_orders trade in
  let dca_multiplier :=
    Qpower (dca_multiplier hp) (Z.of_nat dca_orders_count) in
  let original_stake := stake_amount trade in
  let dca_stake := original_stake * 0.3 * dca_multiplier in
  total_stake ← wallets_get_total_stake_amount (base_env sur);
  let max_dca_stake := total_stake * 0.05 in
  let dca_stake := Qmin (Qmin dca_stake max_dca_stake) max_stake in
  if Qltb dca_stake (float_or min_stake 0) then mret None else
  mret (Some dca_stake).

(** [adjust_trade_position]: the call of [check_dca_conditions] comes
    before the [try], so what it raises leaves the method. *)
Definition adjust_trade_position (self : Strategy) (hp : Hyperopt)
    (sur : Surroundings) (trade : Trade) (current_rate : Q)
    (min_stake : option Q) (max_stake : Q) : result (option Q) :=
  ok ← check_dca_conditions self hp sur trade current_rate;
  if negb ok then mret None else
  mret (try_except
          (adjust_trade_position_body self hp sur trade min_stake max_stake)
          None).

(** [leverage] *)
Definition leverage (self : Strategy) (max_leverage : Q) : Q :=
  if Qltb 0.20 (max_total_risk self) then Qmin 2.0 max_leverage else 1.0.

(** The columns of a dataframe row that the signal methods read. *)
Record SignalRow : Type := {
  ema_fast : Q;
  ema_slow : Q;
  close : Q;
  sma_20 : Q;
  adx : Q;
  rsi : Q;
  macd : Q;
  macdsignal : Q;
  bb_width : Q;
  volume : Q;
  volume_ratio : Q;
  support : Q;
  resistance : Q;
  price_volatility : Q
}.

(** The mask of [populate_entry_trend] on one row. *)
Definition entry_mask (hp : Hyperopt) (r : SignalRow) : bool :=
  let trend_up :=
    Qltb (ema_slow r) (ema_fast r) && Qltb (sma_20 r) (close r)
    && Qltb 20 (adx r) in
  let momentum_good :=
    Qltb (rsi r) (inject_Z (rsi_buy hp)) && Qltb 25 (rsi r)
    && Qltb (macdsignal r) (macd r) in
  let volatility_acceptable :=
    Qltb (bb_width r) 0.15 && Qltb 0.05 (bb_width r) in
  let volume_good := Qltb 0 (volume r) && Qltb 1.2 (volume_ratio r) in
  let near_support :=
    Qltb (support r * 1.01) (close r) && Qltb (close r) (resistance r * 0.95) in
  trend_up && momentum_good && volatility_acceptable && volume_good
  && near_support.

(** The mask of [populate_exit_trend] on one row. *)
Definition exit_mask (hp : Hyperopt) (r : SignalRow) : bool :=
  let trend_weakening :=
    Qltb (ema_fast r) (ema_slow r) || Qltb (close r) (sma_20 r)
    || Qltb (adx r) 15 in
  let momentum_weak :=
    Qltb (inject_Z (rsi_sell hp)) (rsi r) || Qltb (macd r) (macdsignal r) in
  let volatility_spike :=
    Qltb 0.20 (bb_width r) || Qltb 0.08 (price_volatility r) in
  let volume_decline := Qltb (volume_ratio r) 0.6 in
  let at_resistance := Qleb (resistance r * 0.98) (close r) in
  (trend_weakening && momentum_weak) || volatility_spike
  || (at_resistance && volume_decline).

(** [populate_entry_trend] and [populate_exit_trend] on the signal
    column they write ([enter_long], [exit_long]). *)
Definition populate_entry_trend (hp : Hyperopt) (dataframe : list SignalRow)
    (enter_long : list Z) : list Z :=
  loc_set (map (entry_mask hp) dataframe) 1%Z enter_long.

Definition populate_exit_trend (hp : Hyperopt) (dataframe : list SignalRow)
    (exit_long : list Z) : list Z :=
  loc_set (map (exit_mask hp) dataframe) 1%Z exit_long.

End EnhancedRiskManaged.

(** ** DCAStrategy *)

Module DCA.

Record Strategy : Type := {
  stoploss : Q;
  dca_enabled : bool;
  dca_level_1 : Q;
  dca_level_2 : Q;
  dca_level_3 : Q;
  dca_level_4 : Q;
  dca_size_multiplier_1 : Q;
  dca_size_multiplier_2 : Q;
  dca_size_multiplier_3 : Q;
  dca_size_multiplier_4 : Q;
  base_position_size : Q;
  max_position_size : Q;
  max_total_allocation : Q;
  min_time_between_entries : Z
}.

(** The values written in the class body. *)
Definition defaults : Strategy := {|
  stoploss := -0.12;
  dca_enabled := true;
  dca_level_1 := -0.05;
  dca_level_2 := -0.10;
  dca_level_3 := -0.18;
  dca_level_4 := -0.28;
  dca_size_multiplier_1 := 1.2;
  dca_size_multiplier_2 := 1.5;
  dca_size_multiplier_3 := 2.0;
  dca_size_multiplier_4 := 2.5;
  base_position_size := 0.12;
  max_position_size := 0.45;
  max_total_allocation := 0.35;
  min_time_between_entries := 4
|}.

(** ['dca' in (order.ft_order_tag or '')] *)
Definition is_dca_order (o : Order) : bool := str_in "dca" (tag_or_empty o).

(** [check_dca_timing]; [max] of an empty generator raises. *)
Definition check_dca_timing (self : Strategy) (trade : Trade)
    (current_time : Q) : result bool :=
  match orders trade with
  | [] => mret true
  | _ =>
    last_order_time ← max_of (omap order_date (orders trade));
    let time_diff := (current_time - last_order_time) / 3600 in
    mret (Qleb (inject_Z (min_time_between_entries self)) time_diff)
  end.

(** The loop of [check_position_limits] that adds the pending DCA orders. *)
Definition add_pending_dca (value : Q) (os : list Order) : Q :=
  fold_left
    (fun acc o =>
       if String.eqb (status o) "open" && is_dca_order o
       then acc + safe_remaining o * safe_price o
       else acc)
    os value.

Definition check_position_limits_body (self : Strategy) (env : Env)
    (trade : Trade) : result bool :=
  total_stake ← wallets_get_total_stake_amount env;
  if Qleb total_stake 0 then mret false else
  let current_position_value :=
    add_pending_dca (stake_amount trade) (orders trade) in
  current_allocation ← Py.div current_position_value total_stake;
  if Qleb (max_total_allocation self) current_allocation
  then mret false
  else mret true.

Definition check_position_limits (self : Strategy) (env : Env)
    (trade : Trade) : bool :=
  try_except (check_position_limits_body self env trade) false.

Definition get_dca_level_and_size_body (self : Strategy) (env : Env)
    (trade : Trade) (current_profit : Q) : result (option (Z * Q)) :=
  total_stake ← wallets_get_total_stake_amount env;
  let sized (level : Z) (multiplier : Q) : result (option (Z * Q)) :=
    let size := total_stake * base_position_size self * multiplier in
    let max_dca_size := total_stake * 0.15 in
    let size := Qmin size max_dca_size in
    mret (Some (level, size)) in
  if Qleb current_profit (dca_level_4 self)
  then sized 4%Z (dca_size_multiplier_4 self)
  else if Qleb current_profit (dca_level_3 self)
  then sized 3%Z (dca_size_multiplier_3 self)
  else if Qleb current_profit (dca_level_2 self)
  then sized 2%Z (dca_size_multiplier_2 self)
  else if Qleb current_profit (dca_level_1 self)
  then sized 1%Z (dca_size_multiplier_1 self)
  else mret None.

(** [(None, None)] is [None]; [(level, size)] is [Some (level, size)]. *)
Definition get_dca_level_and_size (self : Strategy) (env : Env)
    (trade : Trade) (current_profit : Q) : option (Z * Q) :=
  try_except (get_dca_level_and_size_body self env trade current_profit) None.

(** [f'dca_{level}'] *)
Definition dca_tag (level : Z) : string := ("dca_" ++ pretty level)%string.

Definition was_dca_level_triggered (trade : Trade) (level : Z) : bool :=
  existsb (fun o => str_in (dca_tag level) (tag_or_empty o)) (orders trade).

(** [adjust_trade_position], the statements under [try]. *)
Definition adjust_trade_position_body (self : Strategy) (env : Env)
    (trade : Trade) (current_time current_profit : Q) : result (option Q) :=
  timing ← check_dca_timing self trade current_time;
  if negb timing then mret None else
  if negb (check_position_limits self env trade) then mret None else
  match get_dca_level_and_size self env trade current_profit with
  | None => mret None
  | Some (dca_level, dca_size) =>
    if was_dca_level_triggered trade dca_level then mret None
    else mret (Some dca_size)
  end.

Definition adjust_trade_position (self : Strategy) (env : Env)
    (trade : Trade) (current_time current_profit : Q) : option Q :=
  if negb (dca_enabled self) then None else
  try_except
    (adjust_trade_position_body self env trade current_time current_profit)
    None.

(** [custom_stoploss]; nothing under its [try] can raise. *)
Definition custom_stoploss_body (self : Strategy) (trade : Trade)
    (current_profit : Q) : result Q :=
  let dca_orders := length (List.filter is_dca_order (orders trade)) in
  let dca_adjustment := Qmin 0.04 (inject_Z (Z.of_nat dca_orders) * 0.01) in
  let adjusted_stop := stoploss self - dca_adjustment in
  let final_stop := Qmax adjusted_stop (-0.25) in
  let final_stop :=
    if Qltb 0.05 current_profit then
      let profit_factor := Qmin (current_profit / 0.2) 1.0 in
      let trailing_stop := -0.02 - (0.03 * (1 - profit_factor)) in
      Qmax final_stop trailing_stop
    else final_stop in
  mret final_stop.

Definition custom_stoploss (self : Strategy) (trade : Trade)
    (current_profit : Q) : Q :=
  try_except (custom_stoploss_body self trade current_profit) (stoploss self).

(** One evaluation of [adjust_trade_position] for a position: what the
    surroundings answer at that moment and the arguments of the call. *)
Record Tick : Type := {
  tick_env : Env;
  tick_time : Q;
  tick_profit : Q;
  tick_rate : Q
}.

(** Modelled from the spec: the booking of an approved averaging order is
    done by the trading framework, which is not part of the repository.
    Following the data model ("Fill: size, price, timestamp, tag"; the tag
    distinguishes "ladder level N"; "cumulative stake = sum of fill
    sizes"), the fill is appended to the position's orders with the tag
    [dca_N] that [was_dca_level_triggered] looks for and the timestamp of
    the tick, and its size is added to the stake. *)
Definition book_ladder_fill (trade : Trade) (level : Z) (size : Q)
    (tk : Tick) : Trade := {|
  pair := pair trade;
  stake_amount := stake_amount trade + size;
  stop_loss_pct := stop_loss_pct trade;
  open_date_utc := open_date_utc trade;
  open_rate := open_rate trade;
  is_short := is_short trade;
  orders := orders trade ++
    [ {| ft_order_tag := Some (dca_tag level);
         order_date := Some (tick_time tk);
         status := "closed";
         safe_remaining := 0;
         safe_price := tick_rate tk |} ];
  calc_profit_ratio := calc_profit_ratio trade
|}.

(** A ladder order that fired: its level, its size and when. *)
Record Fired : Type := {
  fired_level : Z;
  fired_size : Q;
  fired_time : Q
}.

(** One tick of the ladder controller: the callback is evaluated and an
    approved order is booked under the level that the callback chose. *)
Definition ladder_step (self : Strategy) (trade : Trade) (tk : Tick)
    : Trade * option Fired :=
  match adjust_trade_position self (tick_env tk) trade (tick_time tk)
          (tick_profit tk),
        get_dca_level_and_size self (tick_env tk) trade (tick_profit tk) with
  | Some size, Some (level, _) =>
      (book_ladder_fill trade level size tk,
       Some {| fired_level := level; fired_size := size;
               fired_time := tick_time tk |})
  | _, _ => (trade, None)
  end.

(** The lifetime of a position: the ticks in order, with the orders that
    fired, oldest first. *)
Fixpoint ladder_run (self : Strategy) (trade : Trade) (ticks : list Tick)
    : Trade * list Fired :=
  match ticks with
  | [] => (trade, [])
  | tk :: rest =>
    let '(trade', fired) := ladder_step self trade tk in
    let '(final, later) := ladder_run self trade' rest in
    (final, match fired with Some f => f :: later | None => later end)
  end.

(** The multiplier that [calculate_dca_size] reads off the entry tag. *)
Definition tag_multiplier (self : Strategy) (entry_tag : string) : Q :=
  if str_in "dca_1" entry_tag then dca_size_multiplier_1 self
  else if str_in "dca_2" entry_tag then dca_size_multiplier_2 self
  else if str_in "dca_3" entry_tag then dca_size_multiplier_3 self
  else if str_in "dca_4" entry_tag then dca_size_multiplier_4 self
  else 1.5.

(** [calculate_dca_size]; nothing under its [try] can raise. *)
Definition calculate_dca_size_body (self : Strategy) (entry_tag : string)
    (total_stake : Q) (min_stake : option Q) (max_stake : Q) : result Q :=
  let multiplier := tag_multiplier self entry_tag in
  let base_dca_size := total_stake * base_position_size self * multiplier in
  let max_allowed := total_stake * 0.15 in
  let dca_size := Qmin (Qmin base_dca_size max_allowed) max_stake in
  let dca_size := Qmax dca_size (float_or min_stake 0) in
  mret dca_size.

Definition calculate_dca_size (self : Strategy) (entry_tag : string)
    (total_stake : Q) (min_stake : option Q) (max_stake : Q) : Q :=
  try_except
    (calculate_dca_size_body self entry_tag total_stake min_stake max_stake)
    (float_or min_stake (total_stake * 0.05)).

(** [custom_stake_amount], the statements under [try]. *)
Definition custom_stake_amount_body (self : Strategy) (env : Env)
    (proposed_stake : Q) (min_stake : option Q) (max_stake : Q)
    (entry_tag : option string) : result Q :=
  total_stake ← wallets_get_total_stake_amount env;
  if Qleb total_stake 0 then mret (float_or min_stake proposed_stake) else
  let is_dca_order := tag_has "dca" entry_tag in
  if is_dca_order then
    mret (calculate_dca_size self (default EmptyString entry_tag) total_stake
            min_stake max_stake)
  else
    let base_stake := total_stake * base_position_size self in
    let max_allowed := total_stake * max_position_size self in
    let optimal_stake := Qmin (Qmin base_stake max_allowed) max_stake in
    let optimal_stake := Qmax optimal_stake (float_or min_stake 0) in
    mret optimal_stake.

Definition custom_stake_amount (self : Strategy) (env : Env)
    (proposed_stake : Q) (min_stake : option Q) (max_stake : Q)
    (entry_tag : option string) : Q :=
  try_except
    (custom_stake_amount_body self env proposed_stake min_stake max_stake
       entry_tag)
    (float_or min_stake proposed_stake).

(** [custom_entry_price], the statements under [try]. *)
Definition custom_entry_price_body (env : Env) (pair : string)
    (proposed_rate : Q) : result Q :=
  dataframe ← dp_get_analyzed_dataframe env pair;
  if df_empty dataframe then mret proposed_rate else
  current_candle ← iloc_last dataframe;
  let atr := candle_get current_candle "atr" (proposed_rate * 0.02) in
  rel ← Py.div (atr * 0.5) proposed_rate;
  let discount_pct := Qmin 0.01 rel in
  let better_price := proposed_rate * (1 - discount_pct) in
  mret better_price.

Definition custom_entry_price (env : Env) (pair : string)
    (proposed_rate : Q) (entry_tag : option string) : Q :=
  if negb (tag_has "dca" entry_tag) then proposed_rate else
  try_except (custom_entry_price_body env pair proposed_rate) proposed_rate.

(** [confirm_trade_entry], the statements under [try]. *)
Definition confirm_trade_entry_body (self : Strategy) (env : Env)
    (pair : string) (amount rate : Q) (entry_tag : option string)
    : result bool :=
  if tag_has "dca" entry_tag then mret true else
  open_trades ← get_trades_proxy_open env;
  if (8 <=? length open_trades)%nat then mret false else
  existing_trade ← get_trades_proxy_pair env pair;
  if negb (match existing_trade with [] => true | _ => false end)
  then mret false else
  total_stake ← wallets_get_total_stake_amount env;
  let position_value := amount * rate in
  allocation ←
    (if Qltb 0 total_stake then Py.div position_value total_stake
     else mret 0);
  if Qltb (max_position_size self) allocation then mret false else
  mret true.

Definition confirm_trade_entry (self : Strategy) (env : Env)
    (pair : string) (amount rate : Q) (entry_tag : option string) : bool :=
  try_except (confirm_trade_entry_body self env pair amount rate entry_tag)
    false.

(** The entry tag that [populate_entry_trend] writes on every entry. *)
Definition initial_entry_tag : string := "dca_initial".

End DCA.

(** ** PortfolioRebalancingStrategy *)

Module PortfolioRebalancing.

Record Strategy : Type := {
  target_btc_allocation : Q;
  target_eth_allocation : Q;
  target_alt_allocation : Q;
  target_stable_allocation : Q;
  target_other_allocation : Q;
  rebalance_threshold : Q;
  min_rebalance_amount : Q
}.

(** The values written in the class body. *)
Definition defaults : Strategy := {|
  target_btc_allocation := 0.40;
  target_eth_allocation := 0.25;
  target_alt_allocation := 0.20;
  target_stable_allocation := 0.10;
  target_other_allocation := 0.05;
  rebalance_threshold := 0.15;
  min_rebalance_amount := 100
|}.

Definition ASSET_CATEGORIES : gmap string string :=
  list_to_map
    [ ("BTC/USD", "btc"); ("BTC/USDT", "btc");
      ("ETH/USD", "eth"); ("ETH/USDT", "eth");
      ("ADA/USD", "alt"); ("ADA/USDT", "alt");
      ("SOL/USD", "alt"); ("SOL/USDT", "alt");
      ("DOT/USD", "alt"); ("DOT/USDT", "alt");
      ("ALGO/USD", "alt"); ("ALGO/USDT", "alt");
      ("MATIC/USD", "alt"); ("MATIC/USDT", "alt");
      ("USDC/USD", "stable"); ("USDT/USD", "stable") ]%string.

Definition get_asset_category (pair : string) : string :=
  default "other"%string (ASSET_CATEGORIES !! pair).

Definition get_target_allocation (self : Strategy) (category : string) : Q :=
  let targets : gmap string Q :=
    list_to_map
      [ ("btc", target_btc_allocation self);
        ("eth", target_eth_allocation self);
        ("alt", target_alt_allocation self);
        ("stable", target_stable_allocation self);
        ("other", target_other_allocation self) ]%string in
  default 0.0 (targets !! category).

Definition zero_allocations : gmap string Q :=
  list_to_map
    [ ("btc", 0.0); ("eth", 0.0); ("alt", 0.0); ("stable", 0.0);
      ("other", 0.0) ]%string.

(** [d[key] += v]; a missing key raises [KeyError]. *)
Definition dict_add (d : gmap string Q) (key : string) (v : Q)
    : result (gmap string Q) :=
  match d !! key with
  | Some x => Ok (<[key := x + v]> d)
  | None => Raise KeyError
  end.

(** The [for trade in open_trades] loop of
    [calculate_current_allocations]. *)
Fixpoint add_trades (allocations : gmap string Q) (total_value : Q)
    (open_trades : list Trade) : result (gmap string Q * Q) :=
  match open_trades with
  | [] => mret (allocations, total_value)
  | trade :: rest =>
    let category := get_asset_category (pair trade) in
    let trade_value := stake_amount trade in
    allocations ← dict_add allocations category trade_value;
    add_trades allocations (total_value + trade_value) rest
  end.

Definition calculate_current_allocations_body (env : Env)
    : result (gmap string Q * Q) :=
  open_trades ← get_trades_proxy_open env;
  '(allocations, total_value) ← add_trades zero_allocations 0.0 open_trades;
  wallet ← wallets_get_total_stake_amount env;
  let available_balance := wallet - total_value in
  '(allocations, total_value) ←
    (if Qltb 0 available_balance then
       allocations ← dict_add allocations "stable" available_balance;
       mret (allocations, total_value + available_balance)
     else mret (allocations, total_value));
  let allocations :=
    if Qltb 0 total_value
    then (fun v => v / total_value) <$> allocations
    else allocations in
  mret (allocations, total_value).

Definition calculate_current_allocations (env : Env) : gmap string Q * Q :=
  try_except (calculate_current_allocations_body env) (zero_allocations, 0.0).

(** The [reason] strings of [needs_rebalancing], without the formatted
    numbers. *)
Inductive Reason : Set :=
| NoTargetAllocation
| ChangeTooSmall
| DriftAndChange
| WithinThreshold
| ErrorReason.

(** [needs_rebalancing], the statements under [try]. *)
Definition needs_rebalancing_body (self : Strategy) (env : Env)
    (pair : string) : result (bool * Q * Reason) :=
  let category := get_asset_category pair in
  let target_allocation := get_target_allocation self category in
  if Qeqb target_allocation 0 then mret (false, 0.0, NoTargetAllocation) else
  let '(current_allocations, total_value) :=
    calculate_current_allocations env in
  let current_allocation := default 0.0 (current_allocations !! category) in
  let allocation_drift := Qabs (current_allocation - target_allocation) in
  let needs_rebalance := Qltb (rebalance_threshold self) allocation_drift in
  if needs_rebalance then
    let target_value := total_value * target_allocation in
    let current_value := total_value * current_allocation in
    let position_change := target_value - current_value in
    if Qltb (Qabs position_change) (min_rebalance_amount self)
    then mret (false, position_change, ChangeTooSmall)
    else mret (true, position_change, DriftAndChange)
  else mret (false, 0.0, WithinThreshold).

Definition needs_rebalancing (self : Strategy) (env : Env) (pair : string)
    : bool * Q * Reason :=
  try_except (needs_rebalancing_body self env pair) (false, 0.0, ErrorReason).

(** [confirm_trade_exit], the statements under [try]. *)
Definition confirm_trade_exit_body (self : Strategy) (env : Env)
    (pair : string) (trade : Trade) (rate : Q) (exit_reason : string)
    : result bool :=
  if str_elem exit_reason ["stop_loss"; "roi"; "force_exit"]
  then mret true else
  if String.eqb exit_reason "exit_signal" then
    let '(needs_rebalance, position_change, _) :=
      needs_rebalancing self env pair in
    if needs_rebalance && Qltb position_change 0 then mret true
    else if Qltb 0.15 (calc_profit_ratio trade rate) then mret true
    else mret false
  else mret true.

Definition confirm_trade_exit (self : Strategy) (env : Env)
    (pair : string) (trade : Trade) (rate : Q) (exit_reason : string) : bool :=
  try_except (confirm_trade_exit_body self env pair trade rate exit_reason) true.

(** The further parameters read by the sizing and gating methods. *)
Record Limits : Type := {
  max_position_size : Q;
  min_position_size : Q;
  use_trend_filter : bool;
  use_volatility_filter : bool;
  max_portfolio_volatility : Q
}.

Definition limits_defaults : Limits := {|
  max_position_size := 0.25;
  min_position_size := 0.05;
  use_trend_filter := true;
  use_volatility_filter := true;
  max_portfolio_volatility := 0.25
|}.



(** [custom_stake_amount], the statements under [try]. *)
Definition custom_stake_amount_body (self : Strategy) (lim : Limits)
    (env : Env) (pair : string) (proposed_stake : Q) (min_stake : option Q)
    (max_stake : Q) : result Q :=
  let '(needs_rebalance, position_change, _) :=
    needs_rebalancing self env pair in
  if negb needs_rebalance
  then mret (float_or min_stake (proposed_stake * 0.1)) else
  if Qltb 0 position_change then
    let stake_amount := Qmin (Qabs position_change) max_stake in
    total_stake ← wallets_get_total_stake_amount env;
    let max_position := total_stake * max_position_size lim in
    let min_position := total_stake * min_position_size lim in
    let stake_amount := Qmax min_position (Qmin stake_amount max_position) in
    let stake_amount := Qmax stake_amount (float_or min_stake 0) in
    mret stake_amount
  else mret (float_or min_stake (proposed_stake * 0.1)).

Definition custom_stake_amount (self : Strategy) (lim : Limits)
    (env : Env) (pair : string) (proposed_stake : Q) (min_stake : option Q)
    (max_stake : Q) : Q :=
  try_except
    (custom_stake_amount_body self lim env pair proposed_stake min_stake
       max_stake)
    (float_or min_stake proposed_stake).

(** [custom_exit_price]: the statements under [try] answer with a better
    price or fall through to the proposed rate. *)
Definition custom_exit_price_body (env : Env) (pair : string)
    (proposed_rate : Q) : result (option Q) :=
  dataframe ← dp_get_analyzed_dataframe env pair;
  if negb (df_empty dataframe) then
    current_candle ← iloc_last dataframe;
    let resistance := candle_get current_candle "resistance" proposed_rate in
    let bb_upper := candle_get current_candle "bb_upper" proposed_rate in
    let target_price := Qmin (resistance * 0.99) (bb_upper * 0.98) in
    let better_price := Qmax proposed_rate target_price in
    if Qltb proposed_rate better_price then mret (Some better_price)
    else mret None
  else mret None.

Definition custom_exit_price (env : Env) (pair : string)
    (proposed_rate : Q) (exit_tag : option string) : Q :=
  if tag_has "rebalance" exit_tag then
    match try_except (custom_exit_price_body env pair proposed_rate) None with
    | Some better_price => better_price
    | None => proposed_rate
    end
  else proposed_rate.

End PortfolioRebalancing.

(** ** AggressiveSophisticated1m: the regime filter of [populate_indicators] *)

Module AggressiveSophisticated.

Record Strategy : Type := {
  adx_trend_threshold : Z;
  adx_range_threshold : Z
}.

(** The values written in the class body. *)
Definition defaults : Strategy := {|
  adx_trend_threshold := 25;
  adx_range_threshold := 20
|}.

(** The columns of one dataframe row that the regime filter reads. *)
Record Row : Type := {
  adx : Q;
  plus_di : Q;
  minus_di : Q
}.

(** The codes written to the [regime] column:
    0: Uncertain, 1: Uptrend, 2: Downtrend, 3: Range. *)
Definition Uncertain : Z := 0.
Definition Uptrend : Z := 1.
Definition Downtrend : Z := 2.
Definition Range : Z := 3.

(** [dataframe.loc[mask, col] = v] on a column: the rows selected by the
    mask get [v], the others keep their value. *)
Definition loc_assign (mask : list bool) (v : Z) (col : list Z) : list Z :=
  zip_with (fun (m : bool) x => if m then v else x) mask col.

(** [a & b] on boolean columns. *)
Definition mask_and (a b : list bool) : list bool := zip_with andb a b.

(** The [regime] column that [populate_indicators] leaves in the
    dataframe. *)
Definition regime_column (self : Strategy) (dataframe : list Row) : list Z :=
  let is_trending :=
    map (fun r => Qltb (inject_Z (adx_trend_threshold self)) (adx r))
        dataframe in
  let is_ranging :=
    map (fun r => Qltb (adx r) (inject_Z (adx_range_threshold self)))
        dataframe in
  let plus_over_minus :=
    map (fun r => Qltb (minus_di r) (plus_di r)) dataframe in
  let minus_over_plus :=
    map (fun r => Qltb (plus_di r) (minus_di r)) dataframe in
  let regime := map (fun _ => Uncertain) dataframe in
  let regime := loc_assign (mask_and is_trending plus_over_minus) Uptrend regime in
  let regime := loc_assign (mask_and is_trending minus_over_plus) Downtrend regime in
  let regime := loc_assign is_ranging Range regime in
  regime.

(** The regime of a single snapshot: the [regime] column of the
    dataframe that holds just this row. *)
Definition regime_of (self : Strategy) (snapshot : Row) : option Z :=
  head (regime_column self [snapshot]).

(** The rule of the regime classifier as the specification words it,
    for one snapshot: Range below the range threshold; otherwise Uptrend
    above the trend threshold with +DI over -DI, Downtrend above it with
    -DI over +DI; otherwise Uncertain. *)
Definition regime_rule (self : Strategy) (snapshot : Row) : Z :=
  if Qltb (adx snapshot) (inject_Z (adx_range_threshold self)) then Range
  else if Qltb (inject_Z (adx_trend_threshold self)) (adx snapshot)
          && Qltb (minus_di snapshot) (plus_di snapshot) then Uptrend
  else if Qltb (inject_Z (adx_trend_threshold self)) (adx snapshot)
          && Qltb (plus_di snapshot) (minus_di snapshot) then Downtrend
  else Uncertain.

(** The stoploss attributes of the class. *)
Record StopParameters : Type := {
  stoploss : Q;
  atr_period : Z;
  atr_multiplier : Q
}.

Definition stop_defaults : StopParameters := {|
  stoploss := -0.10;
  atr_period := 14;
  atr_multiplier := 3.0
|}.

(** [custom_stake_amount]; it has no [try]. *)
Definition custom_stake_amount (sur : Surroundings)
    (proposed_stake min_stake max_stake : Q) : result Q :=
  if negb (wallets_attached sur) then mret proposed_stake else
  open_trades ← wallets_get_open_trades sur;
  let trade_count : Q :=
    match open_trades with
    | Some (t :: ts) => inject_Z (Z.of_nat (length (t :: ts)))
    | _ => 0
    end in
  let max_trades := default 1 (config_max_open_trades sur) in
  let stake_multiplier :=
    if Qleb max_trades 0 then 1.0
    else if Qltb trade_count (max_trades / 3) then 1.0
    else if Qltb trade_count (max_trades * 2 / 3) then 0.66
    else 0.33 in
  let calculated_stake := proposed_stake * stake_multiplier in
  let final_stake := Qmax min_stake calculated_stake in
  let final_stake := Qmin max_stake final_stake in
  mret final_stake.

(** [np.isfinite] on a float of the embedding: every rational is. *)
Definition isfinite (x : Q) : bool := true.

(** [row[col]]; a missing column raises [KeyError]. *)
Definition candle_item (c : Candle) (col : string) : result Q :=
  match c !! col with
  | Some v => Ok v
  | None => Raise KeyError
  end.

(** [row.squeeze()] followed by a membership test [col in row]: a row
    with a single column is squeezed to the number it holds, and [in] on a
    number raises [TypeError]; any other row stays a row. *)
Definition squeeze_for_lookup (c : Candle) : result Candle :=
  if (size c =? 1)%nat then Raise TypeError else Ok c.

(** [custom_stoploss]; it has no [try]. *)
Definition custom_stoploss (sp : StopParameters) (env : Env) (pair : string)
    (trade : Trade) : result Q :=
  dataframe ← dp_get_analyzed_dataframe env pair;
  if df_empty dataframe then mret (stoploss sp) else
  row ← iloc_last dataframe;
  last_candle ← squeeze_for_lookup row;
  let atr_col := ("atr_" ++ pretty (atr_period sp))%string in
  match last_candle !! atr_col with
  | None => mret (stoploss sp)
  | Some atr_val =>
    if negb (isfinite atr_val) then mret (stoploss sp) else
    let atr_multiplier := atr_multiplier sp in
    close ← candle_item last_candle "close";
    let atr_stop_price :=
      if is_short trade then close + atr_val * atr_multiplier
      else close - atr_val * atr_multiplier in
    let initial_stop_price :=
      open_rate trade *
      (if is_short trade then 1 + stoploss sp else 1 - Qabs (stoploss sp)) in
    let stop_price :=
      if is_short trade then Qmin initial_stop_price atr_stop_price
      else Qmax initial_stop_price atr_stop_price in
    if Qeqb (open_rate trade) 0 then mret (stoploss sp) else
    let relative_stop := stop_price / open_rate trade - 1.0 in
    if is_short trade
    then mret (Qmin (Qabs (stoploss sp)) (Qmax 0 relative_stop))
    else mret (Qmax (stoploss sp) (Qmin 0 relative_stop))
  end.

(** The columns of a dataframe row that [populate_entry_trend] reads; the
    four crossing columns are what [qtpylib.crossed_above] and
    [qtpylib.crossed_below] answer for MACD against its signal and for
    stochastic %K against %D. *)
Record EntryRow : Type := {
  regime : Z;
  macd_crossed_above : bool;
  macd_crossed_below : bool;
  stoch_crossed_above : bool;
  stoch_crossed_below : bool;
  ema_fast : Q;
  ema_slow : Q;
  volume : Q;
  volume_ma : Q;
  stoch_k : Q;
  close : Q;
  bb_lowerband : Q;
  bb_upperband : Q
}.

(** The masks of [populate_entry_trend] on one row. *)
Definition long_mask (r : EntryRow) : bool :=
  let long_cond_1 :=
    Z.eqb (regime r) 1 && macd_crossed_above r
    && Qltb (ema_slow r) (ema_fast r)
    && Qltb (volume_ma r * 1.1) (volume r) in
  let long_cond_2 :=
    Z.eqb (regime r) 3 && Qltb (stoch_k r) 25 && stoch_crossed_above r
    && Qltb (close r) (bb_lowerband r * 1.01) in
  long_cond_1 || long_cond_2.

Definition short_mask (r : EntryRow) : bool :=
  let short_cond_1 :=
    Z.eqb (regime r) 2 && macd_crossed_below r
    && Qltb (ema_fast r) (ema_slow r)
    && Qltb (volume_ma r * 1.1) (volume r) in
  let short_cond_2 :=
    Z.eqb (regime r) 3 && Qltb 75 (stoch_k r) && stoch_crossed_below r
    && Qltb (bb_upperband r * 0.99) (close r) in
  short_cond_1 || short_cond_2.

(** [populate_entry_trend] on the two signal columns it writes. *)
Definition populate_entry_trend (dataframe : list EntryRow)
    (enter_long enter_short : list Z) : list Z * list Z :=
  (loc_set (map long_mask dataframe) 1%Z enter_long,
   loc_set (map short_mask dataframe) 1%Z enter_short).

End AggressiveSophisticated.

(** ** HighFrequencyScalp1m *)

Module HighFrequencyScalp.

Definition custom_stoploss (current_profit : Q) : Q :=
  if Qltb current_profit 0.01 then 1 else
  let desired_stop := current_profit / 2 in
  let min_stop := 0.0025 in
  let max_stop := 0.05 in
  let new_stop := Qmax (Qmin desired_stop max_stop) min_stop in
  new_stop.

(** [confirm_trade_entry]; it has no [try]. *)
Definition confirm_trade_entry (sur : Surroundings) (pair : string)
    : result bool :=
  ob ← dp_orderbook sur pair;
  match ob with
  | Some ob =>
    best_ask ← best_price (asks ob);
    best_bid ← best_price (bids ob);
    spread ←
      (if Qltb 0 best_bid then Py.div (best_ask - best_bid) best_bid
       else mret 0);
    if Qltb 0.003 spread then mret false else mret true
  | None => mret true
  end.

End HighFrequencyScalp.

(** ** EmaRsiStrategy *)

Module EmaRsi.

(** [buy_params['buy_rsi_threshold']] *)
Definition buy_rsi_threshold : Q := 60.

(** The columns of a dataframe row that the signal methods read. *)
Record Row : Type := {
  ema_fast : Q;
  ema_slow : Q;
  rsi : Q;
  volume : Q
}.

Definition entry_mask (r : Row) : bool :=
  Qltb (ema_slow r) (ema_fast r) && Qltb (rsi r) buy_rsi_threshold
  && Qltb 0 (volume r).

Definition exit_mask (r : Row) : bool :=
  Qltb (ema_fast r) (ema_slow r) && Qltb 0 (volume r).

Definition populate_entry_trend (dataframe : list Row) (enter_long : list Z)
    : list Z :=
  loc_set (map entry_mask dataframe) 1%Z enter_long.

Definition populate_exit_trend (dataframe : list Row) (exit_long : list Z)
    : list Z :=
  loc_set (map exit_mask dataframe) 1%Z exit_long.

End EmaRsi.

(** ** Python floats as IEEE binary64

    Two decisions of the strategies compare computed floats with a
    threshold that their exact values can meet: the risk budget of
    [confirm_trade_entry] in EnhancedRiskManagedStrategy and the drift of
    [needs_rebalancing] in PortfolioRebalancingStrategy.  There rounding
    decides, so these methods, and what they call, are translated here
    over the binary64 numbers of the kernel: [+], [-], [*], [/], [abs]
    and the comparisons are the IEEE operations that Python's [float]
    performs, a literal is the binary64 number nearest to it, and [nan]
    and the infinities are values like any other. *)

Module Binary64.

Local Open Scope float_scope.

(** [x or d] on an optional float: [None], [0.0] and [-0.0] are falsy,
    [nan] is not. *)
Definition float_or (x : option float) (d : float) : float :=
  match x with
  | Some v => if v =? 0 then d else v
  | None => d
  end.

(** The built-in [sum] adds floats from the left up to Python 3.11 and
    keeps a compensation term from Python 3.12 on. *)
Inductive Interpreter : Set :=
| Before312
| Since312.

(** The float loop of [sum] from Python 3.12 on (Neumaier's summation):
    [hi] is the running sum, [c] collects the rounding errors and is added
    at the end when it is neither zero nor infinite nor [nan]. *)
Fixpoint compensated (hi c : float) (xs : list float) : float :=
  match xs with
  | [] => if negb (c =? 0) && PrimFloat.is_finite c then hi + c else hi
  | x :: rest =>
    let t := hi + x in
    let c :=
      if PrimFloat.abs x <=? PrimFloat.abs hi
      then c + ((hi - t) + x)
      else c + ((x - t) + hi) in
    compensated t c rest
  end.

(** [sum(xs)] of floats: the start value is the int [0], to which the
    first term is added as to [0.0]. *)
Definition sum (v : Interpreter) (xs : list float) : float :=
  match v, xs with
  | _, [] => 0
  | Before312, _ => fold_left PrimFloat.add xs 0
  | Since312, x :: rest => compensated (0 + x) 0 rest
  end.

(** A row of an analysed dataframe, a trade and the surroundings of a
    callback, with binary64 numbers. *)
Abbreviation Candle := (gmap string float).

Definition candle_get (c : Candle) (col : string) (d : float) : float :=
  default d (c !! col).

Record Trade : Type := {
  pair : string;
  stake_amount : float;
  stop_loss_pct : option float
}.

Record Env : Type := {
  wallets_get_total_stake_amount : result float;
  get_trades_proxy_open : result (list Trade);
  dp_get_analyzed_dataframe : string -> result (list Candle)
}.

(** [dataframe.iloc[-1]] on a dataframe that is not empty. *)
Definition iloc_last (df : list Candle) : result Candle :=
  match List.last (map Some df) None with
  | Some c => Ok c
  | None => Raise KeyError
  end.

Definition df_empty (df : list Candle) : bool :=
  match df with [] => true | _ => false end.

End Binary64.

(** *** EnhancedRiskManagedStrategy.confirm_trade_entry *)

Module EnhancedRiskManaged64.
Import Binary64.

Local Open Scope float_scope.

(** The [.value] of the hyperopt parameter that the method reads. *)
Record Strategy : Type := {
  max_total_risk : float
}.

Definition defaults : Strategy := {| max_total_risk := 0.25 |}.

(** [confirm_trade_entry], the statements under [try]. *)
Definition confirm_trade_entry_body (v : Interpreter) (self : Strategy)
    (env : Env) (pair : string) (amount rate : float) : result bool :=
  total_stake ← wallets_get_total_stake_amount env;
  if total_stake <=? 0 then mret false else
  open_trades ← get_trades_proxy_open env;
  if (10 <=? length open_trades)%nat then mret false else
  let total_risk :=
    sum v (map (fun trade =>
                  PrimFloat.abs (stake_amount trade
                                 * float_or (stop_loss_pct trade) 0.08))
             open_trades) in
  let trade_risk := amount * rate * 0.08 in
  if total_stake * max_total_risk self <? total_risk + trade_risk
  then mret false else
  dataframe ← dp_get_analyzed_dataframe env pair;
  if df_empty dataframe then mret false else
  current_candle ← iloc_last dataframe;
  if 0.25 <? candle_get current_candle "bb_width" 0 then mret false else
  if candle_get current_candle "volume_ratio" 0 <? 0.5 then mret false else
  mret true.

Definition confirm_trade_entry (v : Interpreter) (self : Strategy)
    (env : Env) (pair : string) (amount rate : float) : bool :=
  try_except (confirm_trade_entry_body v self env pair amount rate) false.

End EnhancedRiskManaged64.

(** *** PortfolioRebalancingStrategy.needs_rebalancing and its callers *)

Module PortfolioRebalancing64.
Import Binary64.

Local Open Scope float_scope.

Record Strategy : Type := {
  target_btc_allocation : float;
  target_eth_allocation : float;
  target_alt_allocation : float;
  target_stable_allocation : float;
  target_other_allocation : float;
  rebalance_threshold : float;
  min_rebalance_amount : float
}.

(** The values written in the class body. *)
Definition defaults : Strategy := {|
  target_btc_allocation := 0.40;
  target_eth_allocation := 0.25;
  target_alt_allocation := 0.20;
  target_stable_allocation := 0.10;
  target_other_allocation := 0.05;
  rebalance_threshold := 0.15;
  min_rebalance_amount := 100
|}.

Definition get_target_allocation (self : Strategy) (category : string)
    : float :=
  let targets : gmap string float :=
    list_to_map
      [ ("btc", target_btc_allocation self);
        ("eth", target_eth_allocation self);
        ("alt", target_alt_allocation self);
        ("stable", target_stable_allocation self);
        ("other", target_other_allocation self) ]%string in
  default 0.0 (targets !! category).

Definition zero_allocations : gmap string float :=
  list_to_map
    [ ("btc", 0.0); ("eth", 0.0); ("alt", 0.0); ("stable", 0.0);
      ("other", 0.0) ]%string.

(** [d[key] += v]; a missing key raises [KeyError]. *)
Definition dict_add (d : gmap string float) (key : string) (v : float)
    : result (gmap string float) :=
  match d !! key with
  | Some x => Ok (<[key := x + v]> d)
  | None => Raise KeyError
  end.

(** The [for trade in open_trades] loop of
    [calculate_current_allocations]. *)
Fixpoint add_trades (allocations : gmap string float) (total_value : float)
    (open_trades : list Trade) : result (gmap string float * float) :=
  match open_trades with
  | [] => mret (allocations, total_value)
  | trade :: rest =>
    let category := PortfolioRebalancing.get_asset_category (pair trade) in
    let trade_value := stake_amount trade in
    allocations ← dict_add allocations category trade_value;
    add_trades allocations (total_value + trade_value) rest
  end.

(** [calculate_current_allocations], the statements under [try]; the
    division is under [if total_value > 0]. *)
Definition calculate_current_allocations_body (env : Env)
    : result (gmap string float * float) :=
  open_trades ← get_trades_proxy_open env;
  '(allocations, total_value) ← add_trades zero_allocations 0.0 open_trades;
  wallet ← wallets_get_total_stake_amount env;
  let available_balance := wallet - total_value in
  '(allocations, total_value) ←
    (if 0 <? available_balance then
       allocations ← dict_add allocations "stable" available_balance;
       mret (allocations, total_value + available_balance)
     else mret (allocations, total_value));
  let allocations :=
    if 0 <? total_value
    then (fun v => v / total_value) <$> allocations
    else allocations in
  mret (allocations, total_value).

Definition calculate_current_allocations (env : Env)
    : gmap string float * float :=
  try_except (calculate_current_allocations_body env) (zero_allocations, 0.0).

(** [needs_rebalancing], the statements under [try]. *)
Definition needs_rebalancing_body (self : Strategy) (env : Env)
    (pair : string) : result (bool * float * PortfolioRebalancing.Reason) :=
  let category := PortfolioRebalancing.get_asset_category pair in
  let target_allocation := get_target_allocation self category in
  if target_allocation =? 0
  then mret (false, 0.0, PortfolioRebalancing.NoTargetAllocation) else
  let '(current_allocations, total_value) :=
    calculate_current_allocations env in
  let current_allocation := default 0.0 (current_allocations !! category) in
  let allocation_drift :=
    PrimFloat.abs (current_allocation - target_allocation) in
  let needs_rebalance := rebalance_threshold self <? allocation_drift in
  if needs_rebalance then
    let target_value := total_value * target_allocation in
    let current_value := total_value * current_allocation in
    let position_change := target_value - current_value in
    if PrimFloat.abs position_change <? min_rebalance_amount self
    then mret (false, position_change, PortfolioRebalancing.ChangeTooSmall)
    else mret (true, position_change, PortfolioRebalancing.DriftAndChange)
  else mret (false, 0.0, PortfolioRebalancing.WithinThreshold).

Definition needs_rebalancing (self : Strategy) (env : Env) (pair : string)
    : bool * float * PortfolioRebalancing.Reason :=
  try_except (needs_rebalancing_body self env pair)
    (false, 0.0, PortfolioRebalancing.ErrorReason).

(** The two quantities that [needs_rebalancing] compares with the
    thresholds (its local variables [allocation_drift] and
    [position_change]), as functions of what the method reads. *)
Definition allocation_drift (self : Strategy) (env : Env) (pair : string)
    : float :=
  let category := PortfolioRebalancing.get_asset_category pair in
  let target_allocation := get_target_allocation self category in
  let '(current_allocations, total_value) :=
    calculate_current_allocations env in
  let current_allocation := default 0.0 (current_allocations !! category) in
  PrimFloat.abs (current_allocation - target_allocation).

Definition position_change (self : Strategy) (env : Env) (pair : string)
    : float :=
  let category := PortfolioRebalancing.get_asset_category pair in
  let target_allocation := get_target_allocation self category in
  let '(current_allocations, total_value) :=
    calculate_current_allocations env in
  let current_allocation := default 0.0 (current_allocations !! category) in
  total_value * target_allocation - total_value * current_allocation.

(** [confirm_trade_entry], the statements under [try]. *)
Definition confirm_trade_entry_body (self : Strategy) (env : Env)
    (pair : string) (entry_tag : option string) : result bool :=
  if tag_has "rebalance" entry_tag then
    let '(needs_rebalance, position_change, _) :=
      needs_rebalancing self env pair in
    if needs_rebalance && (0 <? position_change) then mret true
    else mret false
  else mret false.

Definition confirm_trade_entry (self : Strategy) (env : Env)
    (pair : string) (entry_tag : option string) : bool :=
  try_except (confirm_trade_entry_body self env pair entry_tag) false.

End PortfolioRebalancing64.

(** ** Concrete portfolios used to exercise the statements *)

Module Scenarios.

Definition candle_of (cols : list (string * Q)) : Candle := list_to_map cols.

Definition filled_order (tag : option string) (date : Q) : Order := {|
  ft_order_tag := tag;
  order_date := Some date;
  status := "closed";
  safe_remaining := 0;
  safe_price := 100
|}.

Definition open_trade (p : string) (stake : Q) (slp : option Q)
    (os : list Order) : Trade := {|
  pair := p;
  stake_amount := stake;
  stop_loss_pct := slp;
  open_date_utc := 0;
  open_rate := 100;
  is_short := false;
  orders := os;
  calc_profit_ratio := fun rate => rate / 100 - 1
|}.

Definition env_of (wallet : Q) (trades : list Trade) (last_candle : Candle)
    : Env := {|
  wallets_get_total_stake_amount := Ok wallet;
  get_trades_proxy_open := Ok trades;
  dp_get_analyzed_dataframe := fun _ => Ok [last_candle];
  dp_get_balance_base := Ok (Some wallet)
|}.

Definition calm_candle : Candle :=
  candle_of [("atr", 1.6); ("bb_width", 0.10); ("volume_ratio", 1.0);
             ("rsi", 55)]%string.

(** Ten open positions of 1 each in a wallet of 100000. *)
Definition ten_positions : Env :=
  env_of 100000
    (repeat (open_trade "ETH/USDT" 1 None []) 10)
    calm_candle.

Definition overbought_candle : Candle :=
  candle_of [("atr", 1.6); ("bb_width", 0.10); ("volume_ratio", 1.0);
             ("rsi", 85)]%string.

(** A wallet of 1000 with nothing invested, on an overbought candle. *)
Definition idle_overbought : Env := env_of 1000 [] overbought_candle.

(** A position of 100 opened at 100. *)
Definition btc_position : Trade := open_trade "BTC/USD" 100 None [].

(** A process without the bot variables and without any file. *)
Definition bare_os : OS := {| environ := ∅; files := ∅ |}.

(** Surroundings in which every query fails. *)
Definition failing_env : Env := {|
  wallets_get_total_stake_amount := Raise RuntimeError;
  get_trades_proxy_open := Raise RuntimeError;
  dp_get_analyzed_dataframe := fun _ => Raise RuntimeError;
  dp_get_balance_base := Raise RuntimeError
|}.




(** Two positions of 400 whose stops are at 30%, which reserve 240 of
    risk; the position of 100 that is admitted beside them, with the stop
    of 8% that it is opened with; and that position once an averaging
    order of 30 has been filled three hours later. *)
Definition wide_stops : list Trade :=
  [ open_trade "ETH/USDT" 400 (Some (-0.30)) [];
    open_trade "SOL/USDT" 400 (Some (-0.30)) [] ].

Definition admitted_position : Trade :=
  open_trade "BTC/USDT" 100 (Some (-0.08)) [ filled_order None 0 ].

Definition averaged_position : Trade :=
  open_trade "BTC/USDT" 130 (Some (-0.08))
    [ filled_order None 0; filled_order None 10800 ].

(** Portfolios in binary64 numbers: a wallet, its open trades and a last
    candle on which the market filters pass. *)
Definition trade64 (p : string) (stake : float) (slp : option float)
    : Binary64.Trade := {|
  Binary64.pair := p;
  Binary64.stake_amount := stake;
  Binary64.stop_loss_pct := slp
|}.

Definition env64 (wallet : float) (trades : list Binary64.Trade)
    : Binary64.Env := {|
  Binary64.wallets_get_total_stake_amount := Ok wallet;
  Binary64.get_trades_proxy_open := Ok trades;
  Binary64.dp_get_analyzed_dataframe := fun _ =>
    Ok [ list_to_map [ ("bb_width", 0.10%float);
                       ("volume_ratio", 1.0%float) ]%string ]
|}.

(** The default allocation targets in binary64 with no target for the
    category "other". *)
Definition no_other_target64 : PortfolioRebalancing64.Strategy := {|
  PortfolioRebalancing64.target_btc_allocation := 0.40;
  PortfolioRebalancing64.target_eth_allocation := 0.25;
  PortfolioRebalancing64.target_alt_allocation := 0.20;
  PortfolioRebalancing64.target_stable_allocation := 0.10;
  PortfolioRebalancing64.target_other_allocation := 0.00;
  PortfolioRebalancing64.rebalance_threshold := 0.15;
  PortfolioRebalancing64.min_rebalance_amount := 100
|}.

(** A DCA position of 120 opened at time 0 whose first ladder order was
    filled one hour later. *)
Definition averaged_once : Trade :=
  open_trade "BTC/USDT" 120 None
    [ filled_order (Some "dca_initial"%string) 0;
      filled_order (Some "dca_1"%string) 3600 ].

(** A DCA position of 120 opened at time 0 with its initial order only,
    in a wallet of 1000. *)
Definition dca_fresh : Trade :=
  open_trade "BTC/USDT" 120 None [ filled_order (Some "dca_initial"%string) 0 ].

Definition dca_tick (time profit : Q) : DCA.Tick := {|
  DCA.tick_env := env_of 1000 [] calm_candle;
  DCA.tick_time := time;
  DCA.tick_profit := profit;
  DCA.tick_rate := 100 * (1 + profit)
|}.

(** Five evaluations of the position: after 2, 5, 10, 15 and 25 hours, the
    position losing 6%, 6%, 7%, 12% and 20%. *)
Definition dca_ticks : list DCA.Tick :=
  [ dca_tick 7200 (-0.06); dca_tick 18000 (-0.06); dca_tick 36000 (-0.07);
    dca_tick 54000 (-0.12); dca_tick 90000 (-0.20) ].

(** A DCA position of 340 (34% of a wallet of 1000) with its initial
    order only. *)
Definition dca_heavy : Trade :=
  open_trade "BTC/USDT" 340 None [ filled_order (Some "dca_initial"%string) 0 ].

(** Bitcoin holds 30% of a portfolio of 1000 (target 40%). *)
Definition btc_at_30_percent : Env :=
  env_of 1000 [ open_trade "BTC/USD" 300 None [] ] calm_candle.

(** Bitcoin holds 20% of a portfolio of 2500 (target 40%): 500 short. *)
Definition btc_at_20_percent : Env :=
  env_of 2500 [ open_trade "BTC/USD" 500 None [] ] calm_candle.

(** Snapshots for the regime filter. *)
Definition quiet_row : AggressiveSophisticated.Row := {|
  AggressiveSophisticated.adx := 12;
  AggressiveSophisticated.plus_di := 30;
  AggressiveSophisticated.minus_di := 10
|}.

Definition rising_row : AggressiveSophisticated.Row := {|
  AggressiveSophisticated.adx := 40;
  AggressiveSophisticated.plus_di := 30;
  AggressiveSophisticated.minus_di := 10
|}.

Definition falling_row : AggressiveSophisticated.Row := {|
  AggressiveSophisticated.adx := 40;
  AggressiveSophisticated.plus_di := 10;
  AggressiveSophisticated.minus_di := 30
|}.

(** Surroundings at time [now] with the given wallet, open trades and
    last candle; no order book, no wallet object. *)
Definition surroundings_of (now wallet : Q) (trades : list Trade)
    (last_candle : Candle) : Surroundings := {|
  base_env := env_of wallet trades last_candle;
  utcnow := now;
  dp_orderbook := fun _ => Ok None;
  wallets_attached := false;
  wallets_get_open_trades := Ok None;
  config_max_open_trades := None
|}.

(** A position of 200 opened at 100 whose only order is three hours old
    at time 10800. *)
Definition enhanced_position : Trade :=
  open_trade "BTC/USDT" 200 None [ filled_order None 0 ].

(** A process with both bot variables and both files present, the
    universal risk management enabled with 2% of the balance per trade. *)
Definition configured_os : OS := {|
  environ :=
    list_to_map [ ("BOT_INSTANCE_ID", "bot1"); ("USER_ID", "u1") ]%string;
  files :=
    list_to_map
      [ (path_join (EnhancedRiskManaged.universal_base_path "u1" "bot1")
           "universal-settings.json",
         Ok (JObj [ ("enabled"%string, JBool true) ]));
        (path_join (EnhancedRiskManaged.universal_base_path "u1" "bot1")
           "risk-config.json",
         Ok (JObj [ ("riskPerTrade"%string, JNum 0.02) ])) ]
|}.

(** A row on which [populate_entry_trend] of EnhancedRiskManagedStrategy
    sets an entry while the price volatility is above 8%. *)
Definition entry_row : EnhancedRiskManaged.SignalRow := {|
  EnhancedRiskManaged.ema_fast := 105;
  EnhancedRiskManaged.ema_slow := 100;
  EnhancedRiskManaged.close := 106;
  EnhancedRiskManaged.sma_20 := 102;
  EnhancedRiskManaged.adx := 30;
  EnhancedRiskManaged.rsi := 28;
  EnhancedRiskManaged.macd := 1;
  EnhancedRiskManaged.macdsignal := 0.5;
  EnhancedRiskManaged.bb_width := 0.10;
  EnhancedRiskManaged.volume := 1000;
  EnhancedRiskManaged.volume_ratio := 1.5;
  EnhancedRiskManaged.support := 100;
  EnhancedRiskManaged.resistance := 120;
  EnhancedRiskManaged.price_volatility := 0.09
|}.

(** The same position with an order that carries no date. *)
Definition undated_position : Trade :=
  open_trade "BTC/USDT" 200 None [ {|
    ft_order_tag := None; order_date := None; status := "closed";
    safe_remaining := 0; safe_price := 100 |} ].

(** Eight open positions in other pairs, in a wallet of 1000. *)
Definition eight_positions : Env :=
  env_of 1000 (repeat (open_trade "ETH/USDT" 50 None []) 8) calm_candle.

(** Two open positions in other pairs, in a wallet of 1000. *)
Definition two_other_positions : Env :=
  env_of 1000 (repeat (open_trade "ETH/USDT" 50 None []) 2) calm_candle.

(** The DCA position in a wallet that is empty. *)
Definition empty_wallet : Env := env_of 0 [] calm_candle.

(** Ticks of a position whose wallet is 1000 throughout: after 5, 10, 15
    and 20 hours, at losses of 6%, 12%, 20% and 30%. *)
Definition falling_ticks : list DCA.Tick :=
  [ dca_tick 18000 (-0.06); dca_tick 36000 (-0.12); dca_tick 54000 (-0.20);
    dca_tick 72000 (-0.30) ].

(** The allocation limit at its upper end, 50%. *)
Definition dca_wide : DCA.Strategy := {|
  DCA.stoploss := -0.12;
  DCA.dca_enabled := true;
  DCA.dca_level_1 := -0.05;
  DCA.dca_level_2 := -0.10;
  DCA.dca_level_3 := -0.18;
  DCA.dca_level_4 := -0.28;
  DCA.dca_size_multiplier_1 := 1.2;
  DCA.dca_size_multiplier_2 := 1.5;
  DCA.dca_size_multiplier_3 := 2.0;
  DCA.dca_size_multiplier_4 := 2.5;
  DCA.base_position_size := 0.12;
  DCA.max_position_size := 0.45;
  DCA.max_total_allocation := 0.50;
  DCA.min_time_between_entries := 4
|}.

Definition resistance_candle : Candle :=
  candle_of [("resistance", 120); ("bb_upper", 115); ("volume_ratio", 1.0)]%string.

(** A wallet of 2500 holding Bitcoin worth 500, on a candle whose
    resistance is 120 and upper band 115. *)
Definition btc_short_of_target : Env :=
  env_of 2500 [ open_trade "BTC/USD" 500 None [] ] resistance_candle.

(** Surroundings with a wallet object that lists the given open trades
    and a configuration that allows [max_trades] of them. *)
Definition wallet_with (trades : list Trade) (max_trades : Q)
    : Surroundings := {|
  base_env := env_of 1000 trades calm_candle;
  utcnow := 0;
  dp_orderbook := fun _ => Ok None;
  wallets_attached := true;
  wallets_get_open_trades := Ok (Some trades);
  config_max_open_trades := Some max_trades
|}.

Definition atr_candle : Candle :=
  candle_of [("atr_14", 1); ("close", 104)]%string.

(** A long and a short position opened at 100. *)
Definition long_position : Trade := open_trade "BTC/USDT" 100 None [].

Definition short_position : Trade := {|
  pair := "BTC/USDT";
  stake_amount := 100;
  stop_loss_pct := None;
  open_date_utc := 0;
  open_rate := 100;
  is_short := true;
  orders := [];
  calc_profit_ratio := fun rate => 1 - rate / 100
|}.


(** A row of a ranging market on which the stochastic turns up from 20
    at the lower band. *)
Definition range_long_row : AggressiveSophisticated.EntryRow := {|
  AggressiveSophisticated.regime := 3;
  AggressiveSophisticated.macd_crossed_above := false;
  AggressiveSophisticated.macd_crossed_below := false;
  AggressiveSophisticated.stoch_crossed_above := true;
  AggressiveSophisticated.stoch_crossed_below := false;
  AggressiveSophisticated.ema_fast := 100;
  AggressiveSophisticated.ema_slow := 100;
  AggressiveSophisticated.volume := 10;
  AggressiveSophisticated.volume_ma := 10;
  AggressiveSophisticated.stoch_k := 20;
  AggressiveSophisticated.close := 98;
  AggressiveSophisticated.bb_lowerband := 98;
  AggressiveSophisticated.bb_upperband := 104
|}.

(** A row on which the fast EMA is above the slow one with RSI 50. *)
Definition ema_up_row : EmaRsi.Row := {|
  EmaRsi.ema_fast := 101;
  EmaRsi.ema_slow := 100;
  EmaRsi.rsi := 50;
  EmaRsi.volume := 10
|}.

End Scenarios.

(** * Properties *)

(** ** Reflection of the boolean comparisons and of the runtime helpers *)

Lemma Qleb_le (a b : Q) : Qleb a b = true <-> a <= b.
Proof. apply Qle_bool_iff. Qed.

Lemma Qleb_gt (a b : Q) : Qleb a b = false <-> b < a.
Proof.
  unfold Qleb. destruct (Qle_bool a b) eqn:E.
  - apply Qle_bool_iff in E. split; [discriminate | lra].
  - split; [intros _ | reflexivity].
    apply Qnot_le_lt. intros H. apply Qle_bool_iff in H. congruence.
Qed.

Lemma Qltb_lt (a b : Q) : Qltb a b = true <-> a < b.
Proof. unfold Qltb. rewrite negb_true_iff. apply (Qleb_gt b a). Qed.

Lemma Qltb_ge (a b : Q) : Qltb a b = false <-> b <= a.
Proof. unfold Qltb. rewrite negb_false_iff. apply Qle_bool_iff. Qed.

Lemma Qeqb_eq (a b : Q) : Qeqb a b = true <-> a == b.
Proof. apply Qeq_bool_iff. Qed.

Lemma Qeqb_neq (a b : Q) : Qeqb a b = false <-> ~ a == b.
Proof.
  unfold Qeqb. destruct (Qeq_bool a b) eqn:E.
  - apply Qeq_bool_iff in E. split; [discriminate | tauto].
  - split; [intros _ H | reflexivity].
    apply Qeq_bool_iff in H. congruence.
Qed.

(** Case analysis on a boolean comparison, keeping the order fact. *)
Ltac case_cmp :=
  match goal with
  | |- context [Qltb ?a ?b] =>
      let E := fresh "Hcmp" in
      destruct (Qltb a b) eqn:E;
      [apply Qltb_lt in E | apply Qltb_ge in E]
  | |- context [Qleb ?a ?b] =>
      let E := fresh "Hcmp" in
      destruct (Qleb a b) eqn:E;
      [apply Qleb_le in E | apply Qleb_gt in E]
  | |- context [Qeqb ?a ?b] =>
      let E := fresh "Hcmp" in
      destruct (Qeqb a b) eqn:E;
      [apply Qeqb_eq in E | apply Qeqb_neq in E]
  end.

(** One step through a [result] computation. *)
Ltac step_bind := cbn [mbind result_bind mret result_ret try_except].

Lemma fold_left_Qplus_shift (xs : list Q) (a : Q) :
  fold_left Qplus xs a == a + fold_left Qplus xs 0.
Proof.
  revert a. induction xs as [|x xs IH]; intros a; simpl.
  - lra.
  - rewrite (IH (a + x)), (IH (0 + x)). lra.
Qed.

Lemma iloc_last_nonempty (df : DataFrame) (c : Candle) :
  iloc_last df = Ok c -> df_empty df = false.
Proof. destruct df; [discriminate | reflexivity]. Qed.


(** ** The admission gate of EnhancedRiskManagedStrategy *)

Section AdmissionGate.

Import EnhancedRiskManaged.

Variable self : Strategy.
Variable env : Env.
Variable pair : string.
Variables amount rate : Q.

Lemma confirm_trade_entry_true_inv :
  confirm_trade_entry self env pair amount rate = true ->
  exists total_stake open_trades,
    wallets_get_total_stake_amount env = Ok total_stake /\
    get_trades_proxy_open env = Ok open_trades /\
    0 < total_stake /\
    (length open_trades < 10)%nat /\
    total_risk open_trades + amount * rate * 0.08
      <= total_stake * max_total_risk self.
Proof.
  unfold confirm_trade_entry, confirm_trade_entry_body.
  destruct (wallets_get_total_stake_amount env) as [ts|]; step_bind;
    [|discriminate].
  case_cmp; step_bind; [discriminate|].
  destruct (get_trades_proxy_open env) as [ots|]; step_bind; [|discriminate].
  destruct (10 <=? length ots)%nat eqn:Hlen; step_bind; [discriminate|].
  case_cmp; step_bind; [discriminate|].
  intros _. exists ts, ots. repeat split; try assumption.
  apply Nat.leb_gt in Hlen. exact Hlen.
Qed.

End AdmissionGate.

(** What [confirm_trade_entry] has established when it answers [True],
    in binary64. *)
Lemma confirm_trade_entry64_true_inv
    (v : Binary64.Interpreter) (self : EnhancedRiskManaged64.Strategy)
    (env : Binary64.Env) (pair : string) (amount rate : float) :
  EnhancedRiskManaged64.confirm_trade_entry v self env pair amount rate
  = true ->
  exists total_stake open_trades,
    Binary64.wallets_get_total_stake_amount env = Ok total_stake /\
    Binary64.get_trades_proxy_open env = Ok open_trades /\
    (total_stake <=? 0)%float = false /\
    (length open_trades < 10)%nat /\
    (total_stake * EnhancedRiskManaged64.max_total_risk self
     <? Binary64.sum v
          (map (fun trade =>
                  PrimFloat.abs
                    (Binary64.stake_amount trade
                     * Binary64.float_or (Binary64.stop_loss_pct trade) 0.08))
             open_trades)
        + amount * rate * 0.08)%float = false.
Proof.
  unfold EnhancedRiskManaged64.confirm_trade_entry,
    EnhancedRiskManaged64.confirm_trade_entry_body.
  destruct (Binary64.wallets_get_total_stake_amount env) as [ts|]; step_bind;
    [|discriminate].
  destruct (ts <=? 0)%float eqn:Hts; step_bind; [discriminate|].
  destruct (Binary64.get_trades_proxy_open env) as [ots|]; step_bind;
    [|discriminate].
  destruct (10 <=? length ots)%nat eqn:Hlen; step_bind; [discriminate|].
  match goal with
  | |- context [if ?b then _ else _] => destruct b eqn:Hrisk
  end; step_bind; [discriminate|].
  intros _. exists ts, ots. repeat split; try assumption; try reflexivity.
  apply Nat.leb_gt in Hlen. exact Hlen.
Qed.

(** C1, as stated, fails: the ceiling is tested when an entry is admitted
    and at no other moment.  In a wallet of 1000 (ceiling 250) two
    positions reserve 240 of risk; an entry of 100 (risk 8) is admitted,
    in exact and in binary64 arithmetic alike; three hours later, the
    position losing 10%, [adjust_trade_position] of the same strategy
    grants an averaging order of 30 without consulting the budget, after
    which the reserved risk is 250.4. *)
Lemma C1_counterexample :
  EnhancedRiskManaged.confirm_trade_entry EnhancedRiskManaged.defaults
    (Scenarios.env_of 1000 Scenarios.wide_stops Scenarios.calm_candle)
    "BTC/USDT" 1 100 = true
  /\
  (forall v,
     EnhancedRiskManaged64.confirm_trade_entry v
       EnhancedRiskManaged64.defaults
       (Scenarios.env64 1000
          [ Scenarios.trade64 "ETH/USDT" 400 (Some (-0.30)%float);
            Scenarios.trade64 "SOL/USDT" 400 (Some (-0.30)%float) ])
       "BTC/USDT" 1 100 = true)
  /\
  (exists size,
     EnhancedRiskManaged.adjust_trade_position EnhancedRiskManaged.defaults
       EnhancedRiskManaged.hyperopt_defaults
       (Scenarios.surroundings_of 10800 1000
          (Scenarios.wide_stops ++ [Scenarios.admitted_position])
          Scenarios.calm_candle)
       Scenarios.admitted_position 90 (Some 10) 1000 = Ok (Some size) /\
     size == 30)
  /\
  1000 * EnhancedRiskManaged.max_total_risk EnhancedRiskManaged.defaults
  < Py.sum
      (map (fun trade => Qabs (stake_amount trade
                               * float_or (stop_loss_pct trade) 0.08))
         (Scenarios.wide_stops ++ [Scenarios.averaged_position])).
Proof.
  split; [vm_compute; reflexivity|].
  split; [intros v; destruct v; vm_compute; reflexivity|]. split.
  - eexists. split; vm_compute; reflexivity.
  - vm_compute. reflexivity.
Qed.

(** C1, amended: what the admission check of EnhancedRiskManagedStrategy
    enforces, at the moment of an admission and in the floats it computes
    with.  Write [risk] for [abs(stake_amount * (stop_loss_pct or 0.08))]
    of an open position.  (1) For every wallet and list of open positions
    that the check reads, when the sum of their risks plus
    [amount * rate * 0.08] compares above [total_stake * max_total_risk]
    the check answers [False]: an answer, not an exception, the method
    being total.  (2) Whenever it answers [True] the wallet is positive,
    fewer than ten positions are open and that comparison is false.
    (3) The sum is Python's [sum] over the open positions: nothing for
    none, [0 + risk] for one, and before Python 3.12 the risks added from
    the left. *)
Theorem C1_risk_ceiling_enforced
    (v : Binary64.Interpreter) (self : EnhancedRiskManaged64.Strategy)
    (env : Binary64.Env) (pair : string) (amount rate : float) :
  let risk (trade : Binary64.Trade) : float :=
    PrimFloat.abs
      (Binary64.stake_amount trade
       * Binary64.float_or (Binary64.stop_loss_pct trade) 0.08)%float in
  let over_ceiling (total_stake : float) (open_trades : list Binary64.Trade)
      : bool :=
    (total_stake * EnhancedRiskManaged64.max_total_risk self
     <? Binary64.sum v (map risk open_trades) + amount * rate * 0.08)%float in
  (forall total_stake open_trades,
     Binary64.wallets_get_total_stake_amount env = Ok total_stake ->
     Binary64.get_trades_proxy_open env = Ok open_trades ->
     over_ceiling total_stake open_trades = true ->
     EnhancedRiskManaged64.confirm_trade_entry v self env pair amount rate
     = false)
  /\
  (EnhancedRiskManaged64.confirm_trade_entry v self env pair amount rate
   = true ->
   exists total_stake open_trades,
     Binary64.wallets_get_total_stake_amount env = Ok total_stake /\
     Binary64.get_trades_proxy_open env = Ok open_trades /\
     (total_stake <=? 0)%float = false /\
     (length open_trades < 10)%nat /\
     over_ceiling total_stake open_trades = false)
  /\
  (Binary64.sum v [] = 0%float /\
   (forall x, Binary64.sum v [x] = (0 + x)%float) /\
   (forall xs,
      Binary64.sum Binary64.Before312 xs = fold_left PrimFloat.add xs 0%float)).
Proof.
  intros risk over_ceiling.
  split; [|split].
  - intros total_stake open_trades Hw Ht Hover.
    destruct (EnhancedRiskManaged64.confirm_trade_entry v self env pair
                amount rate) eqn:Hc; [|reflexivity].
    destruct (confirm_trade_entry64_true_inv v self env pair amount rate Hc)
      as (ts & ots & Hw' & Ht' & _ & _ & Hnot).
    rewrite Hw in Hw'. rewrite Ht in Ht'.
    injection Hw' as <-. injection Ht' as <-.
    subst over_ceiling risk. cbv beta in Hover. congruence.
  - exact (confirm_trade_entry64_true_inv v self env pair amount rate).
  - split; [|split].
    + destruct v; reflexivity.
    + intros x. destruct v; reflexivity.
    + intros xs. destruct xs; reflexivity.
Qed.

(** C1 where rounding decides: one open position of 3124 and an entry of
    1 in a wallet of 1000.  The computed sum [3124 * 0.08 + 0.08] is
    250.00000000000003, above the ceiling of 250, and the entry is
    rejected. *)
Lemma C1_risk_ceiling_enforced_witness :
  EnhancedRiskManaged64.confirm_trade_entry Binary64.Since312
    EnhancedRiskManaged64.defaults
    (Scenarios.env64 1000 [Scenarios.trade64 "ETH/USDT" 3124 None])
    "BTC/USDT" 1 1 = false.
Proof.
  apply (proj1 (C1_risk_ceiling_enforced Binary64.Since312
                  EnhancedRiskManaged64.defaults
                  (Scenarios.env64 1000
                     [Scenarios.trade64 "ETH/USDT" 3124 None])
                  "BTC/USDT" 1 1)
           1000%float [Scenarios.trade64 "ETH/USDT" 3124 None]).
  - reflexivity.
  - reflexivity.
  - vm_compute. reflexivity.
Defined.

(** C7: with ten or more positions open the admission check of
    EnhancedRiskManagedStrategy answers [false], whatever the wallet, the
    risk parameters, the proposed amount and the market data are: the
    count is tested before the risk budget is even computed. *)
Theorem C7_position_count_ceiling
    (self : EnhancedRiskManaged.Strategy) (env : Env) (pair : string)
    (amount rate : Q) (open_trades : list Trade) :
  get_trades_proxy_open env = Ok open_trades ->
  (10 <= length open_trades)%nat ->
  EnhancedRiskManaged.confirm_trade_entry self env pair amount rate = false.
Proof.
  intros Ht Hlen.
  destruct (EnhancedRiskManaged.confirm_trade_entry self env pair amount rate)
    eqn:Hc; [|reflexivity].
  destruct (confirm_trade_entry_true_inv self env pair amount rate Hc)
    as (ts & ots & _ & Ht' & _ & Hlt & _).
  rewrite Ht in Ht'. injection Ht' as <-. lia.
Qed.

(** C7 at a concrete portfolio: ten positions of 1 each in a wallet of
    100000, so that the risk budget is almost entirely free. *)
Lemma C7_position_count_ceiling_witness :
  EnhancedRiskManaged.confirm_trade_entry EnhancedRiskManaged.defaults
    Scenarios.ten_positions "BTC/USDT" 1 100 = false.
Proof.
  apply (C7_position_count_ceiling EnhancedRiskManaged.defaults
           Scenarios.ten_positions "BTC/USDT" 1 100
           (repeat (Scenarios.open_trade "ETH/USDT" 1 None []) 10)).
  - reflexivity.
  - vm_compute. lia.
Defined.

(** ** Exit confirmation *)

Lemma enhanced_exit_rejected_inv
    (self : EnhancedRiskManaged.Strategy) (env : Env) (pair : string)
    (trade : Trade) (rate : Q) (exit_reason : string) :
  EnhancedRiskManaged.confirm_trade_exit self env pair trade rate exit_reason
    = false ->
  str_elem exit_reason ["stop_loss"; "stoploss_on_exchange"; "emergency_exit"]
    = false /\
  str_elem exit_reason ["roi"; "exit_signal"] = true /\
  calc_profit_ratio trade rate < 0.02 /\
  exists df c,
    dp_get_analyzed_dataframe env pair = Ok df /\
    iloc_last df = Ok c /\
    candle_get c "rsi" 50 <= 80 /\
    candle_get c "bb_width" 0 <= 0.20.
Proof.
  unfold EnhancedRiskManaged.confirm_trade_exit,
    EnhancedRiskManaged.confirm_trade_exit_body.
  destruct (str_elem exit_reason
              ["stop_loss"; "stoploss_on_exchange"; "emergency_exit"]);
    step_bind; [discriminate|].
  destruct (str_elem exit_reason ["roi"; "exit_signal"]);
    cbn [andb]; step_bind; [|discriminate].
  case_cmp; step_bind; [|discriminate].
  destruct (dp_get_analyzed_dataframe env pair) as [df|]; step_bind;
    [|discriminate].
  destruct (df_empty df) eqn:Hdf; cbn [negb]; step_bind; [discriminate|].
  destruct (iloc_last df) as [c|] eqn:Hc; step_bind; [|discriminate].
  destruct (Qltb 80 (candle_get c "rsi" 50)) eqn:Hrsi; cbn [orb];
    step_bind; [discriminate|].
  destruct (Qltb 0.20 (candle_get c "bb_width" 0)) eqn:Hbb;
    step_bind; [discriminate|].
  intros _. apply Qltb_ge in Hrsi, Hbb.
  repeat split; try assumption.
  exists df, c. repeat split; assumption.
Qed.

Lemma rebalancing_exit_rejected_inv
    (self : PortfolioRebalancing.Strategy) (env : Env) (pair : string)
    (trade : Trade) (rate : Q) (exit_reason : string) :
  PortfolioRebalancing.confirm_trade_exit self env pair trade rate exit_reason
    = false ->
  exit_reason = "exit_signal"%string /\
  calc_profit_ratio trade rate <= 0.15 /\
  ~ ((PortfolioRebalancing.needs_rebalancing self env pair).1.1 = true /\
     (PortfolioRebalancing.needs_rebalancing self env pair).1.2 < 0).
Proof.
  unfold PortfolioRebalancing.confirm_trade_exit,
    PortfolioRebalancing.confirm_trade_exit_body.
  destruct (str_elem exit_reason ["stop_loss"; "roi"; "force_exit"]);
    step_bind; [discriminate|].
  destruct (String.eqb exit_reason "exit_signal") eqn:Hr; step_bind;
    [|discriminate].
  destruct (PortfolioRebalancing.needs_rebalancing self env pair)
    as [[needs change] reason]. cbn [fst snd].
  destruct (needs && Qltb change 0) eqn:Hn; step_bind; [discriminate|].
  case_cmp; step_bind; [discriminate|].
  intros _. apply String.eqb_eq in Hr.
  repeat split; try assumption.
  intros [-> Hlt]. apply Qltb_lt in Hlt. rewrite Hlt in Hn. discriminate.
Qed.

(** C8, as stated, fails on PortfolioRebalancingStrategy: a signal exit of
    a position that is 10% in profit (not barely profitable), on a candle
    whose RSI is 85 (strongly overbought), is rejected. *)
Lemma C8_counterexample :
  PortfolioRebalancing.confirm_trade_exit PortfolioRebalancing.defaults
    Scenarios.idle_overbought "BTC/USD" Scenarios.btc_position 110
    "exit_signal" = false /\
  ~ calc_profit_ratio Scenarios.btc_position 110 < 0.02 /\
  exists df c,
    dp_get_analyzed_dataframe Scenarios.idle_overbought "BTC/USD" = Ok df /\
    iloc_last df = Ok c /\
    80 < candle_get c "rsi" 50.
Proof.
  split; [vm_compute; reflexivity|].
  split.
  - intros H. vm_compute in H. discriminate.
  - exists [Scenarios.overbought_candle], Scenarios.overbought_candle.
    repeat split.
Qed.

(** C8, amended: in both strategies an exit whose reason is a stop-loss
    or an emergency exit is confirmed, for every trade, rate and market
    state.  EnhancedRiskManagedStrategy rejects an exit only when the
    reason is [roi] or [exit_signal], the profit at the exit rate is below
    2% and the last candle shows neither RSI above 80 nor a band width
    above 0.20.  PortfolioRebalancingStrategy rejects an exit only when
    the reason is [exit_signal], the profit is at most 15% and no
    rebalancing sale of the pair is due; it consults no overbought
    indicator. *)
Theorem C8_protective_exits_always_confirmed :
  (forall (self : EnhancedRiskManaged.Strategy)
          (self' : PortfolioRebalancing.Strategy) (env : Env) (pair : string)
          (trade : Trade) (rate : Q) (exit_reason : string),
     str_elem exit_reason
       ["stop_loss"; "stoploss_on_exchange"; "emergency_exit"] = true ->
     EnhancedRiskManaged.confirm_trade_exit self env pair trade rate
       exit_reason = true /\
     PortfolioRebalancing.confirm_trade_exit self' env pair trade rate
       exit_reason = true)
  /\
  (forall (self : EnhancedRiskManaged.Strategy) (env : Env) (pair : string)
          (trade : Trade) (rate : Q) (exit_reason : string),
     EnhancedRiskManaged.confirm_trade_exit self env pair trade rate
       exit_reason = false ->
     str_elem exit_reason ["roi"; "exit_signal"] = true /\
     calc_profit_ratio trade rate < 0.02 /\
     exists df c,
       dp_get_analyzed_dataframe env pair = Ok df /\
       iloc_last df = Ok c /\
       candle_get c "rsi" 50 <= 80 /\
       candle_get c "bb_width" 0 <= 0.20)
  /\
  (forall (self' : PortfolioRebalancing.Strategy) (env : Env) (pair : string)
          (trade : Trade) (rate : Q) (exit_reason : string),
     PortfolioRebalancing.confirm_trade_exit self' env pair trade rate
       exit_reason = false ->
     exit_reason = "exit_signal"%string /\
     calc_profit_ratio trade rate <= 0.15 /\
     ~ ((PortfolioRebalancing.needs_rebalancing self' env pair).1.1 = true /\
        (PortfolioRebalancing.needs_rebalancing self' env pair).1.2 < 0)).
Proof.
  split; [|split].
  - intros self self' env pair trade rate exit_reason Hr. split.
    + destruct (EnhancedRiskManaged.confirm_trade_exit self env pair trade
                  rate exit_reason) eqn:Hc; [reflexivity|].
      apply enhanced_exit_rejected_inv in Hc. destruct Hc as [Hc _].
      congruence.
    + destruct (PortfolioRebalancing.confirm_trade_exit self' env pair trade
                  rate exit_reason) eqn:Hc; [reflexivity|].
      apply rebalancing_exit_rejected_inv in Hc. destruct Hc as [-> _].
      vm_compute in Hr. discriminate.
  - intros self env pair trade rate exit_reason Hc.
    apply enhanced_exit_rejected_inv in Hc. tauto.
  - intros self' env pair trade rate exit_reason Hc.
    apply rebalancing_exit_rejected_inv in Hc. exact Hc.
Qed.

(** C8 at concrete exits: a stop-loss and an emergency exit of the 10%
    position are confirmed by both strategies. *)
Lemma C8_protective_exits_always_confirmed_witness :
  (EnhancedRiskManaged.confirm_trade_exit EnhancedRiskManaged.defaults
     Scenarios.idle_overbought "BTC/USD" Scenarios.btc_position 110
     "stop_loss" = true /\
   PortfolioRebalancing.confirm_trade_exit PortfolioRebalancing.defaults
     Scenarios.idle_overbought "BTC/USD" Scenarios.btc_position 110
     "stop_loss" = true) /\
  (EnhancedRiskManaged.confirm_trade_exit EnhancedRiskManaged.defaults
     Scenarios.idle_overbought "BTC/USD" Scenarios.btc_position 110
     "emergency_exit" = true /\
   PortfolioRebalancing.confirm_trade_exit PortfolioRebalancing.defaults
     Scenarios.idle_overbought "BTC/USD" Scenarios.btc_position 110
     "emergency_exit" = true).
Proof.
  split.
  - apply (proj1 C8_protective_exits_always_confirmed). reflexivity.
  - apply (proj1 C8_protective_exits_always_confirmed). reflexivity.
Defined.

(** ** The two definitions of [custom_stake_amount] *)

Lemma custom_stake_amount_defs_differ :
  EnhancedRiskManaged.custom_stake_amount_1
    <> EnhancedRiskManaged.custom_stake_amount_2.
Proof.
  intros H.
  apply (f_equal (fun f : EnhancedRiskManaged.stake_method =>
           f EnhancedRiskManaged.defaults Scenarios.failing_env
             Scenarios.bare_os "BTC/USDT"%string 100 100 None 1000 None)) in H.
  vm_compute in H. discriminate.
Qed.

Lemma namespace_custom_stake_amount :
  EnhancedRiskManaged.class_namespace !! "custom_stake_amount"%string
  = Some (EnhancedRiskManaged.StakeAmount
            EnhancedRiskManaged.custom_stake_amount_2).
Proof.
  unfold EnhancedRiskManaged.class_namespace,
    EnhancedRiskManaged.exec_class_body, EnhancedRiskManaged.class_body.
  cbn [foldl fst snd]. apply lookup_insert_eq.
Qed.

Lemma custom_stake_amount_2_fallback
    (self : EnhancedRiskManaged.Strategy) (env : Env) (os : OS)
    (pair : string) (current_rate proposed_stake : Q) (min_stake : option Q)
    (max_stake : Q) (entry_tag : option string) :
  let bot_instance_id := environ_get os "BOT_INSTANCE_ID" "unknown" in
  let user_id := environ_get os "USER_ID" "unknown" in
  let base_path :=
    EnhancedRiskManaged.universal_base_path user_id bot_instance_id in
  environ os !! "BOT_INSTANCE_ID"%string = None \/
  environ os !! "USER_ID"%string = None \/
  files os !! path_join base_path "universal-settings.json" = None \/
  files os !! path_join base_path "risk-config.json" = None ->
  EnhancedRiskManaged.custom_stake_amount_2 self env os pair current_rate
    proposed_stake min_stake max_stake entry_tag = proposed_stake.
Proof.
  intros bot user base H.
  unfold EnhancedRiskManaged.custom_stake_amount_2,
    EnhancedRiskManaged.custom_stake_amount_body_2.
  fold bot user. fold base.
  destruct H as [H | [H | [H | H]]].
  - assert (Hb : bot = "unknown"%string)
      by (subst bot; unfold environ_get; rewrite H; reflexivity).
    rewrite Hb. reflexivity.
  - assert (Hu : user = "unknown"%string)
      by (subst user; unfold environ_get; rewrite H; reflexivity).
    rewrite Hu. rewrite andb_false_r. reflexivity.
  - destruct (negb (bot =? "unknown")%string && negb (user =? "unknown")%string);
      [|reflexivity].
    unfold path_exists at 1. rewrite H.
    rewrite bool_decide_eq_false_2 by (intros [? ?]; discriminate).
    reflexivity.
  - destruct (negb (bot =? "unknown")%string && negb (user =? "unknown")%string);
      [|reflexivity].
    unfold path_exists at 2. rewrite H.
    rewrite (bool_decide_eq_false_2 (is_Some None))
      by (intros [? ?]; discriminate).
    rewrite andb_false_r. reflexivity.
Qed.

(** C6: in the namespace of class EnhancedRiskManagedStrategy the name
    [custom_stake_amount] is bound to the second definition, no name is
    bound to the first one, and a call through the class returns
    [proposed_stake] unchanged whenever BOT_INSTANCE_ID or USER_ID is
    unset or one of the two universal risk management files is absent. *)
Theorem C6_second_custom_stake_amount_wins :
  EnhancedRiskManaged.class_namespace !! "custom_stake_amount"%string
    = Some (EnhancedRiskManaged.StakeAmount
              EnhancedRiskManaged.custom_stake_amount_2)
  /\
  (forall (name : string) (m : EnhancedRiskManaged.Member),
     EnhancedRiskManaged.class_namespace !! name = Some m ->
     m <> EnhancedRiskManaged.StakeAmount
            EnhancedRiskManaged.custom_stake_amount_1)
  /\
  (forall (self : EnhancedRiskManaged.Strategy) (env : Env) (os : OS)
          (pair : string) (current_rate proposed_stake : Q)
          (min_stake : option Q) (max_stake : Q) (entry_tag : option string),
     let bot_instance_id := environ_get os "BOT_INSTANCE_ID" "unknown" in
     let user_id := environ_get os "USER_ID" "unknown" in
     let base_path :=
       EnhancedRiskManaged.universal_base_path user_id bot_instance_id in
     environ os !! "BOT_INSTANCE_ID"%string = None \/
     environ os !! "USER_ID"%string = None \/
     files os !! path_join base_path "universal-settings.json" = None \/
     files os !! path_join base_path "risk-config.json" = None ->
     EnhancedRiskManaged.call_custom_stake_amount self env os pair
       current_rate proposed_stake min_stake max_stake entry_tag
     = Ok proposed_stake).
Proof.
  split; [exact namespace_custom_stake_amount | split].
  - intros name m.
    unfold EnhancedRiskManaged.class_namespace,
      EnhancedRiskManaged.exec_class_body, EnhancedRiskManaged.class_body.
    cbn [foldl fst snd].
    repeat (rewrite lookup_insert; case_decide;
            [first
               [ congruence
               | intros [= <-]; first
                   [ discriminate
                   | intros [= Heq]; symmetry in Heq;
                     exact (custom_stake_amount_defs_differ Heq) ] ] |]).
    rewrite lookup_empty. discriminate.
  - intros self env os pair current_rate proposed_stake min_stake max_stake
      entry_tag bot user base H.
    unfold EnhancedRiskManaged.call_custom_stake_amount.
    rewrite namespace_custom_stake_amount. f_equal.
    apply custom_stake_amount_2_fallback. exact H.
Qed.

(** C6 at a concrete request: no bot variables, no files, every other
    query failing; the class still answers with the proposed stake. *)
Lemma C6_second_custom_stake_amount_wins_witness :
  EnhancedRiskManaged.call_custom_stake_amount EnhancedRiskManaged.defaults
    Scenarios.failing_env Scenarios.bare_os "BTC/USDT" 100 250 (Some 10) 1000
    None
  = Ok 250.
Proof.
  apply (proj2 (proj2 C6_second_custom_stake_amount_wins)).
  left. reflexivity.
Defined.

(** ** Stop-loss calculation *)

(** Facts about every [max] and [min] of the goal are added to it as
    premises; linear arithmetic finishes after a case analysis. *)
Ltac minmax_facts :=
  repeat match goal with
  | |- context [Qmax ?a ?b] =>
      generalize (Q.max_spec a b); generalize (Qmax a b); intro
  | |- context [Qmin ?a ?b] =>
      generalize (Q.min_spec a b); generalize (Qmin a b); intro
  end.

Ltac minmax_cases :=
  minmax_facts; intros;
  repeat match goal with
  | H : _ \/ _ |- _ => destruct H as [[? ?] | [? ?]]
  end.

Lemma Qdiv_le_compat (a b c : Q) : 0 < c -> a <= b -> a / c <= b / c.
Proof.
  intros Hc Hab. unfold Qdiv. apply Qmult_le_compat_r; [exact Hab|].
  apply Qlt_le_weak, Qinv_lt_0_compat, Hc.
Qed.

Lemma Qdiv_nonneg (a c : Q) : 0 < c -> 0 <= a -> 0 <= a / c.
Proof.
  intros Hc Ha. apply Qle_shift_div_l; [exact Hc | lra].
Qed.

Lemma div_nonzero (a b : Q) : ~ b == 0 -> Py.div a b = Ok (a / b).
Proof.
  intros Hb. unfold Py.div.
  apply Qeqb_neq in Hb. rewrite Hb. reflexivity.
Qed.
















(** ** The DCA ladder of DCAStrategy *)

Lemma fold_left_Qmax_upper (xs : list Q) (a : Q) :
  a <= fold_left Qmax xs a /\
  forall d, d ∈ xs -> d <= fold_left Qmax xs a.
Proof.
  revert a. induction xs as [|x xs IH]; intros a; cbn [fold_left].
  - split; [apply Qle_refl|]. intros d Hd. inversion Hd.
  - destruct (IH (Qmax a x)) as [Hacc Hall]. split.
    + eapply Qle_trans; [apply Q.le_max_l | exact Hacc].
    + intros d Hd. apply elem_of_cons in Hd as [-> | Hd].
      * eapply Qle_trans; [apply Q.le_max_r | exact Hacc].
      * apply Hall, Hd.
Qed.

Lemma max_of_upper (xs : list Q) (m : Q) :
  max_of xs = Ok m -> forall d, d ∈ xs -> d <= m.
Proof.
  destruct xs as [|x xs]; [discriminate|].
  intros [= <-] d Hd.
  destruct (fold_left_Qmax_upper xs x) as [Hx Hall].
  apply elem_of_cons in Hd as [-> | Hd]; [exact Hx | apply Hall, Hd].
Qed.

Section Ladder.

Import DCA.

Variable self : Strategy.

(** The spacing that [check_dca_timing] asks for, in seconds. *)
Let spacing : Q := 3600 * inject_Z (min_time_between_entries self).

Lemma check_dca_timing_true (trade : Trade) (now : Q) :
  check_dca_timing self trade now = Ok true ->
  forall o d, o ∈ orders trade -> order_date o = Some d ->
    spacing <= now - d.
Proof.
  unfold check_dca_timing. intros Hok o d Ho Hd.
  destruct (orders trade) as [|o0 os] eqn:Hos; [inversion Ho|].
  destruct (max_of (omap order_date (o0 :: os))) as [m|] eqn:Hm;
    [|discriminate].
  revert Hok. step_bind. intros [= Hle]. apply Qleb_le in Hle.
  assert (Hdm : d <= m).
  { apply (max_of_upper _ _ Hm). apply list_elem_of_omap.
    exists o. split; assumption. }
  assert (Hmul : (now - m) / 3600 * 3600 == now - m) by field.
  subst spacing. nra.
Qed.

Lemma check_position_limits_true (env : Env) (trade : Trade) :
  check_position_limits self env trade = true ->
  exists total_stake,
    wallets_get_total_stake_amount env = Ok total_stake /\
    0 < total_stake /\
    add_pending_dca (stake_amount trade) (orders trade)
      < max_total_allocation self * total_stake.
Proof.
  unfold check_position_limits, check_position_limits_body.
  destruct (wallets_get_total_stake_amount env) as [ts|]; step_bind;
    [|discriminate].
  case_cmp; step_bind; [discriminate|].
  rewrite div_nonzero by lra. step_bind.
  case_cmp; step_bind; [discriminate|].
  intros _. exists ts. repeat split; [exact Hcmp|].
  set (v := add_pending_dca (stake_amount trade) (orders trade)) in *.
  assert (Hmul : v / ts * ts == v) by (field; lra).
  nra.
Qed.

Lemma get_dca_level_and_size_some (env : Env) (trade : Trade)
    (profit : Q) (level : Z) (size : Q) :
  get_dca_level_and_size self env trade profit = Some (level, size) ->
  exists total_stake,
    wallets_get_total_stake_amount env = Ok total_stake /\
    (exists m, size = Qmin (total_stake * base_position_size self * m)
                        (total_stake * 0.15)) /\
    (1 <= level <= 4)%Z.
Proof.
  unfold get_dca_level_and_size, get_dca_level_and_size_body.
  destruct (wallets_get_total_stake_amount env) as [ts|]; step_bind;
    [|discriminate].
  intros H. exists ts. split; [reflexivity|]. revert H.
  repeat (case_cmp; step_bind;
          [intros [= <- <-]; split; [eexists; reflexivity|lia]|]).
  discriminate.
Qed.

Lemma adjust_trade_position_some (env : Env) (trade : Trade)
    (now profit size : Q) :
  adjust_trade_position self env trade now profit = Some size ->
  check_dca_timing self trade now = Ok true /\
  check_position_limits self env trade = true /\
  exists level,
    get_dca_level_and_size self env trade profit = Some (level, size) /\
    was_dca_level_triggered trade level = false.
Proof.
  unfold adjust_trade_position, adjust_trade_position_body.
  destruct (dca_enabled self); cbn [negb]; [|discriminate].
  destruct (check_dca_timing self trade now) as [[|]|]; step_bind;
    cbn [negb]; try discriminate.
  destruct (check_position_limits self env trade); cbn [negb]; step_bind;
    [|discriminate].
  destruct (get_dca_level_and_size self env trade profit)
    as [[level sz]|]; step_bind; [|discriminate].
  destruct (was_dca_level_triggered trade level) eqn:Htr; step_bind;
    [discriminate|].
  intros [= <-]. repeat split. exists level. split; [reflexivity|exact Htr].
Qed.

End Ladder.

Lemma prefix_refl (s : string) : String.prefix s s = true.
Proof.
  induction s as [|a s IH]; [reflexivity|].
  cbn. destruct (Ascii.ascii_dec a a); [exact IH | congruence].
Qed.

Lemma str_in_refl (s : string) : str_in s s = true.
Proof.
  destruct s as [|a s]; [reflexivity|].
  change (str_in (String a s) (String a s))
    with (if String.prefix (String a s) (String a s)
          then true else str_in (String a s) s).
  rewrite prefix_refl. reflexivity.
Qed.

Section LadderRun.

Import DCA.

Variable self : Strategy.

Let spacing : Q := 3600 * inject_Z (min_time_between_entries self).

Lemma was_triggered_after_booking (trade : Trade) (level level' : Z)
    (size : Q) (tk : Tick) :
  was_dca_level_triggered (book_ladder_fill trade level size tk) level'
  = was_dca_level_triggered trade level'
    || str_in (dca_tag level') (dca_tag level).
Proof.
  unfold was_dca_level_triggered, book_ladder_fill. cbn [orders].
  rewrite existsb_app. cbn [existsb tag_or_empty ft_order_tag].
  rewrite orb_false_r. reflexivity.
Qed.

(** What one tick does: nothing, or it books the approved order. *)
Lemma ladder_step_cases (trade : Trade) (tk : Tick) :
  ladder_step self trade tk = (trade, None) \/
  exists level size,
    adjust_trade_position self (tick_env tk) trade (tick_time tk)
      (tick_profit tk) = Some size /\
    get_dca_level_and_size self (tick_env tk) trade (tick_profit tk)
      = Some (level, size) /\
    ladder_step self trade tk
    = (book_ladder_fill trade level size tk,
       Some {| fired_level := level; fired_size := size;
               fired_time := tick_time tk |}).
Proof.
  unfold ladder_step.
  destruct (adjust_trade_position self (tick_env tk) trade (tick_time tk)
              (tick_profit tk)) as [size|] eqn:Ha; [|left; reflexivity].
  destruct (adjust_trade_position_some self _ _ _ _ _ Ha)
    as (_ & _ & level & Hg & _).
  rewrite Hg. right. exists level, size. repeat split.
Qed.

Lemma ladder_run_invariant (ticks : list Tick) (trade : Trade) :
  let fired := (ladder_run self trade ticks).2 in
  NoDup (map fired_level fired) /\
  (forall f, f ∈ fired ->
     was_dca_level_triggered trade (fired_level f) = false) /\
  (forall f o d, f ∈ fired -> o ∈ orders trade -> order_date o = Some d ->
     spacing <= fired_time f - d) /\
  ForallOrdPairs (fun f g => spacing <= fired_time g - fired_time f) fired.
Proof.
  revert trade. induction ticks as [|tk rest IH]; intros trade.
  - cbn. repeat split.
    + constructor.
    + intros f Hf. inversion Hf.
    + intros f o d Hf. inversion Hf.
    + constructor.
  - cbn [ladder_run].
    destruct (ladder_step_cases trade tk)
      as [Hstep | (level & size & Ha & Hg & Hstep)]; rewrite Hstep.
    + specialize (IH trade).
      destruct (ladder_run self trade rest) as [final later]. exact IH.
    + specialize (IH (book_ladder_fill trade level size tk)).
      destruct (ladder_run self (book_ladder_fill trade level size tk) rest)
        as [final later].
      cbn [snd] in *. destruct IH as (Hnd & Hfresh & Hsp & Hpairs).
      destruct (adjust_trade_position_some self _ _ _ _ _ Ha)
        as (Htime & _ & level' & Hg' & Hnot).
      rewrite Hg in Hg'. injection Hg' as <-.
      assert (Hlater : forall f, f ∈ later ->
                was_dca_level_triggered trade (fired_level f) = false /\
                fired_level f <> level /\
                spacing <= fired_time f - tick_time tk).
      { intros f Hf. pose proof (Hfresh f Hf) as Hb.
        rewrite was_triggered_after_booking in Hb.
        apply orb_false_iff in Hb as [Hb1 Hb2].
        split; [exact Hb1|]. split.
        - intros Heq. rewrite Heq, str_in_refl in Hb2. discriminate.
        - eapply (Hsp f _ (tick_time tk) Hf).
          + unfold book_ladder_fill. cbn [orders].
            apply elem_of_app. right. apply list_elem_of_singleton.
            reflexivity.
          + reflexivity. }
      repeat split.
      * cbn [map fired_level]. apply NoDup_cons. split; [|exact Hnd].
        intros Hin. apply list_elem_of_fmap in Hin as (f & Hlv & Hf).
        destruct (Hlater f Hf) as (_ & Hne & _). congruence.
      * intros f Hf. apply elem_of_cons in Hf as [-> | Hf].
        -- exact Hnot.
        -- apply (Hlater f Hf).
      * intros f o d Hf Ho Hd. apply elem_of_cons in Hf as [-> | Hf].
        -- cbn [fired_time].
           exact (check_dca_timing_true self trade _ Htime o d Ho Hd).
        -- apply (Hsp f o d Hf); [|exact Hd].
           unfold book_ladder_fill. cbn [orders].
           apply elem_of_app. left. exact Ho.
      * constructor; [|exact Hpairs].
        apply Forall_forall. intros f Hf. cbn [fired_time].
        apply (Hlater f Hf).
Qed.

End LadderRun.

(** C4: (1) whenever DCAStrategy.adjust_trade_position approves an
    averaging order, the ladder level it chose has no order tagged with
    that level on the position yet, and every dated order of the position
    is at least [min_time_between_entries] hours old; (2) over any
    sequence of ticks of a position, where each approved order is booked
    with the tag of its level and the time of its tick, no level fires
    twice, no level fires that was already tagged on the position at the
    start, and every order that fires comes at least
    [min_time_between_entries] hours after every earlier order of the
    position, fired during the run or present before it. *)
Theorem C4_ladder_level_once_and_spaced (self : DCA.Strategy) :
  let spacing := 3600 * inject_Z (DCA.min_time_between_entries self) in
  (forall (env : Env) (trade : Trade) (now profit size : Q),
     DCA.adjust_trade_position self env trade now profit = Some size ->
     exists level,
       DCA.get_dca_level_and_size self env trade profit
         = Some (level, size) /\
       DCA.was_dca_level_triggered trade level = false /\
       forall o d, o ∈ orders trade -> order_date o = Some d ->
         spacing <= now - d)
  /\
  (forall (trade : Trade) (ticks : list DCA.Tick),
     let fired := (DCA.ladder_run self trade ticks).2 in
     NoDup (map DCA.fired_level fired) /\
     (forall f, f ∈ fired ->
        DCA.was_dca_level_triggered trade (DCA.fired_level f) = false) /\
     (forall f o d, f ∈ fired -> o ∈ orders trade ->
        order_date o = Some d -> spacing <= DCA.fired_time f - d) /\
     ForallOrdPairs
       (fun f g => spacing <= DCA.fired_time g - DCA.fired_time f) fired).
Proof.
  intros spacing. split.
  - intros env trade now profit size Ha.
    destruct (adjust_trade_position_some self _ _ _ _ _ Ha)
      as (Htime & _ & level & Hg & Hnot).
    exists level. repeat split; try assumption.
    exact (check_dca_timing_true self trade now Htime).
  - intros trade ticks. exact (ladder_run_invariant self ticks trade).
Qed.

(** C4 on a concrete position: the order approved five hours after the
    initial fill, at a loss of 6%, belongs to a level not yet used; and
    over the five ticks of the scenario the levels that fire are 1 and 2,
    once each, although level 1 is reached on three ticks. *)
Lemma C4_ladder_level_once_and_spaced_witness :
  (exists level,
     DCA.get_dca_level_and_size DCA.defaults
       (Scenarios.env_of 1000 [] Scenarios.calm_candle) Scenarios.dca_fresh
       (-0.06) = Some (level, 144.000) /\
     DCA.was_dca_level_triggered Scenarios.dca_fresh level = false /\
     forall o d, o ∈ orders Scenarios.dca_fresh -> order_date o = Some d ->
       3600 * inject_Z (DCA.min_time_between_entries DCA.defaults)
       <= 18000 - d)
  /\
  map DCA.fired_level
    (DCA.ladder_run DCA.defaults Scenarios.dca_fresh Scenarios.dca_ticks).2
  = [1%Z; 2%Z]
  /\
  NoDup (map DCA.fired_level
    (DCA.ladder_run DCA.defaults Scenarios.dca_fresh Scenarios.dca_ticks).2).
Proof.
  split; [|split].
  - apply (proj1 (C4_ladder_level_once_and_spaced DCA.defaults)
             (Scenarios.env_of 1000 [] Scenarios.calm_candle)
             Scenarios.dca_fresh 18000 (-0.06) 144.000).
    vm_compute. reflexivity.
  - vm_compute. reflexivity.
  - apply (proj2 (C4_ladder_level_once_and_spaced DCA.defaults)
             Scenarios.dca_fresh Scenarios.dca_ticks).
Defined.

(** C5, as stated, fails: [check_position_limits] compares the allocation
    before the order with the limit.  A position of 340 in a wallet of
    1000 (34%, under the limit of 35%) is granted an order of 144, after
    which the position holds 484, more than 35% of the wallet. *)
Lemma C5_counterexample :
  exists size,
    DCA.adjust_trade_position DCA.defaults
      (Scenarios.env_of 1000 [] Scenarios.calm_candle) Scenarios.dca_heavy
      18000 (-0.06) = Some size /\
    DCA.max_total_allocation DCA.defaults * 1000
    < stake_amount Scenarios.dca_heavy + size.
Proof.
  exists 144.000. split; vm_compute; reflexivity.
Qed.

(** C5, amended: whenever DCAStrategy.adjust_trade_position approves an
    averaging order, the wallet is positive, the allocation of the
    position before the order (its stake plus its pending DCA orders) is
    strictly below [max_total_allocation] of the wallet, and the order is
    at most 15% of the wallet; hence the allocation after the order stays
    strictly below [max_total_allocation + 0.15] of the wallet. *)
Theorem C5_allocation_after_dca_order
    (self : DCA.Strategy) (env : Env) (trade : Trade) (now profit size : Q) :
  DCA.adjust_trade_position self env trade now profit = Some size ->
  exists total_stake,
    wallets_get_total_stake_amount env = Ok total_stake /\
    0 < total_stake /\
    DCA.add_pending_dca (stake_amount trade) (orders trade)
      < DCA.max_total_allocation self * total_stake /\
    size <= 0.15 * total_stake /\
    DCA.add_pending_dca (stake_amount trade) (orders trade) + size
      < (DCA.max_total_allocation self + 0.15) * total_stake.
Proof.
  intros Ha.
  destruct (adjust_trade_position_some self _ _ _ _ _ Ha)
    as (_ & Hlim & level & Hg & _).
  destruct (check_position_limits_true self env trade Hlim)
    as (ts & Hw & Hpos & Hbelow).
  destruct (get_dca_level_and_size_some self _ _ _ _ _ Hg)
    as (ts' & Hw' & (m & Hsize) & _).
  rewrite Hw in Hw'. injection Hw' as <-.
  assert (Hcap : size <= 0.15 * ts).
  { rewrite Hsize. eapply Qle_trans; [apply Q.le_min_r | lra]. }
  exists ts. repeat split; try assumption. lra.
Qed.

(** C5 on the position of the counterexample: the order of 144 keeps the
    position under 50% of the wallet. *)
Lemma C5_allocation_after_dca_order_witness :
  exists total_stake,
    wallets_get_total_stake_amount
      (Scenarios.env_of 1000 [] Scenarios.calm_candle) = Ok total_stake /\
    0 < total_stake /\
    DCA.add_pending_dca (stake_amount Scenarios.dca_heavy)
      (orders Scenarios.dca_heavy)
      < DCA.max_total_allocation DCA.defaults * total_stake /\
    144.000 <= 0.15 * total_stake /\
    DCA.add_pending_dca (stake_amount Scenarios.dca_heavy)
      (orders Scenarios.dca_heavy) + 144.000
      < (DCA.max_total_allocation DCA.defaults + 0.15) * total_stake.
Proof.
  apply (C5_allocation_after_dca_order DCA.defaults
           (Scenarios.env_of 1000 [] Scenarios.calm_candle)
           Scenarios.dca_heavy 18000 (-0.06) 144.000).
  vm_compute. reflexivity.
Defined.

(** ** The rebalancing trigger of PortfolioRebalancingStrategy *)

(** The flag of [needs_rebalancing] in terms of the three comparisons
    that the method takes, and the move it returns with a raised flag. *)
Lemma needs_rebalancing64_flag (self : PortfolioRebalancing64.Strategy)
    (env : Binary64.Env) (pair : string) :
  (PortfolioRebalancing64.needs_rebalancing self env pair).1.1 = true <->
  (PortfolioRebalancing64.get_target_allocation self
     (PortfolioRebalancing.get_asset_category pair) =? 0)%float = false /\
  (PortfolioRebalancing64.rebalance_threshold self
   <? PortfolioRebalancing64.allocation_drift self env pair)%float = true /\
  (PrimFloat.abs (PortfolioRebalancing64.position_change self env pair)
   <? PortfolioRebalancing64.min_rebalance_amount self)%float = false.
Proof.
  unfold PortfolioRebalancing64.needs_rebalancing,
    PortfolioRebalancing64.needs_rebalancing_body,
    PortfolioRebalancing64.allocation_drift,
    PortfolioRebalancing64.position_change.
  destruct (PortfolioRebalancing64.calculate_current_allocations env)
    as [cur total].
  destruct (_ =? 0)%float; step_bind; cbn [fst snd].
  - split; [discriminate | intros (H & _); discriminate].
  - destruct (PortfolioRebalancing64.rebalance_threshold self <? _)%float;
      step_bind; cbn [fst snd].
    + destruct (_ <? PortfolioRebalancing64.min_rebalance_amount self)%float;
        step_bind; cbn [fst snd].
      * split; [discriminate | intros (_ & _ & H); discriminate].
      * split; [intros _; repeat split | reflexivity].
    + split; [discriminate | intros (_ & H & _); discriminate].
Qed.

Lemma needs_rebalancing64_change (self : PortfolioRebalancing64.Strategy)
    (env : Binary64.Env) (pair : string) :
  (PortfolioRebalancing64.needs_rebalancing self env pair).1.1 = true ->
  (PortfolioRebalancing64.needs_rebalancing self env pair).1.2
  = PortfolioRebalancing64.position_change self env pair.
Proof.
  unfold PortfolioRebalancing64.needs_rebalancing,
    PortfolioRebalancing64.needs_rebalancing_body,
    PortfolioRebalancing64.position_change.
  destruct (PortfolioRebalancing64.calculate_current_allocations env)
    as [cur total].
  destruct (_ =? 0)%float; step_bind; cbn [fst snd]; [discriminate|].
  destruct (PortfolioRebalancing64.rebalance_threshold self <? _)%float;
    step_bind; cbn [fst snd]; [|discriminate].
  destruct (_ <? PortfolioRebalancing64.min_rebalance_amount self)%float;
    step_bind; cbn [fst snd]; [discriminate | reflexivity].
Qed.

(** C9, as stated, fails when the category has no target: with
    [target_other_allocation] at 0, a pair of the category "other" that
    holds 30% of the portfolio has a drift of 30% (threshold 15%) and an
    implied move of 300 (minimum 100), and is not flagged. *)
Lemma C9_counterexample :
  let env :=
    Scenarios.env64 1000 [Scenarios.trade64 "XRP/USD" 300 None] in
  (PortfolioRebalancing64.needs_rebalancing Scenarios.no_other_target64
     env "XRP/USD").1.1 = false /\
  (PortfolioRebalancing64.rebalance_threshold Scenarios.no_other_target64
   <? PortfolioRebalancing64.allocation_drift Scenarios.no_other_target64
        env "XRP/USD")%float = true /\
  (PrimFloat.abs
     (PortfolioRebalancing64.position_change Scenarios.no_other_target64
        env "XRP/USD")
   <? PortfolioRebalancing64.min_rebalance_amount
        Scenarios.no_other_target64)%float = false.
Proof. repeat split; vm_compute; reflexivity. Qed.

(** C9, amended: the rebalancer flags the category of a pair exactly
    when the target allocation of the category is not zero, the drift
    [abs(current_allocation - target_allocation)] that the method
    computes exceeds [rebalance_threshold] and the absolute implied
    capital move is not below [min_rebalance_amount]; all three are
    comparisons of binary64 floats.  With a target of 40% and a threshold
    of 15%: a current share of 30% is not flagged; a current share of 20%
    of 2500 (drift 0.2, implied move 500, minimum 100) is flagged; and a
    current share of 25% of 1000, whose exact drift equals the threshold,
    is flagged with a move of 150, the computed drift being
    0.15000000000000002. *)
Theorem C9_rebalance_flag_exactly :
  (forall (self : PortfolioRebalancing64.Strategy) (env : Binary64.Env)
          (pair : string),
     (PortfolioRebalancing64.needs_rebalancing self env pair).1.1 = true <->
     (PortfolioRebalancing64.get_target_allocation self
        (PortfolioRebalancing.get_asset_category pair) =? 0)%float = false /\
     (PortfolioRebalancing64.rebalance_threshold self
      <? PortfolioRebalancing64.allocation_drift self env pair)%float = true /\
     (PrimFloat.abs (PortfolioRebalancing64.position_change self env pair)
      <? PortfolioRebalancing64.min_rebalance_amount self)%float = false)
  /\
  (let env := Scenarios.env64 1000 [Scenarios.trade64 "BTC/USD" 300 None] in
   (PortfolioRebalancing64.allocation_drift PortfolioRebalancing64.defaults
      env "BTC/USD" <? 0.11)%float = true /\
   (PortfolioRebalancing64.needs_rebalancing PortfolioRebalancing64.defaults
      env "BTC/USD").1.1 = false)
  /\
  (let env := Scenarios.env64 2500 [Scenarios.trade64 "BTC/USD" 500 None] in
   PortfolioRebalancing64.allocation_drift PortfolioRebalancing64.defaults
     env "BTC/USD" = 0.2%float /\
   PortfolioRebalancing64.position_change PortfolioRebalancing64.defaults
     env "BTC/USD" = 500%float /\
   (PortfolioRebalancing64.needs_rebalancing PortfolioRebalancing64.defaults
      env "BTC/USD").1.1 = true)
  /\
  (let env := Scenarios.env64 1000 [Scenarios.trade64 "BTC/USD" 250 None] in
   PortfolioRebalancing64.allocation_drift PortfolioRebalancing64.defaults
     env "BTC/USD" = 0.15000000000000002%float /\
   PortfolioRebalancing64.needs_rebalancing PortfolioRebalancing64.defaults
     env "BTC/USD"
   = (true, 150%float, PortfolioRebalancing.DriftAndChange)).
Proof.
  split; [exact needs_rebalancing64_flag|].
  repeat split; vm_compute; reflexivity.
Qed.

(** C9 on the second example: the three conditions hold, so the flag is
    raised. *)
Lemma C9_rebalance_flag_exactly_witness :
  (PortfolioRebalancing64.needs_rebalancing PortfolioRebalancing64.defaults
     (Scenarios.env64 2500 [Scenarios.trade64 "BTC/USD" 500 None])
     "BTC/USD").1.1 = true.
Proof.
  apply (proj1 C9_rebalance_flag_exactly PortfolioRebalancing64.defaults
           (Scenarios.env64 2500 [Scenarios.trade64 "BTC/USD" 500 None])
           "BTC/USD").
  repeat split; vm_compute; reflexivity.
Defined.

(** ** The regime filter of AggressiveSophisticated1m *)

Lemma zip_with_map_same {A B C D : Type} (f : B -> C -> D) (g : A -> B)
    (h : A -> C) (l : list A) :
  zip_with f (map g l) (map h l) = map (fun x => f (g x) (h x)) l.
Proof.
  induction l as [|x l IH]; [reflexivity|].
  cbn [map zip_with]. rewrite IH. reflexivity.
Qed.

(** The [regime] column is computed row by row: the masked assignments
    over the whole dataframe amount to the rule applied to each row. *)
Lemma regime_column_pointwise (self : AggressiveSophisticated.Strategy)
    (dataframe : list AggressiveSophisticated.Row) :
  AggressiveSophisticated.regime_column self dataframe
  = map (AggressiveSophisticated.regime_rule self) dataframe.
Proof.
  unfold AggressiveSophisticated.regime_column,
    AggressiveSophisticated.loc_assign, AggressiveSophisticated.mask_and.
  rewrite !zip_with_map_same.
  apply List.map_ext. intros r.
  unfold AggressiveSophisticated.regime_rule. cbv beta.
  destruct (Qltb (AggressiveSophisticated.adx r)
              (inject_Z (AggressiveSophisticated.adx_range_threshold self)));
    destruct (Qltb (inject_Z (AggressiveSophisticated.adx_trend_threshold self))
                (AggressiveSophisticated.adx r));
    destruct (Qltb (AggressiveSophisticated.minus_di r)
                (AggressiveSophisticated.plus_di r)) eqn:Hup;
    destruct (Qltb (AggressiveSophisticated.plus_di r)
                (AggressiveSophisticated.minus_di r)) eqn:Hdown;
    try reflexivity.
  apply Qltb_lt in Hup, Hdown. lra.
Qed.

Lemma regime_of_rule (self : AggressiveSophisticated.Strategy)
    (snapshot : AggressiveSophisticated.Row) :
  AggressiveSophisticated.regime_of self snapshot
  = Some (AggressiveSophisticated.regime_rule self snapshot).
Proof.
  unfold AggressiveSophisticated.regime_of.
  rewrite regime_column_pointwise. reflexivity.
Qed.

(** C10: the regime filter classifies each row on its own.  (1) The
    [regime] column of any dataframe is the rule applied row by row:
    Range below the range threshold, otherwise Uptrend above the trend
    threshold with +DI over -DI, Downtrend above it with -DI over +DI,
    otherwise Uncertain.  (2) A snapshot whose ADX is below the range
    threshold is classified Range.  (3) The same snapshot gets the same
    regime wherever it stands in whatever dataframe.  (4) A snapshot that
    is not below the range threshold is classified Uptrend when its ADX
    exceeds the trend threshold with +DI over -DI, Downtrend when it
    exceeds it with -DI over +DI, and Uncertain when neither holds.
    (5) When the range threshold does not exceed the trend threshold (a
    lower and an upper threshold), exceeding the trend threshold alone
    decides between Uptrend and Downtrend. *)
Theorem C10_regime_classifier (self : AggressiveSophisticated.Strategy) :
  let range_threshold :=
    inject_Z (AggressiveSophisticated.adx_range_threshold self) in
  let trend_threshold :=
    inject_Z (AggressiveSophisticated.adx_trend_threshold self) in
  (forall dataframe : list AggressiveSophisticated.Row,
     AggressiveSophisticated.regime_column self dataframe
     = map (AggressiveSophisticated.regime_rule self) dataframe)
  /\
  (forall s : AggressiveSophisticated.Row,
     AggressiveSophisticated.adx s < range_threshold ->
     AggressiveSophisticated.regime_of self s
     = Some AggressiveSophisticated.Range)
  /\
  (forall (df1 df2 : list AggressiveSophisticated.Row) (i j : nat)
          (s : AggressiveSophisticated.Row),
     df1 !! i = Some s -> df2 !! j = Some s ->
     AggressiveSophisticated.regime_column self df1 !! i
     = AggressiveSophisticated.regime_column self df2 !! j /\
     AggressiveSophisticated.regime_column self df1 !! i
     = AggressiveSophisticated.regime_of self s)
  /\
  (forall s : AggressiveSophisticated.Row,
     ~ AggressiveSophisticated.adx s < range_threshold ->
     (trend_threshold < AggressiveSophisticated.adx s ->
      AggressiveSophisticated.minus_di s < AggressiveSophisticated.plus_di s ->
      AggressiveSophisticated.regime_of self s
      = Some AggressiveSophisticated.Uptrend) /\
     (trend_threshold < AggressiveSophisticated.adx s ->
      AggressiveSophisticated.plus_di s < AggressiveSophisticated.minus_di s ->
      AggressiveSophisticated.regime_of self s
      = Some AggressiveSophisticated.Downtrend) /\
     (~ (trend_threshold < AggressiveSophisticated.adx s /\
         AggressiveSophisticated.minus_di s
           < AggressiveSophisticated.plus_di s) ->
      ~ (trend_threshold < AggressiveSophisticated.adx s /\
         AggressiveSophisticated.plus_di s
           < AggressiveSophisticated.minus_di s) ->
      AggressiveSophisticated.regime_of self s
      = Some AggressiveSophisticated.Uncertain))
  /\
  ((AggressiveSophisticated.adx_range_threshold self
      <= AggressiveSophisticated.adx_trend_threshold self)%Z ->
   forall s : AggressiveSophisticated.Row,
     trend_threshold < AggressiveSophisticated.adx s ->
     (AggressiveSophisticated.minus_di s < AggressiveSophisticated.plus_di s ->
      AggressiveSophisticated.regime_of self s
      = Some AggressiveSophisticated.Uptrend) /\
     (AggressiveSophisticated.plus_di s < AggressiveSophisticated.minus_di s ->
      AggressiveSophisticated.regime_of self s
      = Some AggressiveSophisticated.Downtrend)).
Proof.
  intros range_threshold trend_threshold.
  assert (Hrule : forall s : AggressiveSophisticated.Row,
            ~ AggressiveSophisticated.adx s < range_threshold ->
            (trend_threshold < AggressiveSophisticated.adx s ->
             AggressiveSophisticated.minus_di s
               < AggressiveSophisticated.plus_di s ->
             AggressiveSophisticated.regime_of self s
             = Some AggressiveSophisticated.Uptrend) /\
            (trend_threshold < AggressiveSophisticated.adx s ->
             AggressiveSophisticated.plus_di s
               < AggressiveSophisticated.minus_di s ->
             AggressiveSophisticated.regime_of self s
             = Some AggressiveSophisticated.Downtrend) /\
            (~ (trend_threshold < AggressiveSophisticated.adx s /\
                AggressiveSophisticated.minus_di s
                  < AggressiveSophisticated.plus_di s) ->
             ~ (trend_threshold < AggressiveSophisticated.adx s /\
                AggressiveSophisticated.plus_di s
                  < AggressiveSophisticated.minus_di s) ->
             AggressiveSophisticated.regime_of self s
             = Some AggressiveSophisticated.Uncertain)).
  { intros s Hnr. rewrite regime_of_rule.
    unfold AggressiveSophisticated.regime_rule.
    fold range_threshold trend_threshold.
    destruct (Qltb (AggressiveSophisticated.adx s) range_threshold) eqn:Hr;
      [apply Qltb_lt in Hr; contradiction|].
    destruct (Qltb trend_threshold (AggressiveSophisticated.adx s)) eqn:Ht;
      destruct (Qltb (AggressiveSophisticated.minus_di s)
                  (AggressiveSophisticated.plus_di s)) eqn:Hup;
      destruct (Qltb (AggressiveSophisticated.plus_di s)
                  (AggressiveSophisticated.minus_di s)) eqn:Hdown;
      cbn [andb];
      repeat match goal with
             | H : Qltb _ _ = true |- _ => apply Qltb_lt in H
             | H : Qltb _ _ = false |- _ => apply Qltb_ge in H
             end;
      repeat split; intros; try reflexivity; try lra; tauto. }
  split; [exact (regime_column_pointwise self)|].
  split; [|split; [|split; [exact Hrule|]]].
  - intros s Hlt. rewrite regime_of_rule.
    unfold AggressiveSophisticated.regime_rule. fold range_threshold.
    apply Qltb_lt in Hlt. rewrite Hlt. reflexivity.
  - intros df1 df2 i j s H1 H2.
    rewrite !regime_column_pointwise, regime_of_rule.
    change (map (AggressiveSophisticated.regime_rule self) df1)
      with (AggressiveSophisticated.regime_rule self <$> df1).
    change (map (AggressiveSophisticated.regime_rule self) df2)
      with (AggressiveSophisticated.regime_rule self <$> df2).
    rewrite !list_lookup_fmap, H1, H2. split; reflexivity.
  - intros Hord s Ht.
    assert (Hq : range_threshold <= trend_threshold).
    { subst range_threshold trend_threshold. rewrite <- Zle_Qle. exact Hord. }
    destruct (Hrule s) as (Hup & Hdown & _); [lra|].
    split; [exact (Hup Ht) | exact (Hdown Ht)].
Qed.

(** C10 on three snapshots with the default thresholds (trend 25,
    range 20): ADX 12 gives Range; ADX 40 gives Uptrend with +DI over
    -DI and Downtrend with -DI over +DI. *)
Lemma C10_regime_classifier_witness :
  AggressiveSophisticated.regime_of AggressiveSophisticated.defaults
    Scenarios.quiet_row = Some AggressiveSophisticated.Range /\
  AggressiveSophisticated.regime_of AggressiveSophisticated.defaults
    Scenarios.rising_row = Some AggressiveSophisticated.Uptrend /\
  AggressiveSophisticated.regime_of AggressiveSophisticated.defaults
    Scenarios.falling_row = Some AggressiveSophisticated.Downtrend.
Proof.
  pose proof (C10_regime_classifier AggressiveSophisticated.defaults)
    as (_ & Hrange & _ & _ & Hord).
  split; [|split].
  - apply Hrange. vm_compute. reflexivity.
  - apply (Hord ltac:(vm_compute; discriminate) Scenarios.rising_row);
      vm_compute; reflexivity.
  - apply (Hord ltac:(vm_compute; discriminate) Scenarios.falling_row);
      vm_compute; reflexivity.
Defined.

(** * Further properties of the strategies *)

(** ** EnhancedRiskManagedStrategy: sizing, position adjustment, signals *)

(** Every bind and every [if] of a [result] computation in the goal is
    decided, keeping the facts. *)
Ltac bind_cases :=
  repeat (step_bind;
          match goal with
          | |- context [@mbind _ _ _ _ _ ?m] =>
              lazymatch m with
              | Ok _ => fail
              | Raise _ => fail
              | _ => destruct m eqn:?
              end
          | |- context [if ?b then _ else _] => destruct b eqn:?
          end);
  step_bind.

Lemma custom_stake_amount_body_2_shape
    (self : EnhancedRiskManaged.Strategy) (env : Env) (os : OS)
    (pair : string) (proposed_stake : Q) (min_stake : option Q)
    (max_stake : Q) :
  let body :=
    EnhancedRiskManaged.custom_stake_amount_body_2 self env os pair
      proposed_stake min_stake max_stake in
  (exists e, body = Raise e) \/ body = Ok proposed_stake \/
  exists position_size,
    body = Ok (Qmin (if opt_truthy min_stake
                     then Qmax position_size (default 0 min_stake)
                     else position_size) max_stake).
Proof.
  unfold EnhancedRiskManaged.custom_stake_amount_body_2. cbv zeta.
  bind_cases;
    first [ left; eexists; reflexivity
          | right; left; reflexivity
          | right; right; eexists; reflexivity ].
Qed.

(** The live definition of [custom_stake_amount] (the second one) either
    returns [proposed_stake] unchanged or a size that does not exceed
    [max_stake]; in the latter case the size is at least a non-zero
    [min_stake] that does not itself exceed [max_stake]. *)
Theorem enhanced_live_stake_within_limits
    (self : EnhancedRiskManaged.Strategy) (env : Env) (os : OS)
    (pair : string) (current_rate proposed_stake : Q) (min_stake : option Q)
    (max_stake : Q) (entry_tag : option string) :
  let size :=
    EnhancedRiskManaged.custom_stake_amount_2 self env os pair current_rate
      proposed_stake min_stake max_stake entry_tag in
  size = proposed_stake \/
  (size <= max_stake /\
   forall m, min_stake = Some m -> ~ m == 0 -> m <= max_stake -> m <= size).
Proof.
  unfold EnhancedRiskManaged.custom_stake_amount_2.
  destruct (custom_stake_amount_body_2_shape self env os pair proposed_stake
              min_stake max_stake) as [[e ->] | [-> | [ps ->]]];
    cbn [try_except]; [left; reflexivity | left; reflexivity |].
  right. split; [apply Q.le_min_r|].
  intros m -> Hnz Hle. cbn [opt_truthy default].
  apply Qeqb_neq in Hnz. rewrite Hnz. cbn [negb]. unfold id.
  minmax_cases; lra.
Qed.

(** The live sizing with the universal risk management configured: 2% of
    a balance of 1000, within the limits of 10 and 1000. *)
Lemma enhanced_live_stake_within_limits_witness :
  10 <= EnhancedRiskManaged.custom_stake_amount_2 EnhancedRiskManaged.defaults
          (Scenarios.env_of 1000 [] Scenarios.calm_candle)
          Scenarios.configured_os "BTC/USDT" 100 250 (Some 10) 1000 None.
Proof.
  destruct (enhanced_live_stake_within_limits EnhancedRiskManaged.defaults
              (Scenarios.env_of 1000 [] Scenarios.calm_candle)
              Scenarios.configured_os "BTC/USDT" 100 250 (Some 10) 1000 None)
    as [Heq | [_ Hmin]].
  - vm_compute in Heq. discriminate.
  - apply (Hmin 10 eq_refl).
    + intros H. vm_compute in H. discriminate.
    + vm_compute. discriminate.
Defined.

Lemma last_order_time_upper (os : list Order) (m : Q) :
  EnhancedRiskManaged.last_order_time os = Ok m ->
  forall o, o ∈ os -> exists d, order_date o = Some d /\ d <= m.
Proof.
  unfold EnhancedRiskManaged.last_order_time.
  destruct (mapM order_date os) as [dates|] eqn:Hd; [|discriminate].
  intros Hm o Ho. apply mapM_Some_1 in Hd.
  apply list_elem_of_lookup in Ho as [i Hi].
  destruct (Forall2_lookup_l _ _ _ _ _ Hd Hi) as (d & Hdi & Hod).
  exists d. split; [exact Hod|].
  apply (max_of_upper _ _ Hm). apply list_elem_of_lookup. exists i. exact Hdi.
Qed.

Lemma enhanced_check_dca_conditions_true
    (self : EnhancedRiskManaged.Strategy) (hp : EnhancedRiskManaged.Hyperopt)
    (sur : Surroundings) (trade : Trade) (current_rate : Q) :
  EnhancedRiskManaged.check_dca_conditions self hp sur trade current_rate
    = Ok true ->
  EnhancedRiskManaged.enable_dca self = true /\
  (Z.of_nat (EnhancedRiskManaged.count_dca_orders trade)
     < EnhancedRiskManaged.dca_max_orders hp)%Z /\
  calc_profit_ratio trade current_rate
    <= EnhancedRiskManaged.dca_trigger_percent hp /\
  forall o, o ∈ orders trade ->
    exists d, order_date o = Some d /\ 7200 <= utcnow sur - d.
Proof.
  unfold EnhancedRiskManaged.check_dca_conditions.
  destruct (EnhancedRiskManaged.enable_dca self); cbn [negb];
    [|discriminate].
  destruct (Z.leb_spec (EnhancedRiskManaged.dca_max_orders hp)
              (Z.of_nat (EnhancedRiskManaged.count_dca_orders trade)));
    [discriminate|].
  case_cmp; [discriminate|].
  destruct (orders trade) as [|o0 os] eqn:Hos.
  - intros _. repeat split; try assumption. intros o Ho. inversion Ho.
  - destruct (EnhancedRiskManaged.last_order_time (o0 :: os)) as [m|] eqn:Hm; step_bind;
      [|discriminate].
    case_cmp; [discriminate|]. intros _.
    repeat split; try assumption.
    intros o Ho. destruct (last_order_time_upper _ _ Hm o Ho) as (d & Hd & Hle).
    exists d. split; [exact Hd|].
    assert (Hmul : (utcnow sur - m) / 3600 * 3600 == utcnow sur - m) by field.
    nra.
Qed.

(** EnhancedRiskManagedStrategy.adjust_trade_position grants an averaging
    order only if DCA is enabled, fewer than [dca_max_orders] orders of the
    position are tagged "dca", the profit at the current rate is at or
    below [dca_trigger_percent] and every order of the position is dated
    at least two hours before the clock; the size granted is at most 5% of
    the wallet, at most [max_stake], at least [min_stake], and at most 30%
    of the stake scaled by [dca_multiplier] to the number of DCA orders. *)
Theorem enhanced_dca_order_guarded
    (self : EnhancedRiskManaged.Strategy) (hp : EnhancedRiskManaged.Hyperopt)
    (sur : Surroundings) (trade : Trade) (current_rate : Q)
    (min_stake : option Q) (max_stake size : Q) :
  EnhancedRiskManaged.adjust_trade_position self hp sur trade current_rate
    min_stake max_stake = Ok (Some size) ->
  EnhancedRiskManaged.enable_dca self = true /\
  (Z.of_nat (EnhancedRiskManaged.count_dca_orders trade)
     < EnhancedRiskManaged.dca_max_orders hp)%Z /\
  calc_profit_ratio trade current_rate
    <= EnhancedRiskManaged.dca_trigger_percent hp /\
  (forall o, o ∈ orders trade ->
     exists d, order_date o = Some d /\ 7200 <= utcnow sur - d) /\
  exists total_stake,
    wallets_get_total_stake_amount (base_env sur) = Ok total_stake /\
    size <= total_stake * 0.05 /\
    size <= max_stake /\
    float_or min_stake 0 <= size /\
    size <= stake_amount trade * 0.3
            * Qpower (EnhancedRiskManaged.dca_multiplier hp)
                (Z.of_nat (EnhancedRiskManaged.count_dca_orders trade)).
Proof.
  unfold EnhancedRiskManaged.adjust_trade_position.
  destruct (EnhancedRiskManaged.check_dca_conditions self hp sur trade
              current_rate) as [[|]|] eqn:Hc; step_bind; cbn [negb];
    try discriminate.
  destruct (enhanced_check_dca_conditions_true _ _ _ _ _ Hc)
    as (Hen & Hcount & Hprofit & Hdates).
  unfold EnhancedRiskManaged.adjust_trade_position_body.
  destruct (wallets_get_total_stake_amount (base_env sur)) as [ts|];
    step_bind; [|discriminate].
  case_cmp; step_bind; [discriminate|].
  intros [= <-]. repeat split; try assumption.
  exists ts. split; [reflexivity|].
  revert Hcmp. minmax_cases; repeat split; lra.
Qed.

(** A position of 200 that lost 10%, three hours after its only order, in
    a wallet of 1000: the order granted is 50, 5% of the wallet. *)
Lemma enhanced_dca_order_guarded_witness :
  calc_profit_ratio Scenarios.enhanced_position 90
    <= EnhancedRiskManaged.dca_trigger_percent
         EnhancedRiskManaged.hyperopt_defaults /\
  exists total_stake,
    wallets_get_total_stake_amount
      (base_env (Scenarios.surroundings_of 10800 1000 []
                   Scenarios.calm_candle)) = Ok total_stake /\
    50.00 <= total_stake * 0.05.
Proof.
  destruct (enhanced_dca_order_guarded EnhancedRiskManaged.defaults
              EnhancedRiskManaged.hyperopt_defaults
              (Scenarios.surroundings_of 10800 1000 [] Scenarios.calm_candle)
              Scenarios.enhanced_position 90 (Some 10) 1000 50.00)
    as (_ & _ & Hprofit & _ & ts & Hw & Hcap & _).
  - vm_compute. reflexivity.
  - split; [exact Hprofit|]. exists ts. split; [exact Hw | exact Hcap].
Defined.

(** The call of [check_dca_conditions] is not under the [try] of
    [adjust_trade_position]: when DCA is enabled, the order count and the
    profit allow an order, and some order of the position has no date, the
    method raises [TypeError] instead of declining. *)
Theorem enhanced_dca_undated_order_raises
    (self : EnhancedRiskManaged.Strategy) (hp : EnhancedRiskManaged.Hyperopt)
    (sur : Surroundings) (trade : Trade) (current_rate : Q)
    (min_stake : option Q) (max_stake : Q) :
  EnhancedRiskManaged.enable_dca self = true ->
  (Z.of_nat (EnhancedRiskManaged.count_dca_orders trade)
     < EnhancedRiskManaged.dca_max_orders hp)%Z ->
  calc_profit_ratio trade current_rate
    <= EnhancedRiskManaged.dca_trigger_percent hp ->
  (exists o, o ∈ orders trade /\ order_date o = None) ->
  EnhancedRiskManaged.adjust_trade_position self hp sur trade current_rate
    min_stake max_stake = Raise TypeError.
Proof.
  intros Hen Hcount Hprofit (o & Ho & Hnone).
  unfold EnhancedRiskManaged.adjust_trade_position,
    EnhancedRiskManaged.check_dca_conditions.
  rewrite Hen. cbn [negb].
  destruct (Z.leb_spec (EnhancedRiskManaged.dca_max_orders hp)
              (Z.of_nat (EnhancedRiskManaged.count_dca_orders trade)));
    [lia|].
  apply Qltb_ge in Hprofit. rewrite Hprofit.
  destruct (orders trade) as [|o0 os] eqn:Hos; [inversion Ho|].
  unfold EnhancedRiskManaged.last_order_time.
  rewrite (mapM_None_2 order_date (o0 :: os)); [reflexivity|].
  apply Exists_exists. exists o. split; assumption.
Qed.

(** The position whose only order has no date, at a loss of 10%. *)
Lemma enhanced_dca_undated_order_raises_witness :
  EnhancedRiskManaged.adjust_trade_position EnhancedRiskManaged.defaults
    EnhancedRiskManaged.hyperopt_defaults
    (Scenarios.surroundings_of 10800 1000 [] Scenarios.calm_candle)
    Scenarios.undated_position 90 (Some 10) 1000 = Raise TypeError.
Proof.
  apply enhanced_dca_undated_order_raises.
  - reflexivity.
  - vm_compute. reflexivity.
  - vm_compute. discriminate.
  - eexists. split; [apply list_elem_of_here | reflexivity].
Defined.

(** The boolean facts of the context are split into their atoms and the
    comparisons are turned into order facts. *)
Ltac bool_facts :=
  repeat match goal with
         | H : _ && _ = true |- _ => apply andb_true_iff in H as [? ?]
         | H : _ || _ = true |- _ => apply orb_true_iff in H as [? | ?]
         | H : _ && _ = false |- _ => apply andb_false_iff in H as [? | ?]
         | H : _ || _ = false |- _ => apply orb_false_iff in H as [? ?]
         | H : negb _ = true |- _ => apply negb_true_iff in H
         | H : negb _ = false |- _ => apply negb_false_iff in H
         | H : Qltb _ _ = true |- _ => apply Qltb_lt in H
         | H : Qltb _ _ = false |- _ => apply Qltb_ge in H
         | H : Qleb _ _ = true |- _ => apply Qleb_le in H
         | H : Qleb _ _ = false |- _ => apply Qleb_gt in H
         | H : Qeqb _ _ = true |- _ => apply Qeqb_eq in H
         | H : Qeqb _ _ = false |- _ => apply Qeqb_neq in H
         end.

(** With all-zero signal columns, a row that gets an entry signal from
    [populate_entry_trend] of EnhancedRiskManagedStrategy gets an exit
    signal from [populate_exit_trend] on the same candle only when its
    price volatility exceeds 8%; and with [rsi_buy] at 25, the lower end
    of its range, no row ever gets an entry signal. *)
Theorem enhanced_entry_and_exit_signals
    (hp : EnhancedRiskManaged.Hyperopt)
    (dataframe : list EnhancedRiskManaged.SignalRow) :
  let zeros := map (fun _ => 0%Z) dataframe in
  let enter_long :=
    EnhancedRiskManaged.populate_entry_trend hp dataframe zeros in
  let exit_long :=
    EnhancedRiskManaged.populate_exit_trend hp dataframe zeros in
  (forall i, enter_long !! i = Some 1%Z -> exit_long !! i = Some 1%Z ->
     exists r, dataframe !! i = Some r /\
               0.08 < EnhancedRiskManaged.price_volatility r)
  /\
  ((EnhancedRiskManaged.rsi_buy hp <= 25)%Z ->
   forall i, enter_long !! i <> Some 1%Z).
Proof.
  intros zeros enter_long exit_long.
  assert (Hcol : forall (mask : EnhancedRiskManaged.SignalRow -> bool) i,
            loc_set (map mask dataframe) 1%Z zeros !! i = Some 1%Z ->
            exists r, dataframe !! i = Some r /\ mask r = true).
  { intros mask i. unfold loc_set. subst zeros.
    rewrite zip_with_map_same.
    change (map (fun x => if mask x then 1%Z else 0%Z) dataframe)
      with ((fun x => if mask x then 1%Z else 0%Z) <$> dataframe).
    rewrite list_lookup_fmap.
    destruct (dataframe !! i) as [r|]; [|discriminate].
    cbn. destruct (mask r) eqn:Hm; [|discriminate].
    intros _. exists r. split; reflexivity || exact Hm. }
  split.
  - intros i Hin Hout.
    destruct (Hcol _ i Hin) as (r & Hr & Hentry).
    destruct (Hcol _ i Hout) as (r' & Hr' & Hexit).
    rewrite Hr in Hr'. injection Hr' as <-.
    exists r. split; [exact Hr|].
    unfold EnhancedRiskManaged.entry_mask in Hentry.
    unfold EnhancedRiskManaged.exit_mask in Hexit.
    bool_facts; lra.
  - intros Hbuy i Hin.
    destruct (Hcol _ i Hin) as (r & _ & Hentry).
    unfold EnhancedRiskManaged.entry_mask in Hentry.
    bool_facts.
    assert (Hq : inject_Z (EnhancedRiskManaged.rsi_buy hp) <= 25).
    { change 25 with (inject_Z 25). rewrite <- Zle_Qle. exact Hbuy. }
    lra.
Qed.

(** A row with an entry signal and a price volatility of 9% also gets an
    exit signal. *)
Lemma enhanced_entry_and_exit_signals_witness :
  exists r, [Scenarios.entry_row] !! 0%nat = Some r /\
            0.08 < EnhancedRiskManaged.price_volatility r.
Proof.
  apply (proj1 (enhanced_entry_and_exit_signals
                  EnhancedRiskManaged.hyperopt_defaults [Scenarios.entry_row])
           0%nat);
    vm_compute; reflexivity.
Defined.

(** ** DCAStrategy: admission, sizing, entry price *)

(** DCAStrategy.confirm_trade_entry confirms every entry whose tag
    contains "dca" (in any case), whatever the portfolio and the wallet
    are and even when a query fails.  The tag "dca_initial" that
    [populate_entry_trend] writes on every entry of the strategy is such a
    tag, so the entries of the strategy itself are confirmed without the
    position count, the duplicate-pair and the allocation checks. *)
Theorem dca_tagged_entry_always_confirmed :
  (forall (self : DCA.Strategy) (env : Env) (pair : string) (amount rate : Q)
          (entry_tag : option string),
     tag_has "dca" entry_tag = true ->
     DCA.confirm_trade_entry self env pair amount rate entry_tag = true)
  /\
  (forall (self : DCA.Strategy) (env : Env) (pair : string) (amount rate : Q),
     DCA.confirm_trade_entry self env pair amount rate
       (Some DCA.initial_entry_tag) = true).
Proof.
  assert (H : forall (self : DCA.Strategy) (env : Env) (pair : string)
                     (amount rate : Q) (entry_tag : option string),
             tag_has "dca" entry_tag = true ->
             DCA.confirm_trade_entry self env pair amount rate entry_tag
             = true).
  { intros self env pair amount rate entry_tag Htag.
    unfold DCA.confirm_trade_entry, DCA.confirm_trade_entry_body.
    rewrite Htag. reflexivity. }
  split; [exact H|].
  intros self env pair amount rate. apply H. reflexivity.
Qed.

(** An entry tagged "DCA_2" with eight positions open and an amount worth
    ten times the wallet is confirmed. *)
Lemma dca_tagged_entry_always_confirmed_witness :
  DCA.confirm_trade_entry DCA.defaults Scenarios.eight_positions "BTC/USDT"
    100 100 (Some "DCA_2"%string) = true.
Proof.
  apply (proj1 dca_tagged_entry_always_confirmed). reflexivity.
Defined.

(** An entry whose tag does not contain "dca" is confirmed by
    DCAStrategy.confirm_trade_entry only if fewer than eight positions are
    open, none of them is in the same pair, and, when the wallet is
    positive, the value of the order is at most [max_position_size] of the
    wallet.  With a wallet that is not positive the allocation counts as
    zero. *)
Theorem dca_untagged_entry_guarded
    (self : DCA.Strategy) (env : Env) (pair : string) (amount rate : Q)
    (entry_tag : option string) :
  tag_has "dca" entry_tag = false ->
  DCA.confirm_trade_entry self env pair amount rate entry_tag = true ->
  exists open_trades total_stake,
    get_trades_proxy_open env = Ok open_trades /\
    (length open_trades < 8)%nat /\
    (forall t, t ∈ open_trades -> Freqtrade.pair t <> pair) /\
    wallets_get_total_stake_amount env = Ok total_stake /\
    (0 < total_stake ->
     amount * rate <= DCA.max_position_size self * total_stake) /\
    (total_stake <= 0 -> 0 <= DCA.max_position_size self).
Proof.
  intros Htag.
  unfold DCA.confirm_trade_entry, DCA.confirm_trade_entry_body.
  rewrite Htag. unfold get_trades_proxy_pair.
  destruct (get_trades_proxy_open env) as [ots|]; step_bind; [|discriminate].
  destruct (8 <=? length ots)%nat eqn:Hlen; step_bind; [discriminate|].
  destruct (List.filter (fun t => String.eqb (Freqtrade.pair t) pair) ots)
    as [|t0 same] eqn:Hsame; cbn [negb]; step_bind; [|discriminate].
  destruct (wallets_get_total_stake_amount env) as [ts|]; step_bind;
    [|discriminate].
  intros Hc. exists ots, ts.
  split; [reflexivity|]. split; [apply Nat.leb_gt, Hlen|].
  split.
  { intros t Ht Heq.
    assert (Hin : In t (List.filter
                          (fun t => String.eqb (Freqtrade.pair t) pair) ots)).
    { apply List.filter_In. split.
      - apply list_elem_of_In, Ht.
      - apply String.eqb_eq, Heq. }
    rewrite Hsame in Hin. inversion Hin. }
  split; [reflexivity|].
  revert Hc. case_cmp; step_bind.
  - rewrite div_nonzero by lra. step_bind.
    case_cmp; step_bind; [discriminate|]. intros _. split; [|lra].
    intros _.
    assert (Hmul : amount * rate / ts * ts == amount * rate) by (field; lra).
    nra.
  - case_cmp; step_bind; [discriminate|]. intros _. split; [lra|].
    intros _. exact Hcmp0.
Qed.

(** An untagged entry worth 100 with two positions open in other pairs
    and a wallet of 1000. *)
Lemma dca_untagged_entry_guarded_witness :
  exists open_trades total_stake,
    get_trades_proxy_open Scenarios.two_other_positions = Ok open_trades /\
    (length open_trades < 8)%nat /\
    (forall t, t ∈ open_trades -> Freqtrade.pair t <> "BTC/USDT"%string) /\
    wallets_get_total_stake_amount Scenarios.two_other_positions
      = Ok total_stake /\
    (0 < total_stake ->
     1 * 100 <= DCA.max_position_size DCA.defaults * total_stake) /\
    (total_stake <= 0 -> 0 <= DCA.max_position_size DCA.defaults).
Proof.
  apply (dca_untagged_entry_guarded DCA.defaults
           Scenarios.two_other_positions "BTC/USDT" 1 100 None);
    reflexivity.
Defined.

(** DCAStrategy.custom_stake_amount with a positive wallet: a size is
    never below [min_stake]; an order whose tag contains "dca" is at most
    15% of the wallet and at most [max_stake], and any other order is at
    most [base_position_size] and [max_position_size] of the wallet and at
    most [max_stake], unless [min_stake] is larger.  The entries of the
    strategy itself, tagged "dca_initial", are sized as DCA orders with
    the default multiplier 1.5, not with the initial-order rule. *)
Theorem dca_stake_within_limits
    (self : DCA.Strategy) (env : Env) (total_stake proposed_stake : Q)
    (min_stake : option Q) (max_stake : Q) (entry_tag : option string) :
  wallets_get_total_stake_amount env = Ok total_stake ->
  0 < total_stake ->
  let size :=
    DCA.custom_stake_amount self env proposed_stake min_stake max_stake
      entry_tag in
  let floor := float_or min_stake 0 in
  floor <= size /\
  size <= Qmax max_stake floor /\
  (tag_has "dca" entry_tag = true -> size <= Qmax (total_stake * 0.15) floor)
  /\
  (tag_has "dca" entry_tag = false ->
   size <= Qmax (total_stake * DCA.base_position_size self) floor /\
   size <= Qmax (total_stake * DCA.max_position_size self) floor)
  /\
  (entry_tag = Some DCA.initial_entry_tag ->
   size == Qmax (Qmin (Qmin (total_stake * DCA.base_position_size self * 1.5)
                         (total_stake * 0.15)) max_stake) floor).
Proof.
  intros Hw Hpos size floor. subst size.
  unfold DCA.custom_stake_amount, DCA.custom_stake_amount_body.
  rewrite Hw. step_bind.
  assert (Hn : Qleb total_stake 0 = false) by (apply Qleb_gt; exact Hpos).
  rewrite Hn.
  destruct (tag_has "dca" entry_tag) eqn:Htag; step_bind.
  - unfold DCA.calculate_dca_size, DCA.calculate_dca_size_body. step_bind.
    fold floor.
    split; [apply Q.le_max_r|]. split; [minmax_cases; lra|].
    split; [intros _; minmax_cases; lra|].
    split; [discriminate|].
    intros ->. cbn [default from_option].
    change (DCA.tag_multiplier self (id DCA.initial_entry_tag)) with 1.5.
    apply Qeq_refl.
  - fold floor.
    split; [apply Q.le_max_r|]. split; [minmax_cases; lra|].
    split; [discriminate|].
    split; [intros _; split; minmax_cases; lra|].
    intros ->. discriminate.
Qed.

(** With the default parameters and a wallet of 1000, the entry tagged
    "dca_initial" is sized at 150 (15% of the wallet), not at the 120 of
    the initial-order rule. *)
Lemma dca_stake_within_limits_witness :
  DCA.custom_stake_amount DCA.defaults
    (Scenarios.env_of 1000 [] Scenarios.calm_candle) 100 (Some 10) 1000
    (Some DCA.initial_entry_tag)
  == 150.
Proof.
  destruct (dca_stake_within_limits DCA.defaults
              (Scenarios.env_of 1000 [] Scenarios.calm_candle) 1000 100
              (Some 10) 1000 (Some DCA.initial_entry_tag) eq_refl)
    as (_ & _ & _ & _ & Hinit).
  - vm_compute. reflexivity.
  - rewrite (Hinit eq_refl). vm_compute. reflexivity.
Defined.

(** DCAStrategy.custom_entry_price leaves the proposed rate untouched for
    an order whose tag does not contain "dca"; for a DCA order at a
    positive rate the price is never more than 1% below the proposed rate,
    and never above it when the ATR of the last candle is not negative.
    Any failure gives the proposed rate. *)
Theorem dca_entry_price_discount
    (env : Env) (pair : string) (proposed_rate : Q)
    (entry_tag : option string) :
  let price := DCA.custom_entry_price env pair proposed_rate entry_tag in
  (tag_has "dca" entry_tag = false -> price = proposed_rate) /\
  (0 < proposed_rate -> 0.99 * proposed_rate <= price) /\
  (0 < proposed_rate ->
   (forall df c, dp_get_analyzed_dataframe env pair = Ok df ->
                 iloc_last df = Ok c ->
                 0 <= candle_get c "atr" (proposed_rate * 0.02)) ->
   price <= proposed_rate).
Proof.
  intros price. subst price. unfold DCA.custom_entry_price.
  destruct (tag_has "dca" entry_tag); cbn [negb].
  2: { repeat split; intros; lra. }
  split; [discriminate|].
  unfold DCA.custom_entry_price_body.
  destruct (dp_get_analyzed_dataframe env pair) as [df|]; step_bind.
  2: { split; intros; lra. }
  destruct (df_empty df); step_bind.
  1: { split; intros; lra. }
  destruct (iloc_last df) as [c|] eqn:Hc; step_bind.
  2: { split; intros; lra. }
  split.
  - intros Hpos. rewrite div_nonzero by lra. step_bind.
    minmax_cases; nra.
  - intros Hpos Hatr. specialize (Hatr df c eq_refl Hc).
    rewrite div_nonzero by lra. step_bind.
    assert (Hrel : 0 <= candle_get c "atr" (proposed_rate * 0.02) * 0.5
                        / proposed_rate)
      by (apply Qdiv_nonneg; lra).
    revert Hrel. generalize (candle_get c "atr" (proposed_rate * 0.02) * 0.5
                               / proposed_rate).
    intros rel Hrel. minmax_cases; nra.
Qed.

(** A DCA order proposed at 100 on a candle with an ATR of 1.6 is priced
    between 99 and 100. *)
Lemma dca_entry_price_discount_witness :
  0.99 * 100
  <= DCA.custom_entry_price (Scenarios.env_of 1000 [] Scenarios.calm_candle)
       "BTC/USDT" 100 (Some "dca_1"%string)
  /\
  DCA.custom_entry_price (Scenarios.env_of 1000 [] Scenarios.calm_candle)
    "BTC/USDT" 100 (Some "dca_1"%string) <= 100.
Proof.
  destruct (dca_entry_price_discount
              (Scenarios.env_of 1000 [] Scenarios.calm_candle) "BTC/USDT" 100
              (Some "dca_1"%string)) as (_ & Hlow & Hhigh).
  split.
  - apply Hlow. vm_compute. reflexivity.
  - apply Hhigh; [vm_compute; reflexivity|].
    intros df c [= <-] [= <-]. vm_compute. discriminate.
Defined.

(** DCAStrategy.custom_stoploss only tightens as the profit grows: for the
    same position a larger profit never gives a looser stop; above 5% of
    profit the stop is -5% or tighter, and from 20% of profit on it is -2%
    or tighter. *)
Theorem dca_stop_tightens_with_profit
    (self : DCA.Strategy) (trade : Trade) :
  (forall p p' : Q, p <= p' ->
     DCA.custom_stoploss self trade p <= DCA.custom_stoploss self trade p') /\
  (forall p : Q, 0.05 < p -> -0.05 <= DCA.custom_stoploss self trade p) /\
  (forall p : Q, 0.2 <= p -> -0.02 <= DCA.custom_stoploss self trade p).
Proof.
  unfold DCA.custom_stoploss, DCA.custom_stoploss_body. step_bind.
  set (base := Qmax _ (-0.25)). clearbody base.
  split; [|split].
  - intros p p' Hp.
    assert (Hf : p / 0.2 <= p' / 0.2) by (apply Qdiv_le_compat; lra).
    revert Hf. generalize (p / 0.2) (p' / 0.2). intros f f' Hf.
    destruct (Qltb 0.05 p) eqn:H1; destruct (Qltb 0.05 p') eqn:H2;
      bool_facts; try lra; minmax_cases; lra.
  - intros p Hp.
    assert (Hf : 0 <= p / 0.2) by (apply Qdiv_nonneg; lra).
    revert Hf. generalize (p / 0.2). intros f Hf.
    apply Qltb_lt in Hp. rewrite Hp. minmax_cases; lra.
  - intros p Hp.
    assert (Hf : 1 <= p / 0.2) by (apply Qle_shift_div_l; lra).
    revert Hf. generalize (p / 0.2). intros f Hf.
    assert (H5 : Qltb 0.05 p = true) by (apply Qltb_lt; lra).
    rewrite H5. minmax_cases; lra.
Qed.

(** The position averaged once: at 10% of profit its stop is not looser
    than at 6%. *)
Lemma dca_stop_tightens_with_profit_witness :
  DCA.custom_stoploss DCA.defaults Scenarios.averaged_once 0.06
  <= DCA.custom_stoploss DCA.defaults Scenarios.averaged_once 0.10.
Proof.
  apply (proj1 (dca_stop_tightens_with_profit DCA.defaults
                  Scenarios.averaged_once)).
  vm_compute. discriminate.
Defined.

(** ** DCAStrategy: when the ladder stays silent, and how far it can go *)

(** DCAStrategy.adjust_trade_position declines (returns [None], never
    raises) whenever DCA is disabled, the wallet cannot be read or is not
    positive, the profit is above all four trigger levels, or the position
    has orders none of which is dated. *)
Theorem dca_no_order_conditions
    (self : DCA.Strategy) (env : Env) (trade : Trade) (now profit : Q) :
  DCA.dca_enabled self = false \/
  (exists e, wallets_get_total_stake_amount env = Raise e) \/
  (exists total_stake,
     wallets_get_total_stake_amount env = Ok total_stake /\
     total_stake <= 0) \/
  (DCA.dca_level_1 self < profit /\ DCA.dca_level_2 self < profit /\
   DCA.dca_level_3 self < profit /\ DCA.dca_level_4 self < profit) \/
  (orders trade <> [] /\ forall o, o ∈ orders trade -> order_date o = None) ->
  DCA.adjust_trade_position self env trade now profit = None.
Proof.
  intros H. unfold DCA.adjust_trade_position.
  destruct (DCA.dca_enabled self) eqn:Hen; cbn [negb]; [|reflexivity].
  destruct H as [H | [[e He] | [(ts & Hw & Hts) | [Hlv | [Hne Hnd]]]]];
    [discriminate| | | |].
  - unfold DCA.adjust_trade_position_body.
    destruct (DCA.check_dca_timing self trade now) as [[|]|]; step_bind;
      cbn [negb]; try reflexivity.
    unfold DCA.check_position_limits, DCA.check_position_limits_body.
    rewrite He. reflexivity.
  - unfold DCA.adjust_trade_position_body.
    destruct (DCA.check_dca_timing self trade now) as [[|]|]; step_bind;
      cbn [negb]; try reflexivity.
    unfold DCA.check_position_limits, DCA.check_position_limits_body.
    rewrite Hw. step_bind. apply Qleb_le in Hts. rewrite Hts. reflexivity.
  - unfold DCA.adjust_trade_position_body.
    destruct (DCA.check_dca_timing self trade now) as [[|]|]; step_bind;
      cbn [negb]; try reflexivity.
    destruct (DCA.check_position_limits self env trade); cbn [negb];
      step_bind; [|reflexivity].
    unfold DCA.get_dca_level_and_size, DCA.get_dca_level_and_size_body.
    destruct (wallets_get_total_stake_amount env) as [ts|]; step_bind;
      [|reflexivity].
    destruct Hlv as (H1 & H2 & H3 & H4).
    apply Qleb_gt in H1, H2, H3, H4. rewrite H1, H2, H3, H4. reflexivity.
  - unfold DCA.adjust_trade_position_body, DCA.check_dca_timing.
    destruct (orders trade) as [|o0 os] eqn:Hos; [congruence|].
    assert (Hom : omap order_date (o0 :: os) = []).
    { clear Hne Hos. induction (o0 :: os) as [|o l IH]; [reflexivity|].
      cbn [omap list_omap]. rewrite (Hnd o) by apply list_elem_of_here.
      apply IH. intros o' Ho'. apply Hnd. apply list_elem_of_further, Ho'. }
    rewrite Hom. reflexivity.
Qed.

(** The DCA position at a loss of 6%, five hours after its only order,
    with an empty wallet: no order. *)
Lemma dca_no_order_conditions_witness :
  DCA.adjust_trade_position DCA.defaults Scenarios.empty_wallet
    Scenarios.dca_fresh 18000 (-0.06) = None.
Proof.
  apply dca_no_order_conditions.
  right. right. left. exists 0. split; [reflexivity|].
  vm_compute. discriminate.
Defined.

Lemma sum_cons (x : Q) (xs : list Q) : Py.sum (x :: xs) == x + Py.sum xs.
Proof.
  unfold Py.sum. cbn [fold_left]. rewrite fold_left_Qplus_shift. lra.
Qed.

Lemma sum_at_most (c : Q) (xs : list Q) :
  Forall (fun x => x <= c) xs ->
  Py.sum xs <= inject_Z (Z.of_nat (length xs)) * c.
Proof.
  induction xs as [|x xs IH]; intros Hall.
  - change (Py.sum []) with 0.
    change (inject_Z (Z.of_nat (length (@nil Q)))) with 0. lra.
  - apply Forall_cons in Hall as [Hx Hall]. specialize (IH Hall).
    rewrite sum_cons. cbn [length].
    rewrite Nat2Z.inj_succ. unfold Z.succ. rewrite inject_Z_plus.
    change (inject_Z 1) with 1. lra.
Qed.

Lemma ladder_run_sizes (self : DCA.Strategy) (ticks : list DCA.Tick)
    (trade : Trade) :
  let final := (DCA.ladder_run self trade ticks).1 in
  let fired := (DCA.ladder_run self trade ticks).2 in
  stake_amount final
    == stake_amount trade + Py.sum (map DCA.fired_size fired) /\
  Forall (fun f =>
            (1 <= DCA.fired_level f <= 4)%Z /\
            exists tk total_stake,
              tk ∈ ticks /\
              wallets_get_total_stake_amount (DCA.tick_env tk)
                = Ok total_stake /\
              DCA.fired_size f <= 0.15 * total_stake) fired.
Proof.
  revert trade. induction ticks as [|tk rest IH]; intros trade.
  - cbn. split; [unfold Py.sum; cbn; lra | constructor].
  - cbn [DCA.ladder_run].
    destruct (ladder_step_cases self trade tk)
      as [Hstep | (level & size & Ha & Hg & Hstep)]; rewrite Hstep.
    + specialize (IH trade).
      destruct (DCA.ladder_run self trade rest) as [final later].
      cbn [fst snd] in *. destruct IH as [Hst Hall]. split; [exact Hst|].
      eapply Forall_impl; [exact Hall|].
      intros f (Hlv & tk' & ts & Htk & Hw & Hsz). split; [exact Hlv|].
      exists tk', ts. split; [apply list_elem_of_further, Htk|].
      split; assumption.
    + specialize (IH (DCA.book_ladder_fill trade level size tk)).
      destruct (DCA.ladder_run self (DCA.book_ladder_fill trade level size tk)
                  rest) as [final later].
      cbn [fst snd] in *. destruct IH as [Hst Hall].
      destruct (get_dca_level_and_size_some self _ _ _ _ _ Hg)
        as (ts & Hw & (m & Hsize) & Hrange).
      split.
      * cbn [map DCA.fired_size]. rewrite sum_cons, Hst.
        unfold DCA.book_ladder_fill. cbn [stake_amount]. lra.
      * constructor.
        -- cbn [DCA.fired_level DCA.fired_size]. split; [exact Hrange|].
           exists tk, ts. split; [apply list_elem_of_here|].
           split; [exact Hw|].
           rewrite Hsize. eapply Qle_trans; [apply Q.le_min_r | lra].
        -- eapply Forall_impl; [exact Hall|].
           intros f (Hlv & tk' & ts' & Htk & Hw' & Hsz). split; [exact Hlv|].
           exists tk', ts'. split; [apply list_elem_of_further, Htk|].
           split; assumption.
Qed.

(** Over the whole life of a DCA position at most four averaging orders
    fire, the stake of the position grows by exactly the sizes granted,
    and, while the wallet stays at a value W that is not negative, the
    stake ends at most 60% of W above where it started: the allocation
    limit, checked before each order only, never lets the ladder add
    more. *)
Theorem dca_ladder_total_exposure
    (self : DCA.Strategy) (trade : Trade) (ticks : list DCA.Tick) :
  let final := (DCA.ladder_run self trade ticks).1 in
  let fired := (DCA.ladder_run self trade ticks).2 in
  (length fired <= 4)%nat /\
  stake_amount final
    == stake_amount trade + Py.sum (map DCA.fired_size fired) /\
  (forall W : Q,
     0 <= W ->
     (forall tk, tk ∈ ticks ->
        wallets_get_total_stake_amount (DCA.tick_env tk) = Ok W) ->
     stake_amount final <= stake_amount trade + 0.6 * W).
Proof.
  intros final fired.
  destruct (ladder_run_sizes self ticks trade) as [Hst Hall].
  fold final fired in Hst, Hall.
  destruct (ladder_run_invariant self ticks trade) as (Hnd & _).
  fold fired in Hnd.
  assert (Hlen : (length fired <= 4)%nat).
  { rewrite <- (length_map DCA.fired_level fired).
    change 4%nat with (length [1; 2; 3; 4]%Z).
    apply submseteq_length, NoDup_submseteq; [exact Hnd|].
    intros lv Hlv. apply list_elem_of_fmap in Hlv as (f & -> & Hf).
    rewrite Forall_forall in Hall. destruct (Hall f Hf) as [Hr _].
    assert (Hcases : DCA.fired_level f = 1%Z \/ DCA.fired_level f = 2%Z \/
                     DCA.fired_level f = 3%Z \/ DCA.fired_level f = 4%Z)
      by lia.
    destruct Hcases as [-> | [-> | [-> | ->]]];
      repeat first [apply list_elem_of_here | apply list_elem_of_further]. }
  split; [exact Hlen|]. split; [exact Hst|].
  intros W HW Hwallet. rewrite Hst.
  assert (Hsizes : Forall (fun x => x <= 0.15 * W)
                     (map DCA.fired_size fired)).
  { apply Forall_fmap. eapply Forall_impl; [exact Hall|].
    intros f (_ & tk & ts & Htk & Hw & Hsz). cbn.
    rewrite (Hwallet tk Htk) in Hw. injection Hw as <-. exact Hsz. }
  pose proof (sum_at_most _ _ Hsizes) as Hsum.
  rewrite length_map in Hsum.
  assert (Hq : inject_Z (Z.of_nat (length fired)) <= 4).
  { change 4 with (inject_Z 4). rewrite <- Zle_Qle. lia. }
  nra.
Qed.

(** A position of 120 in a wallet of 1000 that falls through all four
    levels with an allocation limit of 50%: its stake ends within 600 of
    where it started. *)
Lemma dca_ladder_total_exposure_witness :
  stake_amount
    (DCA.ladder_run Scenarios.dca_wide Scenarios.dca_fresh
       Scenarios.falling_ticks).1
  <= stake_amount Scenarios.dca_fresh + 0.6 * 1000.
Proof.
  apply (proj2 (proj2 (dca_ladder_total_exposure Scenarios.dca_wide
                         Scenarios.dca_fresh Scenarios.falling_ticks))).
  - vm_compute. discriminate.
  - intros tk Htk.
    repeat (apply elem_of_cons in Htk as [-> | Htk]; [reflexivity|]).
    inversion Htk.
Defined.

(** ** PortfolioRebalancingStrategy: allocations, admission, sizing *)

Lemma asset_category_known (pair : string) :
  PortfolioRebalancing.get_asset_category pair
    ∈ ["btc"; "eth"; "alt"; "stable"; "other"]%string.
Proof.
  unfold PortfolioRebalancing.get_asset_category.
  destruct (PortfolioRebalancing.ASSET_CATEGORIES !! pair) as [c|] eqn:Hc;
    cbn [default from_option].
  - unfold PortfolioRebalancing.ASSET_CATEGORIES in Hc.
    apply elem_of_list_to_map_2 in Hc.
    repeat (apply elem_of_cons in Hc as [[= _ <-] | Hc];
            [unfold id;
             repeat first [apply list_elem_of_here
                          | apply list_elem_of_further] |]).
    inversion Hc.
  - unfold id.
    repeat first [apply list_elem_of_here | apply list_elem_of_further].
Qed.

Section Allocations.

(** The five shares of an allocation table, added up. *)
Let shares (m : gmap string Q) : Q :=
  default 0 (m !! "btc"%string) + default 0 (m !! "eth"%string)
  + default 0 (m !! "alt"%string) + default 0 (m !! "stable"%string)
  + default 0 (m !! "other"%string).

Let complete (m : gmap string Q) : Prop :=
  is_Some (m !! "btc"%string) /\ is_Some (m !! "eth"%string) /\
  is_Some (m !! "alt"%string) /\ is_Some (m !! "stable"%string) /\
  is_Some (m !! "other"%string).

Lemma dict_add_shares (m : gmap string Q) (category : string) (v : Q) :
  category ∈ ["btc"; "eth"; "alt"; "stable"; "other"]%string ->
  complete m ->
  exists m',
    PortfolioRebalancing.dict_add m category v = Ok m' /\
    complete m' /\ shares m' == shares m + v.
Proof.
  intros Hc (Hb & He & Ha & Hs & Ho).
  unfold PortfolioRebalancing.dict_add.
  repeat (apply elem_of_cons in Hc as [-> | Hc]); [| | | | |inversion Hc].
  all: match goal with
       | |- context [match ?mm !! ?k with _ => _ end] =>
           destruct (mm !! k) as [x|] eqn:Hk;
           [|match goal with H : is_Some None |- _ =>
               destruct H; discriminate end]
       end.
  all: eexists; split; [reflexivity|].
  all: unfold complete, shares.
  all: rewrite ?lookup_insert_eq, ?lookup_insert_ne by discriminate.
  all: rewrite ?Hk.
  all: split; [repeat split; try assumption; eexists; reflexivity|].
  all: cbn [default from_option]; unfold id; lra.
Qed.

Lemma add_trades_shares (open_trades : list Trade) (m : gmap string Q)
    (total : Q) :
  complete m ->
  exists m',
    PortfolioRebalancing.add_trades m total open_trades
    = Ok (m', fold_left Qplus (map stake_amount open_trades) total) /\
    complete m' /\
    shares m' == shares m + Py.sum (map stake_amount open_trades).
Proof.
  revert m total. induction open_trades as [|t rest IH]; intros m total Hm.
  - exists m. cbn. repeat split; try apply Hm. unfold Py.sum. cbn. lra.
  - cbn [PortfolioRebalancing.add_trades].
    destruct (dict_add_shares m
                (PortfolioRebalancing.get_asset_category (pair t))
                (stake_amount t) (asset_category_known _) Hm)
      as (m1 & Hadd & Hm1 & Hs1).
    rewrite Hadd. step_bind.
    destruct (IH m1 (total + stake_amount t) Hm1) as (m' & Hrun & Hm' & Hs').
    exists m'. split; [exact Hrun|]. split; [exact Hm'|].
    cbn [map]. rewrite sum_cons, Hs', Hs1. lra.
Qed.

Lemma zero_allocations_complete :
  complete PortfolioRebalancing.zero_allocations /\
  shares PortfolioRebalancing.zero_allocations == 0.
Proof.
  unfold complete, shares.
  repeat split; try (eexists; reflexivity).
Qed.

(** PortfolioRebalancingStrategy.calculate_current_allocations, when the
    open trades and the wallet can be read: the total value is the larger
    of the invested stakes and the wallet (the free balance, when there is
    one, is booked as "stable"), and whenever that total is positive the
    five shares it returns add up to 1. *)
Theorem rebalancing_shares_add_up
    (env : Env) (open_trades : list Trade) (wallet : Q) :
  get_trades_proxy_open env = Ok open_trades ->
  wallets_get_total_stake_amount env = Ok wallet ->
  let allocations := (PortfolioRebalancing.calculate_current_allocations env).1 in
  let total_value := (PortfolioRebalancing.calculate_current_allocations env).2 in
  total_value == Qmax (Py.sum (map stake_amount open_trades)) wallet /\
  (0 < total_value ->
   default 0 (allocations !! "btc"%string)
   + default 0 (allocations !! "eth"%string)
   + default 0 (allocations !! "alt"%string)
   + default 0 (allocations !! "stable"%string)
   + default 0 (allocations !! "other"%string) == 1).
Proof.
  intros Ht Hw.
  unfold PortfolioRebalancing.calculate_current_allocations,
    PortfolioRebalancing.calculate_current_allocations_body.
  rewrite Ht. step_bind.
  destruct zero_allocations_complete as [Hz0 Hz1].
  destruct (add_trades_shares open_trades
              PortfolioRebalancing.zero_allocations 0.0 Hz0)
    as (m & Hrun & Hm & Hs).
  rewrite Hrun. step_bind. rewrite Hw. step_bind.
  set (invested := fold_left Qplus (map stake_amount open_trades) 0.0).
  assert (Hinv : invested == Py.sum (map stake_amount open_trades)).
  { subst invested. rewrite fold_left_Qplus_shift. unfold Py.sum. lra. }
  assert (Hsm : shares m == invested) by (rewrite Hs, Hz1, Hinv; lra).
  clearbody invested.
  assert (Hfinish : forall (m2 : gmap string Q) (total : Q),
            shares m2 == total ->
            0 < total ->
            shares ((fun v => v / total) <$> m2) == 1).
  { intros m2 total Hm2 Hpos. unfold shares in *.
    rewrite !lookup_fmap.
    destruct (m2 !! "btc"%string), (m2 !! "eth"%string),
      (m2 !! "alt"%string), (m2 !! "stable"%string),
      (m2 !! "other"%string);
      cbn [fmap option_fmap option_map default from_option] in *;
      unfold id in *; field_simplify_eq; lra. }
  case_cmp; step_bind.
  - destruct (dict_add_shares m "stable" (wallet - invested)) as
      (m2 & Hadd & Hm2 & Hs2); [|exact Hm|].
    { repeat first [apply list_elem_of_here | apply list_elem_of_further]. }
    rewrite Hadd. step_bind.
    assert (Htot : shares m2 == invested + (wallet - invested))
      by (rewrite Hs2, Hsm; lra).
    case_cmp; cbn [fst snd].
    + split; [rewrite <- Hinv; minmax_cases; lra|].
      intros _. apply (Hfinish m2 _ Htot Hcmp0).
    + split; [rewrite <- Hinv; minmax_cases; lra|]. intros Hpos. lra.
  - case_cmp; cbn [fst snd].
    + split; [rewrite <- Hinv; minmax_cases; lra|].
      intros _. apply (Hfinish m _ Hsm Hcmp0).
    + split; [rewrite <- Hinv; minmax_cases; lra|]. intros Hpos. lra.
Qed.

End Allocations.

(** Bitcoin worth 300 in a wallet of 1000: the shares add up to 1. *)
Lemma rebalancing_shares_add_up_witness :
  let allocations :=
    (PortfolioRebalancing.calculate_current_allocations
       Scenarios.btc_at_30_percent).1 in
  default 0 (allocations !! "btc"%string)
  + default 0 (allocations !! "eth"%string)
  + default 0 (allocations !! "alt"%string)
  + default 0 (allocations !! "stable"%string)
  + default 0 (allocations !! "other"%string) == 1.
Proof.
  apply (proj2 (rebalancing_shares_add_up Scenarios.btc_at_30_percent
                  _ 1000 eq_refl eq_refl)).
  vm_compute. reflexivity.
Defined.

(** PortfolioRebalancingStrategy.confirm_trade_entry, in the binary64
    floats it computes with, confirms an entry exactly when its tag
    contains "rebalance" (in any case), the pair's category is flagged for
    rebalancing and the implied capital move is positive.  So an entry
    without such a tag is always rejected, and a confirmed entry is for a
    category with a target that is not zero, whose computed drift exceeds
    the threshold and whose implied move is positive and in absolute
    value not below [min_rebalance_amount]. *)
Theorem rebalancing_entry_confirmed_exactly
    (self : PortfolioRebalancing64.Strategy) (env : Binary64.Env)
    (pair : string) (entry_tag : option string) :
  (PortfolioRebalancing64.confirm_trade_entry self env pair entry_tag = true
   <->
   tag_has "rebalance" entry_tag = true /\
   (PortfolioRebalancing64.needs_rebalancing self env pair).1.1 = true /\
   (0 <? (PortfolioRebalancing64.needs_rebalancing self env pair).1.2)%float
   = true)
  /\
  (tag_has "rebalance" entry_tag = false ->
   PortfolioRebalancing64.confirm_trade_entry self env pair entry_tag = false)
  /\
  (PortfolioRebalancing64.confirm_trade_entry self env pair entry_tag = true ->
   (PortfolioRebalancing64.get_target_allocation self
      (PortfolioRebalancing.get_asset_category pair) =? 0)%float = false /\
   (PortfolioRebalancing64.rebalance_threshold self
    <? PortfolioRebalancing64.allocation_drift self env pair)%float = true /\
   (PrimFloat.abs (PortfolioRebalancing64.position_change self env pair)
    <? PortfolioRebalancing64.min_rebalance_amount self)%float = false /\
   (0 <? PortfolioRebalancing64.position_change self env pair)%float = true).
Proof.
  assert (Hiff :
    PortfolioRebalancing64.confirm_trade_entry self env pair entry_tag = true
    <->
    tag_has "rebalance" entry_tag = true /\
    (PortfolioRebalancing64.needs_rebalancing self env pair).1.1 = true /\
    (0 <? (PortfolioRebalancing64.needs_rebalancing self env pair).1.2)%float
    = true).
  { unfold PortfolioRebalancing64.confirm_trade_entry,
      PortfolioRebalancing64.confirm_trade_entry_body.
    destruct (tag_has "rebalance" entry_tag); step_bind.
    - destruct (PortfolioRebalancing64.needs_rebalancing self env pair)
        as [[needs change] reason]. cbn [fst snd].
      destruct needs; cbn [andb];
        [|split; [discriminate | intros (_ & H & _); discriminate]].
      destruct (0 <? change)%float; step_bind.
      + split; [intros _; repeat split | reflexivity].
      + split; [discriminate | intros (_ & _ & H); discriminate].
    - split; [discriminate | intros (H & _); discriminate]. }
  split; [exact Hiff|]. split.
  - intros Htag.
    destruct (PortfolioRebalancing64.confirm_trade_entry self env pair
                entry_tag) eqn:Hc; [|reflexivity].
    destruct (proj1 Hiff eq_refl) as [Htag' _]. congruence.
  - intros Hc. apply Hiff in Hc. destruct Hc as (_ & Hflag & Hpos).
    rewrite (needs_rebalancing64_change self env pair Hflag) in Hpos.
    apply needs_rebalancing64_flag in Hflag.
    destruct Hflag as (Ht & Hd & Hm).
    repeat split; assumption.
Qed.

(** A rebalancing buy of Bitcoin at 25% of a portfolio of 1000 (target
    40%, threshold 15%) is confirmed: the computed drift,
    0.15000000000000002, exceeds the threshold. *)
Lemma rebalancing_entry_confirmed_exactly_witness :
  (PortfolioRebalancing64.rebalance_threshold PortfolioRebalancing64.defaults
   <? PortfolioRebalancing64.allocation_drift PortfolioRebalancing64.defaults
        (Scenarios.env64 1000 [Scenarios.trade64 "BTC/USD" 250 None])
        "BTC/USD")%float = true.
Proof.
  apply (proj2 (proj2 (rebalancing_entry_confirmed_exactly
                         PortfolioRebalancing64.defaults
                         (Scenarios.env64 1000
                            [Scenarios.trade64 "BTC/USD" 250 None])
                         "BTC/USD" (Some "rebalance_buy"%string)))).
  vm_compute. reflexivity.
Defined.

(** PortfolioRebalancingStrategy.custom_stake_amount: when the pair is
    not flagged, or the implied move is not positive, it returns the token
    amount [min_stake or proposed_stake * 0.1].  When the pair is flagged
    with a positive move and the wallet can be read, the size is at least
    [min_position_size] of the wallet and at least [min_stake], and it
    exceeds neither [max_position_size] of the wallet nor the smaller of
    the move and [max_stake] unless one of those two minimums is larger. *)
Theorem rebalancing_stake_within_limits
    (self : PortfolioRebalancing.Strategy) (lim : PortfolioRebalancing.Limits)
    (env : Env) (pair : string) (proposed_stake : Q) (min_stake : option Q)
    (max_stake : Q) :
  let flagged := (PortfolioRebalancing.needs_rebalancing self env pair).1.1 in
  let change := (PortfolioRebalancing.needs_rebalancing self env pair).1.2 in
  let size :=
    PortfolioRebalancing.custom_stake_amount self lim env pair proposed_stake
      min_stake max_stake in
  (flagged = false \/ change <= 0 ->
   size = float_or min_stake (proposed_stake * 0.1))
  /\
  (forall total_stake,
     flagged = true -> 0 < change ->
     wallets_get_total_stake_amount env = Ok total_stake ->
     let min_position :=
       total_stake * PortfolioRebalancing.min_position_size lim in
     let max_position :=
       total_stake * PortfolioRebalancing.max_position_size lim in
     let floor := Qmax min_position (float_or min_stake 0) in
     min_position <= size /\
     float_or min_stake 0 <= size /\
     size <= Qmax max_position floor /\
     size <= Qmax (Qmin change max_stake) floor).
Proof.
  intros flagged change size. subst flagged change size.
  unfold PortfolioRebalancing.custom_stake_amount,
    PortfolioRebalancing.custom_stake_amount_body.
  destruct (PortfolioRebalancing.needs_rebalancing self env pair)
    as [[needs change] reason]. cbn [fst snd].
  split.
  - intros [-> | Hle]; cbn [negb]; step_bind; [reflexivity|].
    destruct needs; cbn [negb]; step_bind; [|reflexivity].
    apply Qltb_ge in Hle. rewrite Hle. reflexivity.
  - intros ts -> Hpos Hw.
    cbn [negb]. apply Qltb_lt in Hpos. rewrite Hpos.
    rewrite Hw. step_bind. apply Qltb_lt in Hpos.
    rewrite (Qabs_pos change) by lra.
    minmax_cases; repeat split; lra.
Qed.

(** Bitcoin 500 short of its target in a wallet of 2500, with a maximum
    stake of 1000: the size is at least 5% of the wallet. *)
Lemma rebalancing_stake_within_limits_witness :
  2500 * PortfolioRebalancing.min_position_size
           PortfolioRebalancing.limits_defaults
  <= PortfolioRebalancing.custom_stake_amount PortfolioRebalancing.defaults
       PortfolioRebalancing.limits_defaults Scenarios.btc_at_20_percent
       "BTC/USD" 100 (Some 10) 1000.
Proof.
  apply (proj2 (rebalancing_stake_within_limits PortfolioRebalancing.defaults
                  PortfolioRebalancing.limits_defaults
                  Scenarios.btc_at_20_percent "BTC/USD" 100 (Some 10) 1000)
           2500);
    vm_compute; reflexivity.
Defined.

(** PortfolioRebalancingStrategy.custom_exit_price never goes below the
    proposed rate: it returns the proposed rate itself, always so for a
    tag without "rebalance", or else a strictly higher price that is the
    smaller of 99% of the resistance and 98% of the upper band of the last
    candle. *)
Theorem rebalancing_exit_price_not_below_proposed
    (env : Env) (pair : string) (proposed_rate : Q)
    (exit_tag : option string) :
  let price :=
    PortfolioRebalancing.custom_exit_price env pair proposed_rate exit_tag in
  (tag_has "rebalance" exit_tag = false -> price = proposed_rate) /\
  proposed_rate <= price /\
  (price = proposed_rate \/
   exists df c,
     dp_get_analyzed_dataframe env pair = Ok df /\
     iloc_last df = Ok c /\
     proposed_rate < price /\
     price == Qmin (candle_get c "resistance" proposed_rate * 0.99)
                (candle_get c "bb_upper" proposed_rate * 0.98)).
Proof.
  intros price. subst price. unfold PortfolioRebalancing.custom_exit_price.
  destruct (tag_has "rebalance" exit_tag).
  2: { repeat split; [lra | left; reflexivity]. }
  split; [discriminate|].
  unfold PortfolioRebalancing.custom_exit_price_body.
  destruct (dp_get_analyzed_dataframe env pair) as [df|]; step_bind.
  2: { split; [lra | left; reflexivity]. }
  destruct (df_empty df); cbn [negb]; step_bind.
  1: { split; [lra | left; reflexivity]. }
  destruct (iloc_last df) as [c|] eqn:Hc; step_bind.
  2: { split; [lra | left; reflexivity]. }
  case_cmp; step_bind.
  - split; [lra|]. right. exists df, c.
    repeat split; try assumption.
    revert Hcmp. minmax_cases; lra.
  - split; [lra | left; reflexivity].
Qed.

(** An exit without a tag, proposed at 100 on a candle with resistance
    120 and upper band 115, keeps the proposed rate. *)
Lemma rebalancing_exit_price_not_below_proposed_witness :
  PortfolioRebalancing.custom_exit_price Scenarios.btc_short_of_target
    "BTC/USD" 100 None = 100.
Proof.
  apply (proj1 (rebalancing_exit_price_not_below_proposed
                  Scenarios.btc_short_of_target "BTC/USD" 100 None)).
  reflexivity.
Defined.



(** ** AggressiveSophisticated1m: sizing, stop and entry signals *)

(** AggressiveSophisticated1m.custom_stake_amount with a wallet attached
    whose open trades can be read: it returns a stake, which never exceeds
    [max_stake], is at least [min_stake] when [min_stake] does not exceed
    [max_stake], and never exceeds the larger of [min_stake] and a
    non-negative proposed stake. *)
Theorem aggressive_stake_within_limits
    (sur : Surroundings) (open_trades : option (list Trade))
    (proposed_stake min_stake max_stake : Q) :
  wallets_attached sur = true ->
  wallets_get_open_trades sur = Ok open_trades ->
  exists stake,
    AggressiveSophisticated.custom_stake_amount sur proposed_stake min_stake
      max_stake = Ok stake /\
    stake <= max_stake /\
    (min_stake <= max_stake -> min_stake <= stake) /\
    (0 <= proposed_stake -> stake <= Qmax min_stake proposed_stake).
Proof.
  intros Hw Hots. unfold AggressiveSophisticated.custom_stake_amount.
  rewrite Hw, Hots. cbn [negb]. step_bind.
  eexists. split; [reflexivity|].
  match goal with
  | |- context [proposed_stake * ?m] => set (mult := m)
  end.
  assert (Hm : 0 <= mult <= 1).
  { subst mult.
    repeat match goal with
           | |- context [if ?b then _ else _] => destruct b
           end; lra. }
  clearbody mult.
  minmax_cases; repeat split; intros; nra.
Qed.

(** Twenty open trades out of twenty-five allowed: a proposed stake of
    100 becomes 33, within the limits 10 and 1000. *)
Lemma aggressive_stake_within_limits_witness :
  exists stake,
    AggressiveSophisticated.custom_stake_amount
      (Scenarios.wallet_with
         (repeat (Scenarios.open_trade "ETH/USDT" 1 None []) 20) 25)
      100 10 1000 = Ok stake /\
    stake <= 1000 /\ (10 <= 1000 -> 10 <= stake) /\
    (0 <= 100 -> stake <= Qmax 10 100).
Proof.
  apply (aggressive_stake_within_limits
           (Scenarios.wallet_with
              (repeat (Scenarios.open_trade "ETH/USDT" 1 None []) 20) 25)
           (Some (repeat (Scenarios.open_trade "ETH/USDT" 1 None []) 20))
           100 10 1000);
    vm_compute; reflexivity.
Defined.

(** AggressiveSophisticated1m.custom_stake_amount never grows with the
    number of open trades: with the same configuration, limits and
    non-negative proposed stake, a wallet that lists at least as many open
    trades gets a stake that is not larger. *)
Theorem aggressive_stake_shrinks_with_open_trades
    (sur : Surroundings) (fewer more : list Trade)
    (proposed_stake min_stake max_stake stake1 stake2 : Q) :
  let with_trades (ts : list Trade) : Surroundings := {|
    base_env := base_env sur;
    utcnow := utcnow sur;
    dp_orderbook := dp_orderbook sur;
    wallets_attached := true;
    wallets_get_open_trades := Ok (Some ts);
    config_max_open_trades := config_max_open_trades sur
  |} in
  (length fewer <= length more)%nat ->
  0 <= proposed_stake ->
  AggressiveSophisticated.custom_stake_amount (with_trades fewer)
    proposed_stake min_stake max_stake = Ok stake1 ->
  AggressiveSophisticated.custom_stake_amount (with_trades more)
    proposed_stake min_stake max_stake = Ok stake2 ->
  stake2 <= stake1.
Proof.
  intros with_trades Hlen Hprop.
  unfold AggressiveSophisticated.custom_stake_amount. subst with_trades.
  cbn [wallets_attached wallets_get_open_trades config_max_open_trades negb].
  step_bind.
  assert (Hcount : forall ts : list Trade,
            match ts with
            | t :: ts' => inject_Z (Z.of_nat (length (t :: ts')))
            | [] => 0
            end = inject_Z (Z.of_nat (length ts))).
  { intros [|t ts]; reflexivity. }
  rewrite !Hcount.
  assert (Hq : inject_Z (Z.of_nat (length fewer))
               <= inject_Z (Z.of_nat (length more))).
  { rewrite <- Zle_Qle. lia. }
  revert Hq.
  generalize (inject_Z (Z.of_nat (length fewer)))
             (inject_Z (Z.of_nat (length more))).
  intros c1 c2 Hq.
  generalize (default 1 (config_max_open_trades sur) / 3)
             (default 1 (config_max_open_trades sur) * 2 / 3).
  intros a b.
  intros [= <-] [= <-].
  destruct (Qleb (default 1 (config_max_open_trades sur)) 0);
    [minmax_cases; lra|].
  destruct (Qltb c1 a) eqn:H1a; destruct (Qltb c2 a) eqn:H2a;
    destruct (Qltb c1 b) eqn:H1b; destruct (Qltb c2 b) eqn:H2b;
    bool_facts; try lra; minmax_cases; nra.
Qed.

(** Five open trades against twenty, with twenty-five allowed: 100 and
    33. *)
Lemma aggressive_stake_shrinks_with_open_trades_witness :
  33.00 <= 100.0.
Proof.
  apply (aggressive_stake_shrinks_with_open_trades
           (Scenarios.wallet_with [] 25)
           (repeat (Scenarios.open_trade "ETH/USDT" 1 None []) 5)
           (repeat (Scenarios.open_trade "ETH/USDT" 1 None []) 20)
           100 10 1000 100.0 33.00).
  - vm_compute. lia.
  - vm_compute. discriminate.
  - vm_compute. reflexivity.
  - vm_compute. reflexivity.
Defined.

(** Two columns that are present make a row of more than one column. *)
Lemma two_columns_not_squeezed (c : Candle) (k1 k2 : string) (v1 v2 : Q) :
  k1 <> k2 -> c !! k1 = Some v1 -> c !! k2 = Some v2 ->
  AggressiveSophisticated.squeeze_for_lookup c = Ok c.
Proof.
  intros Hne H1 H2. unfold AggressiveSophisticated.squeeze_for_lookup.
  destruct (Nat.eqb_spec (size c) 1) as [Hsize|]; [|reflexivity].
  exfalso.
  rewrite <- (insert_delete_id c k1 v1 H1) in Hsize.
  rewrite map_size_insert_None in Hsize by apply lookup_delete_eq.
  injection Hsize as Hsize. apply map_size_empty_iff in Hsize.
  assert (Hk2 : delete k1 c !! k2 = Some v2)
    by (rewrite lookup_delete_ne by exact Hne; exact H2).
  rewrite Hsize in Hk2. rewrite lookup_empty in Hk2. discriminate.
Qed.

(** AggressiveSophisticated1m.custom_stoploss for a long position: every
    stop it returns lies between the static stoploss and the larger of the
    static stoploss and 0, so the ATR stop never loosens the static one
    and never moves above the entry.  It does return a stop when the
    dataframe is empty, and when its last candle has a close besides at
    least one other column; on a dataframe of a single column it raises
    [TypeError], the squeezed row being a number. *)
Theorem aggressive_long_stop_range
    (sp : AggressiveSophisticated.StopParameters) (env : Env) (pair : string)
    (trade : Trade) :
  is_short trade = false ->
  (forall stop,
     AggressiveSophisticated.custom_stoploss sp env pair trade = Ok stop ->
     AggressiveSophisticated.stoploss sp <= stop /\
     stop <= Qmax (AggressiveSophisticated.stoploss sp) 0)
  /\
  (forall df,
     dp_get_analyzed_dataframe env pair = Ok df ->
     df = [] \/
     (exists c close other v,
        iloc_last df = Ok c /\ c !! "close"%string = Some close /\
        other <> "close"%string /\ c !! other = Some v) ->
     exists stop,
       AggressiveSophisticated.custom_stoploss sp env pair trade = Ok stop)
  /\
  (forall df c,
     dp_get_analyzed_dataframe env pair = Ok df ->
     iloc_last df = Ok c -> size c = 1%nat ->
     AggressiveSophisticated.custom_stoploss sp env pair trade
     = Raise TypeError).
Proof.
  intros Hlong. unfold AggressiveSophisticated.custom_stoploss.
  rewrite Hlong. split; [|split].
  - intros stop.
    assert (Hfallback :
      AggressiveSophisticated.stoploss sp
        <= AggressiveSophisticated.stoploss sp
      /\ AggressiveSophisticated.stoploss sp
         <= Qmax (AggressiveSophisticated.stoploss sp) 0)
      by (split; [lra | apply Q.le_max_l]).
    destruct (dp_get_analyzed_dataframe env pair) as [df|]; step_bind;
      [|discriminate].
    destruct (df_empty df); step_bind; [intros [= <-]; exact Hfallback|].
    destruct (iloc_last df) as [row|]; step_bind; [|discriminate].
    unfold AggressiveSophisticated.squeeze_for_lookup.
    destruct (size row =? 1)%nat; step_bind; [discriminate|].
    destruct (row !! _) as [atr_val|]; step_bind;
      [|intros [= <-]; exact Hfallback].
    cbn [AggressiveSophisticated.isfinite negb].
    destruct (AggressiveSophisticated.candle_item row "close") as [close|];
      step_bind; [|discriminate].
    destruct (Qeqb (open_rate trade) 0); step_bind;
      [intros [= <-]; exact Hfallback|].
    intros [= <-].
    generalize (Qmax (open_rate trade * (1 - Qabs (AggressiveSophisticated.stoploss sp)))
                  (close - atr_val * AggressiveSophisticated.atr_multiplier sp)
                / open_rate trade - 1.0).
    intros rel. minmax_cases; split; lra.
  - intros df ->
      [-> | (c & close & other & v & Hlast & Hclose & Hother & Hv)];
      step_bind.
    + cbn [df_empty]. eexists. reflexivity.
    + destruct (df_empty df); step_bind; [eexists; reflexivity|].
      rewrite Hlast. step_bind.
      rewrite (two_columns_not_squeezed c other "close" v close Hother Hv
                 Hclose).
      step_bind.
      match goal with
      | |- context [match ?x with Some _ => _ | None => _ end] =>
          destruct x as [atr_val|]
      end; step_bind; [|eexists; reflexivity].
      cbn [AggressiveSophisticated.isfinite negb].
      unfold AggressiveSophisticated.candle_item. rewrite Hclose. step_bind.
      destruct (Qeqb (open_rate trade) 0); eexists; reflexivity.
  - intros df c -> Hlast Hsize. step_bind.
    rewrite (iloc_last_nonempty df c Hlast), Hlast. step_bind.
    unfold AggressiveSophisticated.squeeze_for_lookup.
    rewrite Hsize. reflexivity.
Qed.

(** A long position opened at 100, last close 104 and ATR 1: the ATR
    stop is above the entry and the stop returned is 0. *)
Lemma aggressive_long_stop_range_witness :
  AggressiveSophisticated.custom_stoploss AggressiveSophisticated.stop_defaults
    (Scenarios.env_of 1000 [] Scenarios.atr_candle) "BTC/USDT"
    Scenarios.long_position = Ok 0 /\
  AggressiveSophisticated.stoploss AggressiveSophisticated.stop_defaults
    <= 0 /\
  0 <= Qmax (AggressiveSophisticated.stoploss
               AggressiveSophisticated.stop_defaults) 0.
Proof.
  split; [vm_compute; reflexivity|].
  apply (aggressive_long_stop_range AggressiveSophisticated.stop_defaults
           (Scenarios.env_of 1000 [] Scenarios.atr_candle) "BTC/USDT"
           Scenarios.long_position eq_refl).
  vm_compute. reflexivity.
Defined.

(** The ATR column is not the close column. *)
Lemma atr_column_not_close (period : string) :
  ("atr_" ++ period)%string <> "close"%string.
Proof. discriminate. Qed.

(** AggressiveSophisticated1m.custom_stoploss for a short position with
    market data, a positive open rate and a static stoploss that is not
    positive: the initial stop price is computed below the entry
    ([open_rate * (1 + stoploss)]), the smaller of it and the ATR stop is
    kept, and the stop returned is 0 whatever the ATR and the close are. *)
Theorem aggressive_short_stop_is_zero
    (sp : AggressiveSophisticated.StopParameters) (env : Env) (pair : string)
    (trade : Trade) (df : DataFrame) (c : Candle) (atr_val close : Q) :
  is_short trade = true ->
  AggressiveSophisticated.stoploss sp <= 0 ->
  0 < open_rate trade ->
  dp_get_analyzed_dataframe env pair = Ok df ->
  iloc_last df = Ok c ->
  c !! ("atr_" ++ pretty (AggressiveSophisticated.atr_period sp))%string
    = Some atr_val ->
  c !! "close"%string = Some close ->
  exists stop,
    AggressiveSophisticated.custom_stoploss sp env pair trade = Ok stop /\
    stop == 0.
Proof.
  intros Hshort Hsl Hopen Hdf Hc Hatr Hclose.
  unfold AggressiveSophisticated.custom_stoploss.
  rewrite Hdf. step_bind. rewrite (iloc_last_nonempty df c Hc), Hc. step_bind.
  rewrite (two_columns_not_squeezed c _ "close" atr_val close
             (atr_column_not_close _) Hatr Hclose).
  step_bind.
  rewrite Hatr. cbn [AggressiveSophisticated.isfinite negb].
  unfold AggressiveSophisticated.candle_item. rewrite Hclose. step_bind.
  rewrite Hshort.
  assert (Hnz : Qeqb (open_rate trade) 0 = false) by (apply Qeqb_neq; lra).
  rewrite Hnz. step_bind.
  eexists. split; [reflexivity|].
  set (stop_price :=
         Qmin (open_rate trade * (1 + AggressiveSophisticated.stoploss sp))
              (close + atr_val * AggressiveSophisticated.atr_multiplier sp)).
  assert (Hsp : stop_price
                <= open_rate trade * (1 + AggressiveSophisticated.stoploss sp))
    by (subst stop_price; apply Q.le_min_l).
  assert (Hrel : stop_price / open_rate trade
                 <= 1 + AggressiveSophisticated.stoploss sp).
  { apply Qle_shift_div_r; [exact Hopen | lra]. }
  pose proof (Qabs_nonneg (AggressiveSophisticated.stoploss sp)) as Habs.
  revert Hrel Habs.
  generalize (stop_price / open_rate trade)
             (Qabs (AggressiveSophisticated.stoploss sp)).
  intros ratio abs_sl Hrel Habs.
  minmax_cases; lra.
Qed.

(** A short position opened at 100, last close 104 and ATR 1: the stop
    returned is 0. *)
Lemma aggressive_short_stop_is_zero_witness :
  exists stop,
    AggressiveSophisticated.custom_stoploss
      AggressiveSophisticated.stop_defaults
      (Scenarios.env_of 1000 [] Scenarios.atr_candle) "BTC/USDT"
      Scenarios.short_position = Ok stop /\
    stop == 0.
Proof.
  apply (aggressive_short_stop_is_zero AggressiveSophisticated.stop_defaults
           (Scenarios.env_of 1000 [] Scenarios.atr_candle) "BTC/USDT"
           Scenarios.short_position [Scenarios.atr_candle]
           Scenarios.atr_candle 1 104).
  - reflexivity.
  - vm_compute. discriminate.
  - vm_compute. reflexivity.
  - reflexivity.
  - reflexivity.
  - vm_compute. reflexivity.
  - vm_compute. reflexivity.
Defined.

(** A signal column that starts at 0 holds 1 after a masked assignment
    exactly on the rows that satisfy the mask. *)
Lemma loc_set_one {A : Type} (mask : A -> bool) (dataframe : list A)
    (i : nat) :
  loc_set (map mask dataframe) 1%Z (map (fun _ => 0%Z) dataframe) !! i
    = Some 1%Z ->
  exists r, dataframe !! i = Some r /\ mask r = true.
Proof.
  unfold loc_set. rewrite zip_with_map_same.
  change (map (fun x => if mask x then 1%Z else 0%Z) dataframe)
    with ((fun x => if mask x then 1%Z else 0%Z) <$> dataframe).
  rewrite list_lookup_fmap.
  destruct (dataframe !! i) as [r|]; [|discriminate].
  cbn. destruct (mask r) eqn:Hm; [|discriminate].
  intros _. exists r. split; [reflexivity | exact Hm].
Qed.

(** With all-zero signal columns, [populate_entry_trend] of
    AggressiveSophisticated1m sets a long entry only on rows whose regime
    is Uptrend (1) or Range (3), a short entry only on rows whose regime
    is Downtrend (2) or Range (3), hence none on Uncertain rows, and never
    both on the same row. *)
Theorem aggressive_entries_follow_regime
    (dataframe : list AggressiveSophisticated.EntryRow) (i : nat) :
  let zeros := map (fun _ => 0%Z) dataframe in
  let columns :=
    AggressiveSophisticated.populate_entry_trend dataframe zeros zeros in
  (columns.1 !! i = Some 1%Z ->
   exists r, dataframe !! i = Some r /\
             (AggressiveSophisticated.regime r = 1%Z \/
              AggressiveSophisticated.regime r = 3%Z)) /\
  (columns.2 !! i = Some 1%Z ->
   exists r, dataframe !! i = Some r /\
             (AggressiveSophisticated.regime r = 2%Z \/
              AggressiveSophisticated.regime r = 3%Z)) /\
  ~ (columns.1 !! i = Some 1%Z /\ columns.2 !! i = Some 1%Z).
Proof.
  intros zeros columns. subst columns zeros.
  unfold AggressiveSophisticated.populate_entry_trend. cbn [fst snd].
  split; [|split].
  - intros H. apply loc_set_one in H as (r & Hr & Hm).
    exists r. split; [exact Hr|].
    unfold AggressiveSophisticated.long_mask in Hm.
    bool_facts;
      repeat match goal with
             | H : Z.eqb _ _ = true |- _ => apply Z.eqb_eq in H
             end; tauto.
  - intros H. apply loc_set_one in H as (r & Hr & Hm).
    exists r. split; [exact Hr|].
    unfold AggressiveSophisticated.short_mask in Hm.
    bool_facts;
      repeat match goal with
             | H : Z.eqb _ _ = true |- _ => apply Z.eqb_eq in H
             end; tauto.
  - intros [Hl Hs].
    apply loc_set_one in Hl as (r & Hr & Hlong).
    apply loc_set_one in Hs as (r' & Hr' & Hshort).
    rewrite Hr in Hr'. injection Hr' as <-.
    unfold AggressiveSophisticated.long_mask in Hlong.
    unfold AggressiveSophisticated.short_mask in Hshort.
    bool_facts;
      repeat match goal with
             | H : Z.eqb _ _ = true |- _ => apply Z.eqb_eq in H
             end; try lia; lra.
Qed.

(** A ranging row with the stochastic turning up at the lower band gets
    a long entry, and its regime is Range. *)
Lemma aggressive_entries_follow_regime_witness :
  exists r, [Scenarios.range_long_row] !! 0%nat = Some r /\
            (AggressiveSophisticated.regime r = 1%Z \/
             AggressiveSophisticated.regime r = 3%Z).
Proof.
  apply (proj1 (aggressive_entries_follow_regime
                  [Scenarios.range_long_row] 0%nat)).
  vm_compute. reflexivity.
Defined.

(** ** HighFrequencyScalp1m: the spread check and the trailing level *)



(** HighFrequencyScalp1m.custom_stoploss: below 1% of profit it returns
    the placeholder 1; from 1% on it returns half the profit capped at 5%,
    so the level lies between 0.5% and 5% and never above half the
    profit; the minimum of 0.25% is never the value returned. *)
Theorem scalp_stop_levels (current_profit : Q) :
  (current_profit < 0.01 ->
   HighFrequencyScalp.custom_stoploss current_profit = 1) /\
  (0.01 <= current_profit ->
   HighFrequencyScalp.custom_stoploss current_profit
     == Qmin (current_profit / 2) 0.05 /\
   0.005 <= HighFrequencyScalp.custom_stoploss current_profit /\
   HighFrequencyScalp.custom_stoploss current_profit <= 0.05 /\
   HighFrequencyScalp.custom_stoploss current_profit <= current_profit / 2 /\
   ~ HighFrequencyScalp.custom_stoploss current_profit == 0.0025).
Proof.
  unfold HighFrequencyScalp.custom_stoploss. split.
  - intros H. apply Qltb_lt in H. rewrite H. reflexivity.
  - intros H.
    assert (Hn : Qltb current_profit 0.01 = false) by (apply Qltb_ge; exact H).
    rewrite Hn.
    assert (Hh : 0.005 <= current_profit / 2)
      by (apply Qle_shift_div_l; lra).
    revert Hh. generalize (current_profit / 2). intros half Hh.
    minmax_cases; repeat split; lra.
Qed.

(** At 4% of profit the level is 2%. *)
Lemma scalp_stop_levels_witness :
  HighFrequencyScalp.custom_stoploss 0.04 <= 0.04 / 2.
Proof.
  apply (proj2 (scalp_stop_levels 0.04)).
  vm_compute. discriminate.
Defined.

(** ** EmaRsiStrategy: signals *)

(** With all-zero signal columns, EmaRsiStrategy never sets an entry and
    an exit signal on the same candle, sets an entry only where the RSI
    is below 60 and sets either signal only on candles that have
    volume. *)
Theorem ema_rsi_signals_exclusive (dataframe : list EmaRsi.Row) (i : nat) :
  let zeros := map (fun _ => 0%Z) dataframe in
  let enter_long := EmaRsi.populate_entry_trend dataframe zeros in
  let exit_long := EmaRsi.populate_exit_trend dataframe zeros in
  ~ (enter_long !! i = Some 1%Z /\ exit_long !! i = Some 1%Z) /\
  (enter_long !! i = Some 1%Z ->
   exists r, dataframe !! i = Some r /\ EmaRsi.rsi r < 60 /\
             0 < EmaRsi.volume r) /\
  (exit_long !! i = Some 1%Z ->
   exists r, dataframe !! i = Some r /\ 0 < EmaRsi.volume r).
Proof.
  intros zeros enter_long exit_long. subst zeros enter_long exit_long.
  unfold EmaRsi.populate_entry_trend, EmaRsi.populate_exit_trend.
  split; [|split].
  - intros [Hin Hout].
    apply loc_set_one in Hin as (r & Hr & Hentry).
    apply loc_set_one in Hout as (r' & Hr' & Hexit).
    rewrite Hr in Hr'. injection Hr' as <-.
    unfold EmaRsi.entry_mask in Hentry. unfold EmaRsi.exit_mask in Hexit.
    bool_facts. lra.
  - intros Hin. apply loc_set_one in Hin as (r & Hr & Hentry).
    exists r. split; [exact Hr|].
    unfold EmaRsi.entry_mask, EmaRsi.buy_rsi_threshold in Hentry.
    bool_facts. split; assumption.
  - intros Hout. apply loc_set_one in Hout as (r & Hr & Hexit).
    exists r. split; [exact Hr|].
    unfold EmaRsi.exit_mask in Hexit. bool_facts. assumption.
Qed.

(** A candle with the fast EMA above the slow one, RSI 50 and volume
    gets an entry signal. *)
Lemma ema_rsi_signals_exclusive_witness :
  exists r, [Scenarios.ema_up_row] !! 0%nat = Some r /\
            EmaRsi.rsi r < 60 /\ 0 < EmaRsi.volume r.
Proof.
  apply (proj1 (proj2 (ema_rsi_signals_exclusive [Scenarios.ema_up_row]
                         0%nat))).
  vm_compute. reflexivity.
Defined.
